(** * Quote aggregation and fallback routing of the DeFi aggregator

    A shallow embedding of the services behind [getBestSwapRoute]:
    [PriceService] (price cache and rate limiter), [DexService] (pool cache,
    synthetic quoter, amount formatting), [SwapService] (route selection and
    fallback synthesis) and [DeFiService] (network switch, testnet rates).

    Numbers.  The services compute with JavaScript numbers.  The embedding
    keeps the special values [NaN], [Infinity] and [-Infinity], on which the
    control flow of the services depends, and represents every finite value
    by an exact rational.  Rounding to binary64 ([JS.to_binary64]) is
    applied where a printed result depends on it in kind: the two amount
    formatters floor and round the binary64 product of the amount and the
    multiplier ([JS.mul64]).  Elsewhere the arithmetic is exact, and the
    sign of zero is not represented; the statements about such results are
    limited to what rounding and overflow leave true (a result that is not
    negative may be [Infinity]), and concrete evaluations are chosen so
    that the binary64 computation rounds to the same printed digits.
    [Math.log10] is not computed: it is a parameter of the quoter.

    Effects.  An async function is a program over the effects of the
    services ([Date.now()], [setTimeout], the state of the four singleton
    services, the upstream requests), which returns or throws.  The outside
    world is an oracle that answers or rejects every request after some
    latency.  [run] awaits one call to its end; [Promise.all] inside a call
    takes its promises in order.  [run_concurrently] is the event loop for
    several calls in flight.  Time is the value of [Date.now()], in
    milliseconds.

    The clients of DeFiLlama, [LendingService] and [DeFiLlamaService], are
    embedded in the same way over effects of their own ([Llama]): the
    clock, the three caches of [DeFiLlamaService] and the requests to the
    three endpoints, whose answers are decoded as the records that the code
    reads.  The two calls of [LendingService.getYieldOpportunities] are in
    flight together ([Llama.promise_all2]). *)

From Stdlib Require Import ZArith QArith Qround Lia Lqa Ascii String Bool Sorted.
From stdpp Require Import gmap strings list fin_maps.

Local Open Scope Z_scope.

(* ===================================================================== *)
(** * JavaScript numbers, [toFixed] and [parseFloat]                      *)
(* ===================================================================== *)

Module JS.

Inductive number : Type :=
| NaN
| PInf
| NInf
| Fin (q : Q).

(** Sign of a rational, as the three-way comparison with zero. *)
Definition sgn (q : Q) : comparison := (q ?= 0)%Q.

(** [if (x)], [!x], [x || d]: zero and NaN are falsy. *)
Definition truthy (x : number) : bool :=
  match x with
  | NaN => false
  | Fin q => match sgn q with Eq => false | _ => true end
  | _ => true
  end.

(** [x || d] on numbers. *)
Definition or_else (x d : number) : number := if truthy x then x else d.

Definition isNaN (x : number) : bool :=
  match x with NaN => true | _ => false end.

Definition inf_of (positive : bool) : number := if positive then PInf else NInf.

Definition neg (x : number) : number :=
  match x with
  | NaN => NaN
  | PInf => NInf
  | NInf => PInf
  | Fin q => Fin (- q)
  end.

(** An infinity of sign [positive] times a finite value of sign [c]. *)
Definition inf_times (positive : bool) (c : comparison) : number :=
  match c with
  | Eq => NaN
  | Gt => inf_of positive
  | Lt => inf_of (negb positive)
  end.

Definition mul (x y : number) : number :=
  match x, y with
  | NaN, _ | _, NaN => NaN
  | Fin a, Fin b => Fin (a * b)
  | Fin a, PInf | PInf, Fin a => inf_times true (sgn a)
  | Fin a, NInf | NInf, Fin a => inf_times false (sgn a)
  | PInf, PInf | NInf, NInf => PInf
  | PInf, NInf | NInf, PInf => NInf
  end.

Definition div (x y : number) : number :=
  match x, y with
  | NaN, _ | _, NaN => NaN
  | Fin a, Fin b =>
      match sgn b with
      | Eq => match sgn a with Eq => NaN | Gt => PInf | Lt => NInf end
      | _ => Fin (a / b)
      end
  | Fin _, (PInf | NInf) => Fin 0
  | PInf, Fin b => match sgn b with Lt => NInf | _ => PInf end
  | NInf, Fin b => match sgn b with Lt => PInf | _ => NInf end
  | (PInf | NInf), (PInf | NInf) => NaN
  end.

Definition add (x y : number) : number :=
  match x, y with
  | NaN, _ | _, NaN => NaN
  | Fin a, Fin b => Fin (a + b)
  | PInf, NInf | NInf, PInf => NaN
  | PInf, _ | _, PInf => PInf
  | NInf, _ | _, NInf => NInf
  end.

Definition sub (x y : number) : number := add x (neg y).

(** [x < y]; every comparison with NaN is false. *)
Definition ltb (x y : number) : bool :=
  match x, y with
  | NaN, _ | _, NaN => false
  | Fin a, Fin b => match (a ?= b)%Q with Lt => true | _ => false end
  | NInf, NInf => false
  | NInf, _ => true
  | _, NInf => false
  | PInf, _ => false
  | _, PInf => true
  end.

Definition gtb (x y : number) : bool := ltb y x.

(** [x <= y]. *)
Definition leb (x y : number) : bool :=
  match x, y with
  | NaN, _ | _, NaN => false
  | Fin a, Fin b => match (a ?= b)%Q with Gt => false | _ => true end
  | NInf, _ => true
  | _, PInf => true
  | _, _ => false
  end.

(** [x === y] on numbers. *)
Definition strict_eqb (x y : number) : bool :=
  match x, y with
  | Fin a, Fin b => match (a ?= b)%Q with Eq => true | _ => false end
  | PInf, PInf | NInf, NInf => true
  | _, _ => false
  end.

(** [Math.min] and [Math.max]: NaN if either argument is NaN. *)
Definition Math_min (x y : number) : number :=
  match x, y with
  | NaN, _ | _, NaN => NaN
  | _, _ => if ltb y x then y else x
  end.

Definition Math_max (x y : number) : number :=
  match x, y with
  | NaN, _ | _, NaN => NaN
  | _, _ => if ltb x y then y else x
  end.

Definition Math_floor (x : number) : number :=
  match x with
  | Fin q => Fin (inject_Z (Qfloor q))
  | _ => x
  end.

(** [Math.pow(10, d)] for a digit count [d]. *)
Definition pow10 (d : nat) : Z := 10 ^ Z.of_nat d.

Definition Math_pow10 (d : nat) : number := Fin (inject_Z (pow10 d)).

(** Two numbers denote the same value. *)
Definition same (x y : number) : Prop :=
  match x, y with
  | NaN, NaN | PInf, PInf | NInf, NInf => True
  | Fin a, Fin b => (a == b)%Q
  | _, _ => False
  end.

(** A finite number that is not negative: what "a non-negative number"
    means for a value read back from a string. *)
Definition nonneg (x : number) : Prop :=
  match x with
  | Fin q => (0 <= q)%Q
  | _ => False
  end.

(** ** Decimal digits *)

(** The character of the digit [k mod 10], and the value of a digit
    character: the digits are the codes 48 to 57. *)
Definition digit_char (k : Z) : ascii :=
  ascii_of_N (48 + Z.to_N (k mod 10)).

Definition digit_val (c : ascii) : option Z :=
  let code := N_of_ascii c in
  if ((48 <=? code) && (code <=? 57))%N then Some (Z.of_N code - 48) else None.

Definition is_digit (c : ascii) : bool :=
  match digit_val c with Some _ => true | None => false end.

(** The [len] low decimal digits of [n], most significant first. *)
Fixpoint fixed_digits (len : nat) (n : Z) : string :=
  match len with
  | O => EmptyString
  | S k => fixed_digits k (n / 10) +:+ String (digit_char (n mod 10)) EmptyString
  end.

(** Number of decimal digits of [n >= 0] (1 for zero). *)
Fixpoint ndigits (fuel : nat) (n : Z) : nat :=
  match fuel with
  | O => 1
  | S f => if n <? 10 then 1%nat else S (ndigits f (n / 10))
  end.

Definition num_digits (n : Z) : nat := ndigits (Z.to_nat (Z.log2 n)) n.

(** Decimal numeral of a non-negative integer, without leading zeros. *)
Definition digits (n : Z) : string := fixed_digits (num_digits n) n.

(** ** [Number.prototype.toFixed] *)

(** The integer [n] for which [n / 10^d - q] is closest to zero, the larger
    one on a tie ([q >= 0]). *)
Definition scaled_round (q : Q) (d : nat) : Z :=
  Qfloor (q * inject_Z (pow10 d) + (1 # 2)).

(** Positional numeral of [n / 10^d] with exactly [d] fraction digits.
    JavaScript switches to exponent notation from 10^21 on; the embedding
    keeps the positional numeral there, which [parseFloat] reads back to
    the same value. *)
Definition fixed_numeral (n : Z) (d : nat) : string :=
  digits (n / pow10 d) +:+
  match d with
  | O => EmptyString
  | S _ => String "."%char (fixed_digits d (n mod pow10 d))
  end.

Definition toFixed (x : number) (d : nat) : string :=
  match x with
  | NaN => "NaN"
  | PInf => "Infinity"
  | NInf => "-Infinity"
  | Fin q =>
      match sgn q with
      | Lt => String "-"%char (fixed_numeral (scaled_round (- q) d) d)
      | _ => fixed_numeral (scaled_round q d) d
      end
  end.

(** The value that the numeral [toFixed x d] denotes. *)
Definition toFixed_value (x : number) (d : nat) : number :=
  match x with
  | Fin q =>
      match sgn q with
      | Lt => Fin (- (inject_Z (scaled_round (- q) d) / inject_Z (pow10 d)))
      | _ => Fin (inject_Z (scaled_round q d) / inject_Z (pow10 d))
      end
  | _ => x
  end.

(** [Number.prototype.toString] of an integral value, as
    [Math.floor(..).toString()] uses it. *)
Definition toString_int (x : number) : string :=
  match x with
  | NaN => "NaN"
  | PInf => "Infinity"
  | NInf => "-Infinity"
  | Fin q =>
      match sgn q with
      | Lt => String "-"%char (digits (Qfloor (- q)))
      | _ => digits (Qfloor q)
      end
  end.

(** ** [parseFloat] *)

(** White space that [parseFloat] skips (the ASCII part of it). *)
Definition is_ws (c : ascii) : bool :=
  match N_of_ascii c with
  | 9%N | 10%N | 11%N | 12%N | 13%N | 32%N => true
  | _ => false
  end.

Fixpoint skip_ws (s : string) : string :=
  match s with
  | String c s' => if is_ws c then skip_ws s' else s
  | EmptyString => s
  end.

(** Reads the longest run of digits: its value on top of [acc], the number
    of digits read on top of [cnt], and the rest of the string. *)
Fixpoint scan_digits (s : string) (acc : Z) (cnt : nat) : Z * nat * string :=
  match s with
  | String c s' =>
      match digit_val c with
      | Some v => scan_digits s' (acc * 10 + v) (S cnt)
      | None => (acc, cnt, s)
      end
  | EmptyString => (acc, cnt, s)
  end.

Definition take_sign (s : string) : bool * string :=
  match s with
  | String "+"%char t => (false, t)
  | String "-"%char t => (true, t)
  | _ => (false, s)
  end.

(** Value of an exponent part [e[+-]digits] at the head of [s]; 0 when
    there is none. *)
Definition scan_exponent (s : string) : Z :=
  match s with
  | String c s1 =>
      if (Ascii.eqb c "e" || Ascii.eqb c "E")%char then
        let (negative, s2) := take_sign s1 in
        let '(e, cnt, _) := scan_digits s2 0 0 in
        match cnt with
        | O => 0
        | S _ => if negative then - e else e
        end
      else 0
  | EmptyString => 0
  end.

(** The longest prefix that is an unsigned decimal literal. *)
Definition parse_unsigned (s : string) : option Q :=
  let '(ip, ic, r1) := scan_digits s 0 0 in
  match r1 with
  | String "."%char r2 =>
      let '(fp, fc, r3) := scan_digits r2 0 0 in
      match ic, fc with
      | O, O => None
      | _, _ =>
          Some ((inject_Z ip + inject_Z fp / inject_Z (pow10 fc))
                * 10 ^ scan_exponent r3)%Q
      end
  | _ =>
      match ic with
      | O => None
      | S _ => Some (inject_Z ip * 10 ^ scan_exponent r1)%Q
      end
  end.

Definition parseFloat (s : string) : number :=
  let (negative, s1) := take_sign (skip_ws s) in
  if String.prefix "Infinity" s1 then inf_of (negb negative)
  else
    match parse_unsigned s1 with
    | None => NaN
    | Some q => Fin (if negative then - q else q)
    end.

(** Decidable form of [same], for evaluation. *)
Definition sameb (x y : number) : bool :=
  match x, y with
  | NaN, NaN => true
  | _, _ => strict_eqb x y
  end.

(** ** Rounding to binary64 *)

(** [floor(log2(q))] of a positive rational. *)
Definition floor_log2 (q : Q) : Z :=
  let n := Qnum q in
  let d := Zpos (Qden q) in
  let k := Z.log2 n - Z.log2 d in
  if (if 0 <=? k then d * 2 ^ k <=? n else d <=? n * 2 ^ (- k)) then k else k - 1.

Definition two_to (e : Z) : Q :=
  if 0 <=? e then inject_Z (2 ^ e) else 1 / inject_Z (2 ^ (- e)).

(** The nearest integer, the even one on a tie. *)
Definition round_half_even (q : Q) : Z :=
  let f := Qfloor q in
  match (q - inject_Z f ?= 1 # 2)%Q with
  | Lt => f
  | Gt => f + 1
  | Eq => if Z.even f then f else f + 1
  end.

(** The binary64 number nearest to a positive rational: 53 significant
    bits, the exponent not below -1022 (so that small values are rounded to
    multiples of 2^-1074, down to zero), and [Infinity] when the rounded
    value reaches 2^1024. *)
Definition nearest64 (q : Q) : number :=
  let e := Z.max (floor_log2 q) (-1022) in
  let ulp := two_to (e - 52) in
  let r := Qred (inject_Z (round_half_even (q / ulp)) * ulp) in
  if Qle_bool (two_to 1024) r then PInf else Fin r.

(** The value a number has as a binary64: what [parseFloat] returns for a
    decimal numeral of that value, and what an arithmetic operation returns
    for an exact result of that value. *)
Definition to_binary64 (x : number) : number :=
  match x with
  | Fin q =>
      match sgn q with
      | Eq => Fin 0
      | Gt => nearest64 q
      | Lt => neg (nearest64 (- q))
      end
  | _ => x
  end.

(** [x * y] on binary64 numbers: the exact product, rounded. *)
Definition mul64 (x y : number) : number :=
  to_binary64 (mul (to_binary64 x) (to_binary64 y)).

End JS.


(* ===================================================================== *)
(** * Static configuration ([constants.ts])                               *)
(* ===================================================================== *)

(** [TokenType = keyof typeof APTOS_COINS]. *)
Inductive TokenType : Type := APT | USDC | USDT | DAI.

Definition symbol (t : TokenType) : string :=
  match t with APT => "APT" | USDC => "USDC" | USDT => "USDT" | DAI => "DAI" end.

Definition TokenType_eqb (a b : TokenType) : bool :=
  match a, b with
  | APT, APT | USDC, USDC | USDT, USDT | DAI, DAI => true
  | _, _ => false
  end.

Record CoinInfo : Type := {
  address : string;
  decimals : nat;
  module_name : string;
  struct_name : string
}.

Definition APTOS_COINS (t : TokenType) : CoinInfo :=
  match t with
  | APT => {| address := "0x1::aptos_coin::AptosCoin"; decimals := 8;
              module_name := "aptos_coin"; struct_name := "AptosCoin" |}
  | USDC => {| address := "0xf22bede237a07e121b56d91a491eb7bcdfd1f5907926a9e58338f964a01b17fa::asset::USDC";
               decimals := 6; module_name := "asset"; struct_name := "USDC" |}
  | USDT => {| address := "0xf22bede237a07e121b56d91a491eb7bcdfd1f5907926a9e58338f964a01b17fa::asset::USDT";
               decimals := 6; module_name := "asset"; struct_name := "USDT" |}
  | DAI => {| address := "0xf22bede237a07e121b56d91a491eb7bcdfd1f5907926a9e58338f964a01b17fa::asset::DAI";
              decimals := 6; module_name := "asset"; struct_name := "DAI" |}
  end.

Definition APTOS_TESTNET_COINS (t : TokenType) : CoinInfo :=
  match t with
  | APT => {| address := "0x1::aptos_coin::AptosCoin"; decimals := 8;
              module_name := "aptos_coin"; struct_name := "AptosCoin" |}
  | USDC => {| address := "0x8c805723ebc0a7fc5b7d3e7b75d567918e806b3461cb9fa21941a9edc0220bf::devnet_coins::DevnetUSDC";
               decimals := 6; module_name := "devnet_coins"; struct_name := "DevnetUSDC" |}
  | USDT => {| address := "0x8c805723ebc0a7fc5b7d3e7b75d567918e806b3461cb9fa21941a9edc0220bf::devnet_coins::DevnetUSDT";
               decimals := 6; module_name := "devnet_coins"; struct_name := "DevnetUSDT" |}
  | DAI => {| address := "0x8c805723ebc0a7fc5b7d3e7b75d567918e806b3461cb9fa21941a9edc0220bf::devnet_coins::DevnetDAI";
              decimals := 6; module_name := "devnet_coins"; struct_name := "DevnetDAI" |}
  end.

Inductive DexKey : Type := PANCAKE | LIQUIDSWAP | AUX | THALA | PANORA.

Definition dex_key_name (k : DexKey) : string :=
  match k with
  | PANCAKE => "PANCAKE" | LIQUIDSWAP => "LIQUIDSWAP" | AUX => "AUX"
  | THALA => "THALA" | PANORA => "PANORA"
  end.

Record DexInfo : Type := {
  name : string;
  router : string;
  testnetRouter : option string;
  fee : Q;
  gasEstimate : Q;
  liquiditySource : string;
  url : string
}.

Definition APTOS_DEXES (k : DexKey) : DexInfo :=
  match k with
  | PANCAKE =>
      {| name := "PancakeSwap";
         router := "0xc7efb4076dbe143cbcd98cfaaa929ecfc8f299203dfff63b95ccb6bfe19850fa";
         testnetRouter := Some "0xc7efb4076dbe143cbcd98cfaaa929ecfc8f299203dfff63b95ccb6bfe19850fa";
         fee := 0.003; gasEstimate := 0.0002;
         liquiditySource := "PancakeSwap AMM";
         url := "https://pancakeswap.finance/aptos/swap" |}
  | LIQUIDSWAP =>
      {| name := "Liquidswap";
         router := "0x190d44266241744264b964a37b8f09863167a12d3e70cda39376cfb4e3561e12";
         testnetRouter := Some "0x305d6fe5d70b02e9c7d5b0f2f5e5934c6a0d9b867d6e2c4c6fad7c293e0cd8c5";
         fee := 0.003; gasEstimate := 0.00025;
         liquiditySource := "Liquidswap AMM";
         url := "https://liquidswap.com/" |}
  | AUX =>
      {| name := "AUX Exchange";
         router := "0x8b7311d78d47e37d09435b8dc37c14afd977c5cbc5f1bc2a615ef159a58b2d1d";
         testnetRouter := None;
         fee := 0.003; gasEstimate := 0.00022;
         liquiditySource := "AUX AMM";
         url := "https://aux.exchange/" |}
  | THALA =>
      {| name := "Thala";
         router := "0x7c0321a4d97c3bea5892d9c6a4f5e2a369a3a7d3824cee3f9c6e1e273b384e8c";
         testnetRouter := None;
         fee := 0.003; gasEstimate := 0.00023;
         liquiditySource := "Thala AMM";
         url := "https://app.thala.fi/swap" |}
  | PANORA =>
      {| name := "Panora";
         router := "0x8f396e4246b2ba87b51c0739ef5ea4f26515a98375308c31ac2ec1e42142a57f";
         testnetRouter := Some "0x8f396e4246b2ba87b51c0739ef5ea4f26515a98375308c31ac2ec1e42142a57f";
         fee := 0.002; gasEstimate := 0.0002;
         liquiditySource := "Panora DEX Aggregator";
         url := "https://app.panora.exchange" |}
  end.

(** [Object.entries(APTOS_DEXES)], in insertion order. *)
Definition dex_entries : list DexKey := [PANCAKE; LIQUIDSWAP; AUX; THALA; PANORA].

(** [COINGECKO_IDS[token]]: a [Record<string, string>] lookup. *)
Definition COINGECKO_IDS (t : TokenType) : option string :=
  match t with
  | APT => Some "aptos"
  | USDC => Some "usd-coin"
  | USDT => Some "tether"
  | DAI => Some "dai"
  end.

(** [String.prototype.toLowerCase] on ASCII letters. *)
Definition lower_char (c : ascii) : ascii :=
  let n := N_of_ascii c in
  if ((65 <=? n) && (n <=? 90))%N then ascii_of_N (n + 32) else c.

Fixpoint toLowerCase (s : string) : string :=
  match s with
  | EmptyString => EmptyString
  | String c s' => String (lower_char c) (toLowerCase s')
  end.

(** [String.prototype.startsWith] and [includes]. *)
Definition startsWith (s p : string) : bool := String.prefix p s.

Fixpoint includes (s sub : string) : bool :=
  if String.prefix sub s then true
  else match s with
       | EmptyString => false
       | String _ s' => includes s' sub
       end.

(* ===================================================================== *)
(** * Service state                                                       *)
(* ===================================================================== *)

(** [TokenPriceResponse] of [interfaces.ts]. *)
Record TokenPriceResponse : Type := {
  price : JS.number;
  timestamp : Z
}.

(** The part of an upstream JSON payload that the services never read. *)
Definition Opaque_json : Type := string.

Record PriceServiceState : Type := {
  priceCache : gmap string TokenPriceResponse;
  priceMarketDataCache : gmap string (Opaque_json * Z);
  lastApiCall : Z
}.

(** What [getDexQuote] reads of a cached pool payload: its [tvl] field. *)
Record PoolData : Type := {
  tvl : option JS.number
}.

Record DexServiceState : Type := {
  poolCache : gmap string PoolData;
  poolCacheTimestamp : Z;
  dex_isTestnet : bool
}.

(** The Panora SDK client, identified by the RPC URL it was built with. *)
Record PanoraClient : Type := { rpcUrl : string }.

Record SwapServiceState : Type := {
  panoraClient : option PanoraClient;
  swap_isTestnet : bool;
  swap_networkUrl : string
}.

Record RateEntry : Type := {
  rate : JS.number;
  rate_timestamp : Z
}.

Record DeFiServiceState : Type := {
  client : string;             (* AptosClient, by its node URL *)
  defi_isTestnet : bool;
  defi_networkUrl : string;
  testnetRatesCache : gmap string RateEntry;
  marketDataCache : option Opaque_json;
  marketDataTimestamp : Z
}.

(** The four singleton services of the process. *)
Record State : Type := {
  priceService : PriceServiceState;
  dexService : DexServiceState;
  swapService : SwapServiceState;
  defiService : DeFiServiceState
}.

Definition set_priceService (f : PriceServiceState -> PriceServiceState) (s : State) : State :=
  {| priceService := f (priceService s); dexService := dexService s;
     swapService := swapService s; defiService := defiService s |}.

Definition set_dexService (f : DexServiceState -> DexServiceState) (s : State) : State :=
  {| priceService := priceService s; dexService := f (dexService s);
     swapService := swapService s; defiService := defiService s |}.

Definition set_swapService (f : SwapServiceState -> SwapServiceState) (s : State) : State :=
  {| priceService := priceService s; dexService := dexService s;
     swapService := f (swapService s); defiService := defiService s |}.

Definition set_defiService (f : DeFiServiceState -> DeFiServiceState) (s : State) : State :=
  {| priceService := priceService s; dexService := dexService s;
     swapService := swapService s; defiService := f (defiService s) |}.

(* ===================================================================== *)
(** * Upstream requests and the effects of the services                   *)
(* ===================================================================== *)

(** One candidate route of a Panora quote. *)
Record PanoraRoute : Type := {
  pr_name : option string;
  pr_fee : option string;
  pr_toTokenAmount : option string;
  pr_priceImpact : option string;
  pr_estimatedGas : option string
}.

(** [quoteResponse.data] of a Panora quote. *)
Record PanoraData : Type := {
  pd_toTokenAmount : option string;
  pd_priceImpact : option string;
  pd_estimatedGas : option string;
  pd_routes : option (list PanoraRoute);
  pd_transactionPayload : option Opaque_json;
  pd_rawTransaction : option Opaque_json
}.

(** An account resource of the Aptos node API. *)
Record Resource : Type := {
  res_type : string;
  res_data : option (option string * option string)   (* reserve_x, reserve_y *)
}.

Record PanoraQuoteParams : Type := {
  chainId : string;
  fromTokenAddress : string;
  toTokenAddress : string;
  fromTokenAmount : string;
  slippagePercentage : string;
  getTransactionData : string
}.

Inductive Request : Type :=
| ReqPrice (geckoId : string)             (* GET /simple/price *)
| ReqPool (source : string)               (* axios.get(dex.liquiditySource) *)
| ReqPanoraQuote (p : PanoraQuoteParams)  (* panoraClient.SwapQuote *)
| ReqResources (account : string).        (* client.getAccountResources *)

(** What a fulfilled request carries. *)
Definition Reply (r : Request) : Type :=
  match r with
  | ReqPrice _ => option JS.number          (* response.data[geckoId]?.usd *)
  | ReqPool _ => option PoolData            (* response.data, when truthy *)
  | ReqPanoraQuote _ => option (option PanoraData)  (* quoteResponse, its .data *)
  | ReqResources _ => list Resource
  end.

Inductive Eff : Type -> Type :=
| DateNow : Eff Z                                  (* Date.now() *)
| SetTimeout (ms : Z) : Eff unit                   (* await new Promise(r => setTimeout(r, ms)) *)
| GetState : Eff State
| ModifyState (f : State -> State) : Eff unit
| NewPanora (rpc : string) : Eff (option PanoraClient)   (* new Panora({..}); None when it throws *)
| Call (r : Request) : Eff (option (Reply r)).     (* await of an upstream request; None when it rejects *)

(** Programs over the effects. *)
Inductive Prog (A : Type) : Type :=
| Ret (a : A)
| Vis {X : Type} (e : Eff X) (k : X -> Prog A).

Arguments Ret {A} a.
Arguments Vis {A X} e k.

Fixpoint pbind {A B : Type} (p : Prog A) (f : A -> Prog B) : Prog B :=
  match p with
  | Ret a => f a
  | Vis e k => Vis e (fun x => pbind (k x) f)
  end.

(** A thrown value: the services only log it or rethrow it. *)
Definition Error : Type := string.

Inductive Result (A : Type) : Type :=
| Ok (a : A)
| Thrown (e : Error).

Arguments Ok {A} a.
Arguments Thrown {A} e.

(** An async function body: a program that returns or throws. *)
Definition M (A : Type) : Type := Prog (Result A).

Definition ret {A : Type} (a : A) : M A := Ret (Ok a).

Definition throw {A : Type} (e : Error) : M A := Ret (Thrown e).

Definition bind {A B : Type} (m : M A) (f : A -> M B) : M B :=
  pbind m (fun r => match r with Ok a => f a | Thrown e => Ret (Thrown e) end).

(** [try { m } catch (error) { h error }]. *)
Definition try_catch {A : Type} (m : M A) (h : Error -> M A) : M A :=
  pbind m (fun r => match r with Ok a => Ret (Ok a) | Thrown e => h e end).

Definition perform {X : Type} (e : Eff X) : M X := Vis e (fun x => Ret (Ok x)).

Notation "'let*' x ':=' c 'in' k" := (bind c (fun x => k))
  (at level 10, x pattern, c at level 100, k at level 200).

Notation "c ;;; k" := (bind c (fun _ => k))
  (at level 100, k at level 200, right associativity).

Definition dateNow : M Z := perform DateNow.
Definition setTimeout (ms : Z) : M unit := perform (SetTimeout ms).
Definition gets {A : Type} (f : State -> A) : M A :=
  let* s := perform GetState in ret (f s).
Definition modify (f : State -> State) : M unit := perform (ModifyState f).

(** [await request]: a rejected promise throws at the [await]. *)
Definition await (r : Request) : M (Reply r) :=
  let* x := perform (Call r) in
  match x with
  | Some v => ret v
  | None => throw "request failed"
  end.

(** [Promise.all(xs.map(f))], the promises taken in order. *)
Fixpoint promise_all {A B : Type} (f : A -> M B) (xs : list A) : M (list B) :=
  match xs with
  | [] => ret []
  | x :: xs' =>
      let* y := f x in
      let* ys := promise_all f xs' in
      ret (y :: ys)
  end.

(** ** The world outside the services *)

(** Answers of the outside world: for the [n]-th upstream request of the
    run, how long the answer takes (ms) and what it is; and whether the
    Panora SDK constructor succeeds. *)
Record Upstream : Type := {
  reply : forall (n : nat) (r : Request), Z * option (Reply r);
  panora_ctor : string -> option PanoraClient
}.

Record World : Type := {
  w_state : State;
  w_clock : Z;                         (* what Date.now() returns *)
  w_calls : list (Z * Request)         (* upstream requests issued, with their time *)
}.

Definition tick (ms : Z) (w : World) : World :=
  {| w_state := w_state w; w_clock := w_clock w + Z.max 0 ms; w_calls := w_calls w |}.

Definition at_time (t : Z) (w : World) : World :=
  {| w_state := w_state w; w_clock := t; w_calls := w_calls w |}.

Definition log_call (r : Request) (w : World) : World :=
  {| w_state := w_state w; w_clock := w_clock w;
     w_calls := w_calls w ++ [(w_clock w, r)] |}.

Definition with_state (f : State -> State) (w : World) : World :=
  {| w_state := f (w_state w); w_clock := w_clock w; w_calls := w_calls w |}.

(** One effect, run to completion by a single caller. *)
Definition step {X : Type} (up : Upstream) (e : Eff X) (w : World) : X * World :=
  match e in Eff X return X * World with
  | DateNow => (w_clock w, w)
  | SetTimeout ms => (tt, tick ms w)
  | GetState => (w_state w, w)
  | ModifyState f => (tt, with_state f w)
  | NewPanora rpc => (panora_ctor up rpc, w)
  | Call r =>
      let (latency, answer) := reply up (length (w_calls w)) r in
      (answer, tick latency (log_call r w))
  end.

(** A call awaited to its end with no other caller in flight. *)
Fixpoint run {A : Type} (up : Upstream) (p : Prog A) (w : World) : A * World :=
  match p with
  | Ret a => (a, w)
  | Vis e k => let (x, w') := step up e w in run up (k x) w'
  end.


(* ===================================================================== *)
(** * PriceService ([priceService.ts])                                    *)
(* ===================================================================== *)

Module PriceService.

Definition CACHE_DURATION : Z := 5 * 60 * 1000.
Definition API_RATE_LIMIT : Z := 1100.

Definition set_lastApiCall (t : Z) (p : PriceServiceState) : PriceServiceState :=
  {| priceCache := priceCache p;
     priceMarketDataCache := priceMarketDataCache p;
     lastApiCall := t |}.

Definition set_priceCache (k : string) (e : TokenPriceResponse)
    (p : PriceServiceState) : PriceServiceState :=
  {| priceCache := <[k := e]> (priceCache p);
     priceMarketDataCache := priceMarketDataCache p;
     lastApiCall := lastApiCall p |}.

(** The static fallback of the [catch] blocks:
    [if (token === 'APT') return 6.75; if (stable) return 1;]. *)
Definition fallback_price (token : TokenType) : option JS.number :=
  match token with
  | APT => Some (JS.Fin 6.75)
  | USDC | USDT | DAI => Some (JS.Fin 1)
  end.

(** [withRateLimit(fn)]. *)
Definition withRateLimit {A : Type} (fn : M A) : M A :=
  let* now := dateNow in
  let* last := gets (fun s => lastApiCall (priceService s)) in
  let timeSinceLastCall := now - last in
  (if timeSinceLastCall <? API_RATE_LIMIT
   then setTimeout (API_RATE_LIMIT - timeSinceLastCall)
   else ret tt) ;;;
  let* now' := dateNow in
  modify (set_priceService (set_lastApiCall now')) ;;;
  fn.

(** [fetchTokenPrice(token)]. *)
Definition fetchTokenPrice (token : TokenType) : M JS.number :=
  withRateLimit
    (match COINGECKO_IDS token with
     | None =>
         match fallback_price token with
         | Some p => ret p
         | None => ret (JS.Fin 1)
         end
     | Some geckoId =>
         let* usd := await (ReqPrice geckoId) in
         match usd with
         | Some p => if JS.truthy p then ret p else throw "No price data"
         | None => throw "No price data"
         end
     end).

(** [getTokenPriceWithCache(token)]. *)
Definition getTokenPriceWithCache (token : TokenType) : M JS.number :=
  let cacheKey := toLowerCase (symbol token) in
  let* cachedPrice := gets (fun s => priceCache (priceService s) !! cacheKey) in
  let* now := dateNow in
  let fresh :=
    match cachedPrice with
    | Some c => now - timestamp c <? CACHE_DURATION
    | None => false
    end in
  match cachedPrice, fresh with
  | Some c, true => ret (price c)
  | _, _ =>
      try_catch
        (let* p := fetchTokenPrice token in
         modify (set_priceService
                   (set_priceCache cacheKey {| price := p; timestamp := now |})) ;;;
         ret p)
        (fun error =>
           match cachedPrice with
           | Some c => ret (price c)
           | None =>
               match fallback_price token with
               | Some p => ret p
               | None => throw "No price data available"
               end
           end)
  end.

(** [getTokenPrice(token)]. *)
Definition getTokenPrice (token : TokenType) : M JS.number :=
  try_catch (getTokenPriceWithCache token)
    (fun error =>
       match fallback_price token with
       | Some p => ret p
       | None => ret (JS.Fin 1)
       end).

(** [calculatePriceImpact(tokenIn, tokenOut, inputAmount, outputAmount)]. *)
Definition calculatePriceImpact (tokenIn tokenOut : TokenType)
    (inputAmount outputAmount : JS.number) : M JS.number :=
  try_catch
    (let* tokenInPrice := getTokenPrice tokenIn in
     let* tokenOutPrice := getTokenPrice tokenOut in
     let expectedOutput := JS.div (JS.mul inputAmount tokenInPrice) tokenOutPrice in
     let priceImpact :=
       JS.Math_max (JS.Fin 0)
         (JS.mul (JS.div (JS.sub expectedOutput outputAmount) expectedOutput)
                 (JS.Fin 100)) in
     ret priceImpact)
    (fun error => ret (JS.Fin 0.1)).

(** [calculateSimplePriceImpact(tokenIn, tokenOut, inputAmount, outputAmount)]. *)
Definition calculateSimplePriceImpact (tokenIn tokenOut : TokenType)
    (inputAmount outputAmount : JS.number) : JS.number :=
  let inputValueEstimate := JS.mul inputAmount (JS.Fin 10) in
  JS.Math_min (JS.Fin 10)
    (JS.Math_max (JS.Fin 0.1)
       (JS.mul (JS.div inputValueEstimate (JS.Fin 1000000)) (JS.Fin 100))).

End PriceService.

(* ===================================================================== *)
(** * DexService ([dexService.ts])                                        *)
(* ===================================================================== *)

(** [DexQuote] of [interfaces.ts]. *)
Record DexQuote : Type := {
  dex : string;
  dexName : string;
  outputAmount : string;
  priceImpact : string;
  quote_fee : string;
  dexUrl : string;
  quote_gasEstimate : option JS.number
}.

(** The transaction payload that the wallet signs
    ([type: "entry_function_payload"]). *)
Record EntryFunctionPayload : Type := {
  payload_type : string;
  payload_function : string;
  type_arguments : list string;
  arguments : list string
}.

Module DexService.

Definition POOL_CACHE_DURATION : Z := 5 * 60 * 1000.

Definition setTestnetMode (isTestnet : bool) : M unit :=
  modify (set_dexService (fun d =>
    {| poolCache := poolCache d;
       poolCacheTimestamp := poolCacheTimestamp d;
       dex_isTestnet := isTestnet |})).

(** [getTokenAddress(token, isTestnet)].  The lookup cannot miss for a
    [TokenType], so the [throw] of the source is not reachable. *)
Definition getTokenAddress (token : TokenType) (isTestnet : bool) : string :=
  address (if isTestnet then APTOS_TESTNET_COINS token else APTOS_COINS token).

(** The [results.forEach] of [fetchPoolData]: payloads that are truthy are
    stored under the display name of their DEX. *)
Fixpoint store_pools (results : list (string * option PoolData))
    (cache : gmap string PoolData) : gmap string PoolData :=
  match results with
  | [] => cache
  | (d, Some data) :: rest => store_pools rest (<[d := data]> cache)
  | (_, None) :: rest => store_pools rest cache
  end.

(** One element of [dexPromises]: a failed request yields a [null] payload. *)
Definition fetch_pool (k : DexKey) : M (string * option PoolData) :=
  let info := APTOS_DEXES k in
  try_catch
    (let* data := await (ReqPool (liquiditySource info)) in
     ret (name info, data))
    (fun error => ret (name info, None)).

(** [fetchPoolData()]. *)
Definition fetchPoolData : M unit :=
  let* now := dateNow in
  let* d := gets dexService in
  if (0 <? Z.of_nat (size (poolCache d)))
     && (now - poolCacheTimestamp d <? POOL_CACHE_DURATION)
  then ret tt
  else
    try_catch
      (let* results := promise_all fetch_pool dex_entries in
       modify (set_dexService (fun d =>
         {| poolCache := store_pools results ∅;
            poolCacheTimestamp := now;
            dex_isTestnet := dex_isTestnet d |})))
      (fun error =>
         let* d := gets dexService in
         if (size (poolCache d) =? 0)%nat then throw error else ret tt).

(** The label [`${dex.fee * 100}%`] of a quote. *)
Definition fee_label (k : DexKey) : string :=
  match k with
  | PANORA => "0.2%"
  | _ => "0.3%"
  end.

Section Quoter.

(** [Math.log10], which the quoter applies to the pool TVL. *)
Variable Math_log10 : JS.number -> JS.number.

(** The arithmetic of [getDexQuote] once prices and pool data are there. *)
Definition liquidityFactor (poolData : PoolData) : JS.number :=
  match tvl poolData with
  | Some t =>
      if JS.truthy t
      then JS.Math_min (JS.Fin 1)
             (JS.Math_max (JS.Fin 0.9)
                (JS.div (Math_log10 t) (Math_log10 (JS.Fin 1000000))))
      else JS.Fin 1
  | None => JS.Fin 1
  end.

(** [poolTVL]: [poolData.tvl] when truthy, else the initial 0. *)
Definition poolTVL (poolData : PoolData) : JS.number :=
  match tvl poolData with
  | Some t => if JS.truthy t then t else JS.Fin 0
  | None => JS.Fin 0
  end.

Definition slippageFactor (amount tokenInPrice : JS.number) (poolData : PoolData)
  : JS.number :=
  let amountUsd := JS.mul amount tokenInPrice in
  JS.Math_min (JS.Fin 0.1)
    (JS.div amountUsd (JS.or_else (poolTVL poolData) (JS.Fin 1000000))).

Definition quoteOutput (k : DexKey) (amount tokenInPrice tokenOutPrice : JS.number)
    (poolData : PoolData) : JS.number :=
  let perfectOutput := JS.div (JS.mul amount tokenInPrice) tokenOutPrice in
  let afterFeeAmount :=
    JS.mul amount (JS.sub (JS.Fin 1) (JS.Fin (fee (APTOS_DEXES k)))) in
  JS.mul
    (JS.mul
       (JS.mul perfectOutput (liquidityFactor poolData))
       (JS.sub (JS.Fin 1) (slippageFactor amount tokenInPrice poolData)))
    (JS.div afterFeeAmount amount).

Definition makeQuote (k : DexKey) (amount tokenInPrice tokenOutPrice : JS.number)
    (poolData : PoolData) : DexQuote :=
  {| dex := dex_key_name k;
     dexName := name (APTOS_DEXES k);
     outputAmount :=
       JS.toFixed (quoteOutput k amount tokenInPrice tokenOutPrice poolData) 6;
     priceImpact :=
       JS.toFixed
         (JS.mul (slippageFactor amount tokenInPrice poolData) (JS.Fin 100)) 2;
     quote_fee := fee_label k;
     dexUrl := url (APTOS_DEXES k);
     quote_gasEstimate := Some (JS.Fin (gasEstimate (APTOS_DEXES k))) |}.

(** The [catch] of the price lookups in [getDexQuote]: the variables keep
    what was assigned before the throw, then the static prices are put in. *)
Definition is_stable (token : TokenType) : bool :=
  TokenType_eqb token USDC || TokenType_eqb token USDT || TokenType_eqb token DAI.

Definition quote_fallback_price (token : TokenType) (current : JS.number) : JS.number :=
  let p := if TokenType_eqb token APT then JS.Fin 6.75 else current in
  if is_stable token then JS.Fin 1 else p.

Definition quote_prices (tokenIn tokenOut : TokenType) : M (JS.number * JS.number) :=
  pbind (PriceService.getTokenPriceWithCache tokenIn) (fun r1 =>
    match r1 with
    | Thrown _ =>
        ret (quote_fallback_price tokenIn (JS.Fin 1),
             quote_fallback_price tokenOut (JS.Fin 1))
    | Ok pin =>
        pbind (PriceService.getTokenPriceWithCache tokenOut) (fun r2 =>
          match r2 with
          | Thrown _ =>
              ret (quote_fallback_price tokenIn pin,
                   quote_fallback_price tokenOut (JS.Fin 1))
          | Ok pout => ret (pin, pout)
          end)
    end).

(** [getDexQuote(dexKey, tokenIn, tokenOut, amount)]: [None] is [null]. *)
Definition getDexQuote (k : DexKey) (tokenIn tokenOut : TokenType)
    (amount : JS.number) : M (option DexQuote) :=
  try_catch
    (let* prices := quote_prices tokenIn tokenOut in
     let tokenInPrice := fst prices in
     let tokenOutPrice := snd prices in
     if negb (JS.truthy tokenInPrice) || negb (JS.truthy tokenOutPrice)
     then ret None
     else
       let* pool := gets (fun s => poolCache (dexService s) !! name (APTOS_DEXES k)) in
       match pool with
       | None => ret None
       | Some poolData =>
           ret (Some (makeQuote k amount tokenInPrice tokenOutPrice poolData))
       end)
    (fun error => ret None).

(** [getAllDexQuotes(tokenIn, tokenOut, amount)]. *)
Definition getAllDexQuotes (tokenIn tokenOut : TokenType) (amount : JS.number)
  : M (list (option DexQuote)) :=
  fetchPoolData ;;;
  promise_all (fun k => getDexQuote k tokenIn tokenOut amount) dex_entries.

End Quoter.

(** [formatTokenAmount(amount, decimals)] of DexService. *)
Definition formatTokenAmount (amount : string) (decimals : nat) : Result string :=
  let parsedAmount := JS.parseFloat amount in
  if JS.isNaN parsedAmount then Thrown ("Invalid amount: " +:+ amount)
  else
    let multiplier := JS.Math_pow10 decimals in
    let amountInSmallestUnit := JS.Math_floor (JS.mul64 parsedAmount multiplier) in
    Ok (JS.toString_int amountInSmallestUnit).

(** The payload of both builders, once the two amounts are formatted. *)
Definition swap_exact_input (routerAddress tokenInAddress tokenOutAddress : string)
    (formattedAmountIn formattedMinAmountOut : string) : EntryFunctionPayload :=
  {| payload_type := "entry_function_payload";
     payload_function := routerAddress +:+ "::router::swap_exact_input";
     type_arguments := [tokenInAddress; tokenOutAddress];
     arguments := [formattedAmountIn; formattedMinAmountOut] |}.

Definition token_decimals (token : TokenType) (isTestnet : bool) : nat :=
  decimals (if isTestnet then APTOS_TESTNET_COINS token else APTOS_COINS token).

(** [preparePancakeSwapPayload(tokenIn, tokenOut, amountIn, minAmountOut,
    deadline, isTestnet)]; a [throw] of [formatTokenAmount] goes through. *)
Definition preparePancakeSwapPayload (tokenIn tokenOut : TokenType)
    (amountIn minAmountOut : string) (deadline : JS.number) (isTestnet : bool)
  : Result EntryFunctionPayload :=
  let tokenInAddress := getTokenAddress tokenIn isTestnet in
  let tokenOutAddress := getTokenAddress tokenOut isTestnet in
  let tokenInDecimals := token_decimals tokenIn isTestnet in
  let tokenOutDecimals := token_decimals tokenOut isTestnet in
  match formatTokenAmount amountIn tokenInDecimals with
  | Thrown e => Thrown e
  | Ok formattedAmountIn =>
      match formatTokenAmount minAmountOut tokenOutDecimals with
      | Thrown e => Thrown e
      | Ok formattedMinAmountOut =>
          let routerAddress :=
            if isTestnet
            then default "undefined" (testnetRouter (APTOS_DEXES PANCAKE))
            else router (APTOS_DEXES PANCAKE) in
          Ok (swap_exact_input routerAddress tokenInAddress tokenOutAddress
                formattedAmountIn formattedMinAmountOut)
      end
  end.

(** [prepareLiquidswapPayload(..)]: the same, with the router addresses
    written out in the source. *)
Definition prepareLiquidswapPayload (tokenIn tokenOut : TokenType)
    (amountIn minAmountOut : string) (deadline : JS.number) (isTestnet : bool)
  : Result EntryFunctionPayload :=
  let tokenInAddress := getTokenAddress tokenIn isTestnet in
  let tokenOutAddress := getTokenAddress tokenOut isTestnet in
  let tokenInDecimals := token_decimals tokenIn isTestnet in
  let tokenOutDecimals := token_decimals tokenOut isTestnet in
  match formatTokenAmount amountIn tokenInDecimals with
  | Thrown e => Thrown e
  | Ok formattedAmountIn =>
      match formatTokenAmount minAmountOut tokenOutDecimals with
      | Thrown e => Thrown e
      | Ok formattedMinAmountOut =>
          let routerAddress :=
            if isTestnet
            then "0x305d6fe5d70b02e9c7d5b0f2f5e5934c6a0d9b867d6e2c4c6fad7c293e0cd8c5"
            else "0x190d44266241744264b964a37b8f09863167a12d3e70cda39376cfb4e3561e12" in
          Ok (swap_exact_input routerAddress tokenInAddress tokenOutAddress
                formattedAmountIn formattedMinAmountOut)
      end
  end.

End DexService.

(* ===================================================================== *)
(** * SwapService ([swapService.ts])                                      *)
(* ===================================================================== *)

(** [AlternativeRoute] and [SwapRoute] of [types/defi.ts]. *)
Record AlternativeRoute : Type := {
  alt_protocol : string;
  alt_expectedOutput : string;
  alt_priceImpact : string;
  alt_estimatedGas : JS.number
}.

Record TokenInfo : Type := {
  ti_symbol : string;
  ti_address : string;
  ti_decimals : nat
}.

Record PathStep : Type := {
  ps_dex : string;
  ps_tokenIn : string;
  ps_tokenOut : string;
  ps_fee : string
}.

Record SwapRoute : Type := {
  fromToken : string;
  toToken : string;
  fromAmount : string;
  expectedOutput : string;
  route_priceImpact : JS.number;
  estimatedGas : JS.number;
  route_dex : string;
  protocol : option string;
  alternativeRoutes : option (list AlternativeRoute);
  swapPayload : option Opaque_json;
  route_tokenIn : option TokenInfo;
  route_tokenOut : option TokenInfo;
  route_amount : option string;
  path : option (list PathStep);
  route_dexUrl : option string
}.

(** What [executeSwap] resolves to: the payload is the one that Panora
    returned, kept as it is, or an entry-function call built here. *)
Inductive SwapPayload : Type :=
| PanoraPayload (p : Opaque_json)
| EntryFunction (p : EntryFunctionPayload).

Record SwapExecution : Type := {
  success : bool;
  txHash : option string;
  exec_error : option string;
  exec_payload : option SwapPayload
}.

(** [s || d] on an optional string: [undefined] and [""] are falsy. *)
Definition str_or (s : option string) (d : string) : string :=
  match s with
  | Some EmptyString | None => d
  | Some v => v
  end.

Definition str_truthy (s : option string) : bool :=
  match s with
  | Some EmptyString | None => false
  | Some _ => true
  end.

(** [Array.prototype.sort(cmp)].  The order is stable, and fixed by the
    language only when [cmp] is a consistent comparator; the embedding is
    the stable insertion sort, which every conforming engine agrees with
    on consistent comparators.  An element moves behind its right
    neighbour only when [cmp] is positive. *)
Fixpoint sort_insert {A : Type} (cmp : A -> A -> JS.number) (x : A) (l : list A) : list A :=
  match l with
  | [] => [x]
  | y :: ys =>
      if JS.gtb (cmp x y) (JS.Fin 0) then y :: sort_insert cmp x ys
      else x :: y :: ys
  end.

Fixpoint Array_sort {A : Type} (cmp : A -> A -> JS.number) (l : list A) : list A :=
  match l with
  | [] => []
  | x :: xs => sort_insert cmp x (Array_sort cmp xs)
  end.

(** [allQuotes.filter(quote => quote !== null)]. *)
Fixpoint present {A : Type} (l : list (option A)) : list A :=
  match l with
  | [] => []
  | Some x :: r => x :: present r
  | None :: r => present r
  end.

Module SwapService.

Definition network_url (isTestnet : bool) : string :=
  if isTestnet then "https://fullnode.testnet.aptoslabs.com/v1"
  else "https://fullnode.mainnet.aptoslabs.com/v1".

(** [setTestnetMode(isTestnet)] of SwapService. *)
Definition setTestnetMode (isTestnet : bool) : M unit :=
  modify (set_swapService (fun sw =>
    {| panoraClient := panoraClient sw;
       swap_isTestnet := isTestnet;
       swap_networkUrl := network_url isTestnet |})) ;;;
  let* created := perform (NewPanora (network_url isTestnet)) in
  match created with
  | Some c =>
      modify (set_swapService (fun sw =>
        {| panoraClient := Some c;
           swap_isTestnet := swap_isTestnet sw;
           swap_networkUrl := swap_networkUrl sw |}))
  | None => ret tt
  end ;;;
  DexService.setTestnetMode isTestnet.

(** The comparator of [validQuotes.sort]. *)
Definition by_output_desc (a b : DexQuote) : JS.number :=
  JS.sub (JS.parseFloat (outputAmount b)) (JS.parseFloat (outputAmount a)).

(** [quote.gasEstimate || 0.0002]. *)
Definition gas_or_default (q : DexQuote) : JS.number :=
  match quote_gasEstimate q with
  | Some g => JS.or_else g (JS.Fin 0.0002)
  | None => JS.Fin 0.0002
  end.

Definition alternative_of_quote (q : DexQuote) : AlternativeRoute :=
  {| alt_protocol := dexName q;
     alt_expectedOutput := outputAmount q;
     alt_priceImpact := priceImpact q;
     alt_estimatedGas := gas_or_default q |}.

(** The route built from the sorted present quotes; [None] when there is
    none (the source throws 'No valid quotes available'). *)
Definition route_of_quotes (tokenIn tokenOut : TokenType) (amount : string)
    (allQuotes : list (option DexQuote)) : option SwapRoute :=
  let validQuotes := Array_sort by_output_desc (present allQuotes) in
  match validQuotes with
  | [] => None
  | bestQuote :: others =>
      Some {| fromToken := symbol tokenIn;
              toToken := symbol tokenOut;
              fromAmount := amount;
              expectedOutput := outputAmount bestQuote;
              route_priceImpact := JS.parseFloat (priceImpact bestQuote);
              estimatedGas := gas_or_default bestQuote;
              route_dex := dexName bestQuote;
              protocol := Some (dexName bestQuote);
              alternativeRoutes := Some (map alternative_of_quote others);
              swapPayload := None;
              route_tokenIn := None;
              route_tokenOut := None;
              route_amount := None;
              path := None;
              route_dexUrl := None |}
  end.

(** The two price lookups of [generateFallbackSwapRoute] with their
    [catch]: both variables start at 1 and are assigned only after both
    lookups have returned. *)
Definition fallback_prices (tokenIn tokenOut : TokenType) : M (JS.number * JS.number) :=
  try_catch
    (let* cachedInPrice := PriceService.getTokenPriceWithCache tokenIn in
     let* cachedOutPrice := PriceService.getTokenPriceWithCache tokenOut in
     ret (JS.or_else cachedInPrice (JS.Fin 1), JS.or_else cachedOutPrice (JS.Fin 1)))
    (fun error =>
       ret (DexService.quote_fallback_price tokenIn (JS.Fin 1),
            DexService.quote_fallback_price tokenOut (JS.Fin 1))).

Definition fallback_route (tokenIn tokenOut : TokenType) (amount : string)
    (tokenInPrice tokenOutPrice : JS.number) : SwapRoute :=
  let inputAmount := JS.parseFloat amount in
  let expectedOutput :=
    JS.toFixed (JS.div (JS.mul inputAmount tokenInPrice) tokenOutPrice) 6 in
  {| fromToken := symbol tokenIn;
     toToken := symbol tokenOut;
     fromAmount := amount;
     expectedOutput := expectedOutput;
     route_priceImpact := JS.Fin 0.5;
     estimatedGas := JS.Fin 0.0002;
     route_dex := "PancakeSwap";
     protocol := Some "PancakeSwap";
     alternativeRoutes :=
       Some [ {| alt_protocol := "Liquidswap";
                 alt_expectedOutput :=
                   JS.toFixed (JS.mul (JS.parseFloat expectedOutput) (JS.Fin 0.995)) 6;
                 alt_priceImpact := "0.7";
                 alt_estimatedGas := JS.Fin 0.00025 |} ];
     swapPayload := None;
     route_tokenIn := None;
     route_tokenOut := None;
     route_amount := None;
     path := None;
     route_dexUrl := None |}.

(** [generateFallbackSwapRoute(tokenIn, tokenOut, amount)]. *)
Definition generateFallbackSwapRoute (tokenIn tokenOut : TokenType) (amount : string)
  : M SwapRoute :=
  let* prices := fallback_prices tokenIn tokenOut in
  ret (fallback_route tokenIn tokenOut amount (fst prices) (snd prices)).

(** ['0x' + address] unless the prefix is there. *)
Definition with_0x (a : string) : string :=
  if startsWith a "0x" then a else "0x" +:+ a.

Definition token_info (isTestnet : bool) (t : TokenType) (addr : string) : TokenInfo :=
  {| ti_symbol := symbol t;
     ti_address := addr;
     ti_decimals := decimals (if isTestnet then APTOS_TESTNET_COINS t else APTOS_COINS t) |}.

Definition alternative_of_panora (r : PanoraRoute) : AlternativeRoute :=
  {| alt_protocol := str_or (pr_name r) "Aptos DEX";
     alt_expectedOutput := str_or (pr_toTokenAmount r) "0";
     alt_priceImpact := str_or (pr_priceImpact r) "0.5";
     alt_estimatedGas :=
       if str_truthy (pr_estimatedGas r)
       then JS.parseFloat (str_or (pr_estimatedGas r) "")
       else JS.Fin 0.0002 |}.

(** The mapping of a Panora answer to a route; [None] when the answer has
    no data or no route, and control falls through to the next tier. *)
Definition route_of_panora (isTestnet : bool) (tokenIn tokenOut : TokenType)
    (fromTokenAddress toTokenAddress : string)
    (amount : string) (quoteResponse : option (option PanoraData)) : option SwapRoute :=
  match quoteResponse with
  | Some (Some data) =>
      match default [] (pd_routes data) with
      | [] => None
      | bestRoute :: rest =>
          Some {| fromToken := symbol tokenIn;
                  toToken := symbol tokenOut;
                  fromAmount := amount;
                  expectedOutput := str_or (pd_toTokenAmount data) "0";
                  route_priceImpact :=
                    if str_truthy (pd_priceImpact data)
                    then JS.parseFloat (str_or (pd_priceImpact data) "")
                    else JS.Fin 0.5;
                  estimatedGas :=
                    if str_truthy (pd_estimatedGas data)
                    then JS.parseFloat (str_or (pd_estimatedGas data) "")
                    else JS.Fin 0.0001;
                  route_dex := str_or (pr_name bestRoute) "Aptos DEX";
                  protocol := Some (str_or (pr_name bestRoute) "Aptos DEX Aggregator");
                  alternativeRoutes := Some (map alternative_of_panora rest);
                  swapPayload :=
                    match pd_transactionPayload data with
                    | Some p => Some p
                    | None => pd_rawTransaction data
                    end;
                  route_tokenIn := Some (token_info isTestnet tokenIn fromTokenAddress);
                  route_tokenOut := Some (token_info isTestnet tokenOut toTokenAddress);
                  route_amount := Some amount;
                  path := Some [ {| ps_dex := str_or (pr_name bestRoute) "Aptos DEX";
                                    ps_tokenIn := symbol tokenIn;
                                    ps_tokenOut := symbol tokenOut;
                                    ps_fee := str_or (pr_fee bestRoute) "0.3%" |} ];
                  route_dexUrl := Some "https://aptoslabs.com" |}
      end
  | _ => None
  end.

Definition panora_params (isTestnet : bool) (fromTokenAddress toTokenAddress : string)
    (amount : string) : PanoraQuoteParams :=
  {| chainId := if isTestnet then "2" else "1";
     fromTokenAddress := with_0x fromTokenAddress;
     toTokenAddress := with_0x toTokenAddress;
     fromTokenAmount := amount;
     slippagePercentage := "0.5";
     getTransactionData := "transactionPayload" |}.

Section Selector.

Variable Math_log10 : JS.number -> JS.number.

(** [getFallbackSwapRoute(tokenIn, tokenOut, amount)]: the fan-out tier. *)
Definition getFallbackSwapRoute (tokenIn tokenOut : TokenType) (amount : string)
  : M SwapRoute :=
  try_catch
    (let inputAmt := JS.parseFloat amount in
     let* allQuotes := DexService.getAllDexQuotes Math_log10 tokenIn tokenOut inputAmt in
     match route_of_quotes tokenIn tokenOut amount allQuotes with
     | None => throw "No valid quotes available"
     | Some r => ret r
     end)
    (fun error => generateFallbackSwapRoute tokenIn tokenOut amount).

(** The aggregator tier of [getBestSwapRoute]: its [try] block, with the
    [catch] that logs and falls through. *)
Definition try_panora (tokenIn tokenOut : TokenType) (amount : string)
  : M (option SwapRoute) :=
  let* sw := gets swapService in
  match panoraClient sw with
  | None => ret None
  | Some _ =>
      try_catch
        (let fromTokenAddress := DexService.getTokenAddress tokenIn (swap_isTestnet sw) in
         let toTokenAddress := DexService.getTokenAddress tokenOut (swap_isTestnet sw) in
         let* quoteResponse :=
           await (ReqPanoraQuote
                    (panora_params (swap_isTestnet sw) fromTokenAddress toTokenAddress amount)) in
         let* sw' := gets swapService in
         ret (route_of_panora (swap_isTestnet sw') tokenIn tokenOut
                fromTokenAddress toTokenAddress amount quoteResponse))
        (fun panoraError => ret None)
  end.

(** [getBestSwapRoute(tokenIn, tokenOut, amount)]. *)
Definition getBestSwapRoute (tokenIn tokenOut : TokenType) (amount : string)
  : M SwapRoute :=
  try_catch
    (let* fromPanora := try_panora tokenIn tokenOut amount in
     match fromPanora with
     | Some r => ret r
     | None => getFallbackSwapRoute tokenIn tokenOut amount
     end)
    (fun error => generateFallbackSwapRoute tokenIn tokenOut amount).

End Selector.

(** [formatTokenAmount(amount, decimals)] of SwapService. *)
Definition formatTokenAmount (amount : JS.number) (decimals : nat) : string :=
  let multiplier := JS.Math_pow10 decimals in
  JS.toFixed (JS.mul64 amount multiplier) 0.

Section Executor.

Variable Math_log10 : JS.number -> JS.number.

(** [executeSwap(walletAddress, tokenIn, tokenOut, amount,
    slippagePercentage, deadline)]. *)
Definition executeSwap (walletAddress : string) (tokenIn tokenOut : TokenType)
    (amount : string) (slippagePercentage deadline : JS.number) : M SwapExecution :=
  try_catch
    (let* route := getBestSwapRoute Math_log10 tokenIn tokenOut amount in
     match swapPayload route with
     | Some p =>
         ret {| success := true; txHash := None; exec_error := None;
                exec_payload := Some (PanoraPayload p) |}
     | None =>
         let* isTestnet := gets (fun s => swap_isTestnet (swapService s)) in
         if isTestnet
         then
           let fromTokenAddress := DexService.getTokenAddress tokenIn true in
           let toTokenAddress := DexService.getTokenAddress tokenOut true in
           let tokenInInfo := APTOS_TESTNET_COINS tokenIn in
           let formattedAmount :=
             formatTokenAmount (JS.parseFloat amount) (decimals tokenInInfo) in
           let minOutputAmount := "1" in
           ret {| success := true; txHash := None; exec_error := None;
                  exec_payload :=
                    Some (EntryFunction
                      {| payload_type := "entry_function_payload";
                         payload_function := "0xc7efb4076dbe143cbcd98cfaaa929ecfc8f299203dfff63b95ccb6bfe19850fa::router::swap_exact_input";
                         type_arguments := [fromTokenAddress; toTokenAddress];
                         arguments := [formattedAmount; minOutputAmount] |}) |}
         else
           let fromTokenAddress := DexService.getTokenAddress tokenIn false in
           let toTokenAddress := DexService.getTokenAddress tokenOut false in
           let tokenInInfo := APTOS_COINS tokenIn in
           let formattedAmount :=
             formatTokenAmount (JS.parseFloat amount) (decimals tokenInInfo) in
           let minOutputAmount := "0" in
           ret {| success := true; txHash := None; exec_error := None;
                  exec_payload :=
                    Some (EntryFunction
                      {| payload_type := "entry_function_payload";
                         payload_function :=
                           router (APTOS_DEXES PANCAKE) +:+ "::router::swap_exact_input";
                         type_arguments := [fromTokenAddress; toTokenAddress];
                         arguments := [formattedAmount; minOutputAmount] |}) |}
     end)
    (fun error =>
       ret {| success := false; txHash := None;
              exec_error := Some ("Failed to execute swap: " +:+ error);
              exec_payload := None |}).

End Executor.

End SwapService.

(* ===================================================================== *)
(** * DeFiService ([defiService.ts])                                      *)
(* ===================================================================== *)

Module DeFiService.

Definition TESTNET_RATES_CACHE_DURATION : Z := 60 * 1000.

(** [setTestnetMode(isTestnet)] of DeFiService. *)
Definition setTestnetMode (isTestnet : bool) : M unit :=
  modify (set_defiService (fun d =>
    {| client := SwapService.network_url isTestnet;
       defi_isTestnet := isTestnet;
       defi_networkUrl := SwapService.network_url isTestnet;
       testnetRatesCache := testnetRatesCache d;
       marketDataCache := marketDataCache d;
       marketDataTimestamp := marketDataTimestamp d |})) ;;;
  SwapService.setTestnetMode isTestnet ;;;
  let* flag := gets (fun s => defi_isTestnet (defiService s)) in
  DexService.setTestnetMode flag ;;;
  modify (set_defiService (fun d =>
    {| client := client d;
       defi_isTestnet := defi_isTestnet d;
       defi_networkUrl := defi_networkUrl d;
       testnetRatesCache := ∅;
       marketDataCache := None;
       marketDataTimestamp := 0 |})).

Definition set_rate (k : string) (e : RateEntry) (d : DeFiServiceState) : DeFiServiceState :=
  {| client := client d;
     defi_isTestnet := defi_isTestnet d;
     defi_networkUrl := defi_networkUrl d;
     testnetRatesCache := <[k := e]> (testnetRatesCache d);
     marketDataCache := marketDataCache d;
     marketDataTimestamp := marketDataTimestamp d |}.

(** The loop over the quotes: the largest output above the running best. *)
Fixpoint best_of_quotes (quotes : list (option DexQuote)) (bestRate : JS.number) : JS.number :=
  match quotes with
  | [] => bestRate
  | Some q :: rest =>
      let out := JS.parseFloat (outputAmount q) in
      best_of_quotes rest (if JS.gtb out bestRate then out else bestRate)
  | None :: rest => best_of_quotes rest bestRate
  end.

Definition is_apt_usdc (tokenIn tokenOut : TokenType) : bool :=
  (TokenType_eqb tokenIn APT && TokenType_eqb tokenOut USDC)
  || (TokenType_eqb tokenIn USDC && TokenType_eqb tokenOut APT).

Definition pancakePoolAddress : string :=
  "0xc7efb4076dbe143cbcd98cfaaa929ecfc8f299203dfff63b95ccb6bfe19850fa".

Definition is_pool_resource (r : Resource) : bool :=
  includes (res_type r) "swap::TokenPairReserve"
  && includes (res_type r) "AptosCoin"
  && includes (res_type r) "DevnetUSDC".

(** [parseFloat(data.reserve_x)]: a missing field reads as NaN. *)
Definition parse_field (f : option string) : JS.number :=
  match f with
  | Some s => JS.parseFloat s
  | None => JS.NaN
  end.

(** The rate read off the pool reserves, when the resource is there. *)
Definition rate_of_resources (tokenIn tokenOut : TokenType) (resources : list Resource)
    (bestRate : JS.number) : JS.number :=
  match List.find is_pool_resource resources with
  | Some {| res_data := Some (reserve_x, reserve_y) |} =>
      let reserve0 := parse_field reserve_x in
      let reserve1 := parse_field reserve_y in
      if TokenType_eqb tokenIn APT && TokenType_eqb tokenOut USDC
      then JS.div reserve1 reserve0
      else JS.div reserve0 reserve1
  | _ => bestRate
  end.

(** The hard-coded rates of both fallback blocks. *)
Definition fallback_rate (tokenIn tokenOut : TokenType) : JS.number :=
  if TokenType_eqb tokenIn APT && TokenType_eqb tokenOut USDC then JS.Fin 58.034
  else if TokenType_eqb tokenIn USDC && TokenType_eqb tokenOut APT then JS.Fin 0.0172
  else JS.Fin 10.

(** The direct resource query of the [try] block: made only when no DEX
    gave a rate and the pair is APT/USDC; its own [catch] only logs. *)
Definition query_pool_reserves (tokenIn tokenOut : TokenType) (bestRate : JS.number)
  : M JS.number :=
  if JS.strict_eqb bestRate (JS.Fin 0) && is_apt_usdc tokenIn tokenOut
  then
    try_catch
      (let* resources := await (ReqResources pancakePoolAddress) in
       ret (rate_of_resources tokenIn tokenOut resources bestRate))
      (fun error => ret bestRate)
  else ret bestRate.

Section Rates.

Variable Math_log10 : JS.number -> JS.number.

(** The [try]/[catch] of [getTestnetExchangeRate], entered on a cache miss:
    [now] is the time read at the start of the call. *)
Definition compute_rate (tokenIn tokenOut : TokenType) (cacheKey : string) (now : Z)
  : M JS.number :=
  try_catch
    (let* quotes := DexService.getAllDexQuotes Math_log10 tokenIn tokenOut (JS.Fin 1) in
     let bestRate := best_of_quotes quotes (JS.Fin 0) in
     let* bestRate := query_pool_reserves tokenIn tokenOut bestRate in
     let bestRate :=
       if JS.strict_eqb bestRate (JS.Fin 0)
       then fallback_rate tokenIn tokenOut
       else bestRate in
     modify (set_defiService
               (set_rate cacheKey {| rate := bestRate; rate_timestamp := now |})) ;;;
     ret bestRate)
    (fun error =>
       let fallbackRate := fallback_rate tokenIn tokenOut in
       modify (set_defiService
                 (set_rate cacheKey {| rate := fallbackRate; rate_timestamp := now |})) ;;;
       ret fallbackRate).

(** [getTestnetExchangeRate(tokenIn, tokenOut)]. *)
Definition getTestnetExchangeRate (tokenIn tokenOut : TokenType) : M JS.number :=
  let cacheKey := symbol tokenIn +:+ "-" +:+ symbol tokenOut in
  let* now := dateNow in
  let* cachedRate := gets (fun s => testnetRatesCache (defiService s) !! cacheKey) in
  let fresh :=
    match cachedRate with
    | Some c => now - rate_timestamp c <? TESTNET_RATES_CACHE_DURATION
    | None => false
    end in
  match cachedRate, fresh with
  | Some c, true => ret (rate c)
  | _, _ => compute_rate tokenIn tokenOut cacheKey now
  end.

(** [getBestSwapRoute] and [executeSwap] of DeFiService hand over to
    SwapService. *)
Definition getBestSwapRoute (tokenIn tokenOut : TokenType) (amount : string)
  : M SwapRoute :=
  SwapService.getBestSwapRoute Math_log10 tokenIn tokenOut amount.

Definition executeSwap (walletAddress : string) (tokenIn tokenOut : TokenType)
    (amount : string) (slippagePercentage deadline : JS.number) : M SwapExecution :=
  SwapService.executeSwap Math_log10 walletAddress tokenIn tokenOut amount
    slippagePercentage deadline.

End Rates.

End DeFiService.

(* ===================================================================== *)
(** * The chat endpoint ([app/api/chat/route.ts])                         *)
(* ===================================================================== *)

Module ChatRoute.

Definition nl : string := String "010"%char EmptyString.

(** An optional string inside a template literal. *)
Definition shown (s : option string) : string := default "undefined" s.

Section Formatting.

(** [String(x)] of a number inside a template literal, not computed here. *)
Variable Number_toString : JS.number -> string.

(** The body of [route.alternativeRoutes.forEach((alt, i) => ..)], from
    index [i] on. *)
Fixpoint alternative_lines (symbolOut : string) (i : nat) (alts : list AlternativeRoute)
  : string :=
  match alts with
  | [] => ""
  | alt :: rest =>
      JS.digits (Z.of_nat i + 1) +:+ ". " +:+ alt_protocol alt +:+ ": "
      +:+ alt_expectedOutput alt +:+ " " +:+ symbolOut +:+ nl
      +:+ alternative_lines symbolOut (S i) rest
  end.

(** [formatSwapResponse(route, timestamp)].  Reading [.symbol] of a token
    description that the route does not carry is a [TypeError]. *)
Definition formatSwapResponse (route : SwapRoute) (timestamp : string) : Result string :=
  match route_tokenIn route, route_tokenOut route with
  | Some tokenIn, Some tokenOut =>
      let response :=
        "🔄 Best Swap Route for " +:+ shown (route_amount route) +:+ " "
        +:+ ti_symbol tokenIn +:+ " to " +:+ ti_symbol tokenOut
        +:+ " (" +:+ timestamp +:+ "):" +:+ nl +:+ nl in
      let response :=
        response +:+ "💱 Expected Output: " +:+ expectedOutput route +:+ " "
        +:+ ti_symbol tokenOut +:+ nl in
      let response :=
        response +:+ "📊 Best DEX: " +:+ shown (protocol route) +:+ nl in
      let response :=
        response +:+ "📈 Price Impact: "
        +:+ Number_toString (route_priceImpact route) +:+ "%" +:+ nl in
      let response :=
        response +:+ "⛽ Estimated Gas: "
        +:+ Number_toString (estimatedGas route) +:+ nl +:+ nl in
      let response :=
        match alternativeRoutes route with
        | Some (alt :: rest) =>
            response +:+ "Alternative Routes:" +:+ nl
            +:+ alternative_lines (ti_symbol tokenOut) 0 (alt :: rest) +:+ nl
        | _ => response
        end in
      let response :=
        response +:+ "🔗 Execute trade: " +:+ shown (route_dexUrl route) +:+ nl +:+ nl in
      Ok (response +:+ "Note: Rates are subject to change • DYOR")
  | _, _ => Thrown "Cannot read properties of undefined (reading 'symbol')"
  end.

Variable Math_log10 : JS.number -> JS.number.

(** [getFormattedTimestamp()], as a function of the time of the call. *)
Variable getFormattedTimestamp : Z -> string.

(** The swap branch of [POST], entered with the parameters that
    [extractSwapParams] found once both symbols are supported tokens:
    the [try] block and its [catch]. *)
Definition answer_swap_query (tokenIn tokenOut : TokenType) (amount : string)
  : M string :=
  try_catch
    (let* route := DeFiService.getBestSwapRoute Math_log10 tokenIn tokenOut amount in
     let* now := dateNow in
     let timestamp := getFormattedTimestamp now in
     match formatSwapResponse route timestamp with
     | Ok text => ret text
     | Thrown e => throw e
     end)
    (fun error =>
       ret ("Sorry, I couldn't fetch swap rates at the moment. Error: " +:+ error
            +:+ ". Please try again later or check directly at DEX aggregator.")).

End Formatting.

End ChatRoute.

(* ===================================================================== *)
(** * The DeFiLlama clients ([lendingService.ts], [defiLlamaService.ts])  *)
(* ===================================================================== *)

(** [LendingService] and [DeFiLlamaService] talk to DeFiLlama only and
    share no state with the swap services.  Their async functions are
    programs over effects of their own: the clock, the three caches of
    [DeFiLlamaService], and [axios.get] of one of three endpoints. *)

(** [String.prototype.toUpperCase] on ASCII letters. *)
Definition upper_char (c : ascii) : ascii :=
  let n := N_of_ascii c in
  if ((97 <=? n) && (n <=? 122))%N then ascii_of_N (n - 32) else c.

Fixpoint toUpperCase (s : string) : string :=
  match s with
  | EmptyString => EmptyString
  | String c s' => String (upper_char c) (toUpperCase s')
  end.

(** [s.split(sep)] for a separator of one character. *)
Fixpoint split (sep : ascii) (s : string) : list string :=
  match s with
  | EmptyString => [EmptyString]
  | String c s' =>
      if Ascii.eqb c sep then EmptyString :: split sep s'
      else match split sep s' with
           | w :: ws => String c w :: ws
           | [] => [String c EmptyString]
           end
  end.

(** [s.replace(/\s+/g, '')] on ASCII white space. *)
Fixpoint strip_spaces (s : string) : string :=
  match s with
  | EmptyString => EmptyString
  | String c s' => if JS.is_ws c then strip_spaces s' else String c (strip_spaces s')
  end.

(** [x || d] on an optional number: [undefined], zero and NaN are falsy. *)
Definition num_or (x : option JS.number) (d : JS.number) : JS.number :=
  match x with
  | Some v => JS.or_else v d
  | None => d
  end.

(** [arr.slice(0, limit)] for an integral [limit]: a negative limit counts
    from the end. *)
Definition slice0 {A : Type} (l : list A) (limit : Z) : list A :=
  if limit <? 0 then firstn (Z.to_nat (Z.of_nat (length l) + limit)) l
  else firstn (Z.to_nat limit) l.

Module Llama.

(** One entry of [https://yields.llama.fi/pools]: the fields of [Pool],
    [PoolData] and [DeFiLlamaPool] in [interfaces.ts]. *)
Record Pool : Type := {
  chain : string;
  project : string;
  symbol : string;
  tvlUsd : JS.number;
  apy : JS.number;
  apyBase : option JS.number;
  apyReward : option JS.number;
  rewardTokens : option (list string);
  pool : string;
  utilization : option JS.number;
  volumeUsd : option JS.number;
  fee : option JS.number
}.

(** One entry of [/v2/chains], as [getAptosTVL] reads it. *)
Record Chain : Type := {
  chain_name : option string;
  chain_tvl : option JS.number
}.

(** One entry of [/protocols], as [getTopAptosProtocols] and
    [getProtocolDetails] read it. *)
Record Protocol : Type := {
  name : string;
  chains : option (list string);
  tvl : JS.number;
  chainTvls_Aptos : option JS.number;       (* protocol.chainTvls?.Aptos *)
  change_1d : option JS.number;
  change_1h : option JS.number;
  change_7d : option JS.number;
  category : option string;
  url : option string;
  description : option string;
  twitter : option string;
  audit_links : option (list string)
}.

Inductive Endpoint : Type :=
| Chains        (* https://api.llama.fi/v2/chains *)
| Protocols     (* https://api.llama.fi/protocols *)
| Pools.        (* https://yields.llama.fi/pools *)

Definition Item (e : Endpoint) : Type :=
  match e with
  | Chains => Chain
  | Protocols => Protocol
  | Pools => Pool
  end.

(** The body of a fulfilled request ([response.data]): a JSON array, an
    object with an array under one key, or any other value that is not
    [null] and has none of the fields the services read. *)
Inductive Document (A : Type) : Type :=
| Listing (items : list A)
| Keyed (key : string) (items : list A)
| Opaque.

Arguments Listing {A} items.
Arguments Keyed {A} key items.
Arguments Opaque {A}.

(** [Array.isArray(body)], with the items. *)
Definition as_array {A : Type} (body : Document A) : option (list A) :=
  match body with
  | Listing items => Some items
  | _ => None
  end.

(** [body[key]] when it is an array. *)
Definition field_array {A : Type} (key : string) (body : Document A) : option (list A) :=
  match body with
  | Keyed k items => if String.eqb k key then Some items else None
  | _ => None
  end.

(** A cache slot of [DeFiLlamaService]: [{ data, timestamp }]. *)
Record Cached (A : Type) : Type := {
  data : A;
  timestamp : Z
}.

Arguments data {A} c.
Arguments timestamp {A} c.

(** [ProtocolData] of [types/defi.ts], as [getTopAptosProtocols] fills it. *)
Record ProtocolData : Type := {
  protocol_name : string;
  protocol_tvl : JS.number;
  change24h : JS.number;
  change1h : JS.number;
  protocol_category : string;
  protocol_url : string;
  protocol_description : string;
  protocol_chains : list string
}.

Record State : Type := {
  tvlCache : option (Cached JS.number);
  poolsCache : option (Cached (list Pool));
  protocolsCache : option (Cached (list ProtocolData))
}.

Inductive Eff : Type -> Type :=
| DateNow : Eff Z                                       (* Date.now(), new Date() *)
| GetState : Eff State
| ModifyState (f : State -> State) : Eff unit
| Get (e : Endpoint) : Eff (Result (Document (Item e))).  (* await axios.get(url); the rejection is thrown *)

Inductive Prog (A : Type) : Type :=
| Ret (a : A)
| Vis {X : Type} (e : Eff X) (k : X -> Prog A).

Arguments Ret {A} a.
Arguments Vis {A X} e k.

Fixpoint pbind {A B : Type} (p : Prog A) (f : A -> Prog B) : Prog B :=
  match p with
  | Ret a => f a
  | Vis e k => Vis e (fun x => pbind (k x) f)
  end.

Definition M (A : Type) : Type := Prog (Result A).

Definition ret {A : Type} (a : A) : M A := Ret (Ok a).

Definition throw {A : Type} (e : Error) : M A := Ret (Thrown e).

Definition bind {A B : Type} (m : M A) (f : A -> M B) : M B :=
  pbind m (fun r => match r with Ok a => f a | Thrown e => Ret (Thrown e) end).

Definition try_catch {A : Type} (m : M A) (h : Error -> M A) : M A :=
  pbind m (fun r => match r with Ok a => Ret (Ok a) | Thrown e => h e end).

Definition perform {X : Type} (e : Eff X) : M X := Vis e (fun x => Ret (Ok x)).

Declare Scope llama_scope.

Notation "'let*' x ':=' c 'in' k" := (bind c (fun x => k))
  (at level 10, x pattern, c at level 100, k at level 200) : llama_scope.

Notation "c ;;; k" := (bind c (fun _ => k))
  (at level 100, k at level 200, right associativity) : llama_scope.

Local Open Scope llama_scope.

Definition dateNow : M Z := perform DateNow.
Definition gets {A : Type} (f : State -> A) : M A :=
  let* s := perform GetState in ret (f s).
Definition modify (f : State -> State) : M unit := perform (ModifyState f).

(** [await axios.get(url)], giving [response.data]. *)
Definition axios_get (e : Endpoint) : M (Document (Item e)) :=
  Vis (Get e) (fun r => Ret r).

(** [xs.map(f)] for a callback that reads the clock. *)
Fixpoint map_sync {A B : Type} (f : A -> M B) (xs : list A) : M (list B) :=
  match xs with
  | [] => ret []
  | x :: xs' =>
      let* y := f x in
      let* ys := map_sync f xs' in
      ret (y :: ys)
  end.

(** The outside world: for the [n]-th request of the run, how long the
    answer takes (ms) and what it is. *)
Definition Upstream : Type :=
  forall (n : nat) (e : Endpoint), Z * Result (Document (Item e)).

Record World : Type := {
  w_state : State;
  w_clock : Z;
  w_calls : list (Z * Endpoint)
}.

Definition step {X : Type} (up : Upstream) (e : Eff X) (w : World) : X * World :=
  match e in Eff X return X * World with
  | DateNow => (w_clock w, w)
  | GetState => (w_state w, w)
  | ModifyState f =>
      (tt, {| w_state := f (w_state w); w_clock := w_clock w; w_calls := w_calls w |})
  | Get e =>
      let (latency, answer) := up (length (w_calls w)) e in
      (answer, {| w_state := w_state w;
                  w_clock := w_clock w + Z.max 0 latency;
                  w_calls := w_calls w ++ [(w_clock w, e)] |})
  end.

(** A call awaited to its end with no other caller in flight. *)
Fixpoint run {A : Type} (up : Upstream) (p : Prog A) (w : World) : A * World :=
  match p with
  | Ret a => (a, w)
  | Vis e k => let (x, w') := step up e w in run up (k x) w'
  end.

(** Two calls in flight.  A call runs without interruption until it waits
    for an answer, and is resumed when the answer is due; of two calls due
    at the same time the one started first is resumed first. *)
Inductive Task (A : Type) : Type :=
| Suspended (wake : Z) (p : Prog A)
| Settled (since : Z) (a : A).

Arguments Suspended {A} wake p.
Arguments Settled {A} since a.

Definition suspends {X : Type} (e : Eff X) : bool :=
  match e with
  | Get _ => true
  | _ => false
  end.

Definition at_time (t : Z) (w : World) : World :=
  {| w_state := w_state w; w_clock := t; w_calls := w_calls w |}.

(** Runs a call up to its next [await].  The request is issued (and
    logged) at the current time; the time of [step]'s world is when the
    answer arrives. *)
Fixpoint run_sync {A : Type} (up : Upstream) (p : Prog A) (w : World) : Task A * World :=
  match p with
  | Ret a => (Settled (w_clock w) a, w)
  | Vis e k =>
      let (x, w') := step up e w in
      if suspends e
      then (Suspended (w_clock w') (k x), at_time (w_clock w) w')
      else run_sync up (k x) w'
  end.

Definition resume {A : Type} (up : Upstream) (wake : Z) (p : Prog A) (w : World)
  : Task A * World :=
  run_sync up p (at_time (Z.max wake (w_clock w)) w).

(** The event loop for two calls: each comes with the time at which it
    settled. *)
Fixpoint await_both {A B : Type} (up : Upstream) (fuel : nat)
    (ta : Task A) (tb : Task B) (w : World) : option ((Z * A) * (Z * B)) * World :=
  match ta, tb with
  | Settled s a, Settled u b => (Some ((s, a), (u, b)), w)
  | _, _ =>
      match fuel with
      | O => (None, w)
      | S f =>
          match ta, tb with
          | Suspended t p, Suspended u q =>
              if t <=? u
              then let (ta', w') := resume up t p w in await_both up f ta' tb w'
              else let (tb', w') := resume up u q w in await_both up f ta tb' w'
          | Suspended t p, Settled _ _ =>
              let (ta', w') := resume up t p w in await_both up f ta' tb w'
          | Settled _ _, Suspended u q =>
              let (tb', w') := resume up u q w in await_both up f ta tb' w'
          | Settled s a, Settled u b => (Some ((s, a), (u, b)), w)
          end
      end
  end.

(** What [Promise.all] of two settled promises gives: both values, or the
    reason of the rejection that came first. *)
Definition all_settled {A B : Type} (ra : Z * Result A) (rb : Z * Result B)
  : Result (A * B) :=
  match snd ra, snd rb with
  | Ok a, Ok b => Ok (a, b)
  | Thrown e, Ok _ => Thrown e
  | Ok _, Thrown e => Thrown e
  | Thrown ea, Thrown eb => Thrown (if fst rb <? fst ra then eb else ea)
  end.

(** [await Promise.all([p, q])] with [p] started before [q]; the world is
    the one in which both have settled.  [None] when the fuel does not
    suffice. *)
Definition promise_all2 {A B : Type} (up : Upstream) (fuel : nat)
    (p : M A) (q : M B) (w : World) : option (Result (A * B)) * World :=
  let (ta, w1) := run_sync up p w in
  let (tb, w2) := run_sync up q w1 in
  let (settled, w3) := await_both up fuel ta tb w2 in
  (option_map (fun both => all_settled (fst both) (snd both)) settled, w3).

End Llama.

(* ===================================================================== *)
(** * LendingService ([lendingService.ts])                                *)
(* ===================================================================== *)

(** An entry of [getLendingRates]. *)
Record LendingInfo : Type := {
  token_symbol : string;            (* token.symbol *)
  token_address : string;           (* token.address *)
  token_decimals : Z;               (* token.decimals *)
  lending_protocol : string;
  lending_apy : string;
  totalSupply : string;
  totalBorrowed : string;
  lending_poolUrl : string;
  updated : string;
  lending_rewardTokens : list string
}.

(** An entry of [getLiquidityPools]. *)
Record LiquidityPoolInfo : Type := {
  tokens : list string;
  liquidity_protocol : string;
  apy_total : JS.number;
  apy_base : JS.number;
  apy_reward : JS.number;
  apy_daily : JS.number;
  tvl_total : JS.number;
  tvl_token0 : JS.number;
  tvl_token1 : JS.number;
  volume24h : JS.number;
  fee24h : JS.number;
  liquidity_poolUrl : string;
  impermanentLoss30d : JS.number;
  rewards : list string
}.

Record YieldOpportunities : Type := {
  lending : list LendingInfo;
  liquidity : list LiquidityPoolInfo;
  staking : list Opaque_json
}.

Module LendingService.

Import Llama.
Local Open Scope llama_scope.

Definition MIN_TVL : JS.number := JS.Fin 1000.

(** The error of calling a method on a missing property. *)
Definition no_property (method : string) : Error :=
  "Cannot read properties of undefined (reading '" +:+ method +:+ "')".

(** [response.data.data], on which [filter] is called. *)
Definition pools_of (body : Document Pool) : M (list Pool) :=
  match field_array "data" body with
  | Some pools => ret pools
  | None => throw (no_property "filter")
  end.

Definition lending_match (token : string) (p : Pool) : bool :=
  String.eqb (toLowerCase (chain p)) "aptos" &&
  includes (toUpperCase (symbol p)) (toUpperCase token) &&
  JS.leb MIN_TVL (tvlUsd p).

Definition by_tvlUsd_desc (a b : Pool) : JS.number := JS.sub (tvlUsd b) (tvlUsd a).

Definition by_total_desc (a b : LiquidityPoolInfo) : JS.number :=
  JS.sub (tvl_total b) (tvl_total a).

Definition liquidity_match (token : option string) (p : Pool) : bool :=
  String.eqb (toLowerCase (chain p)) "aptos" &&
  (negb (str_truthy token) || includes (symbol p) (str_or token "")).

(** [calculateImpermanentLoss(pool)]. *)
Definition calculateImpermanentLoss (p : Pool) : JS.number := JS.Fin 0.05.

Definition liquidity_info (p : Pool) : LiquidityPoolInfo :=
  {| tokens := split "-"%char (symbol p);
     liquidity_protocol := project p;
     apy_total := apy p;
     apy_base := num_or (apyBase p) (JS.Fin 0);
     apy_reward := num_or (apyReward p) (JS.Fin 0);
     apy_daily := JS.div (apy p) (JS.Fin 365);
     tvl_total := tvlUsd p;
     tvl_token0 := JS.div (tvlUsd p) (JS.Fin 2);
     tvl_token1 := JS.div (tvlUsd p) (JS.Fin 2);
     volume24h := num_or (volumeUsd p) (JS.Fin 0);
     fee24h := JS.mul (num_or (volumeUsd p) (JS.Fin 0)) (num_or (fee p) (JS.Fin 0.003));
     liquidity_poolUrl :=
       "https://app." +:+ toLowerCase (project p) +:+ ".com/pool/" +:+ pool p;
     impermanentLoss30d := calculateImpermanentLoss p;
     rewards := default [] (rewardTokens p) |}.

(** [getLiquidityPools(token?)]: the error is thrown again. *)
Definition getLiquidityPools (token : option string) : M (list LiquidityPoolInfo) :=
  try_catch
    (let* body := axios_get Pools in
     let* all := pools_of body in
     let pools := map liquidity_info (filter (fun p => liquidity_match token p = true) all) in
     ret (Array_sort by_total_desc pools))
    (fun error => throw error).

Section Printing.

(** [Number.prototype.toString] and [Date.prototype.toISOString], not
    computed here. *)
Variable Number_toString : JS.number -> string.
Variable toISOString : Z -> string.

Definition lending_info (p : Pool) : M LendingInfo :=
  let totalApy := JS.add (num_or (apyBase p) (JS.Fin 0)) (num_or (apyReward p) (JS.Fin 0)) in
  let* now := dateNow in
  ret {| token_symbol := symbol p;
         token_address := pool p;
         token_decimals := 8;
         lending_protocol := project p;
         lending_apy := JS.toFixed totalApy 2;
         totalSupply := Number_toString (tvlUsd p);
         totalBorrowed :=
           Number_toString (JS.mul (tvlUsd p) (num_or (utilization p) (JS.Fin 0.7)));
         lending_poolUrl :=
           "https://defillama.com/protocol/" +:+ toLowerCase (project p) +:+ "/aptos";
         updated := toISOString now;
         lending_rewardTokens := default [] (rewardTokens p) |}.

(** [getLendingRates(token)]. *)
Definition getLendingRates (token : string) : M (list LendingInfo) :=
  try_catch
    (let* body := axios_get Pools in
     let* all := pools_of body in
     let aptosPools := filter (fun p => lending_match token p = true) all in
     map_sync lending_info (Array_sort by_tvlUsd_desc aptosPools))
    (fun error => ret []).

(** [getYieldOpportunities(token)], awaited to its end: the two calls of
    [Promise.all] are in flight together. *)
Definition getYieldOpportunities (up : Upstream) (fuel : nat) (token : string) (w : World)
  : option (Result YieldOpportunities) * World :=
  let (settled, w') :=
    promise_all2 up fuel (getLendingRates token) (getLiquidityPools (Some token)) w in
  (option_map
     (fun r =>
        match r with
        | Ok (lendingRates, liquidityPools) =>
            Ok {| lending := lendingRates; liquidity := liquidityPools; staking := [] |}
        | Thrown e => Thrown e
        end)
     settled,
   w').

End Printing.

(** [calculateExpectedOutput(amount, priceData, tokenIn, tokenOut)];
    [priceData.data] maps a key to the [price] of its entry. *)
Definition calculateExpectedOutput (amount : string) (priceData : gmap string JS.number)
    (tokenIn tokenOut : string) : string :=
  let inputPrice := num_or (priceData !! ("aptos:" +:+ tokenIn)) (JS.Fin 1) in
  let outputPrice := num_or (priceData !! ("aptos:" +:+ tokenOut)) (JS.Fin 1) in
  JS.toFixed (JS.div (JS.mul (JS.parseFloat amount) inputPrice) outputPrice) 6.

(** [calculatePriceImpact(amount, volumeUsd)]. *)
Definition calculatePriceImpact (amount : string) (volumeUsd : JS.number) : string :=
  let amountUsd := JS.mul (JS.parseFloat amount) (JS.Fin 10) in
  JS.toFixed (JS.mul (JS.div amountUsd volumeUsd) (JS.Fin 100)) 2.

End LendingService.

(* ===================================================================== *)
(** * DeFiLlamaService ([defiLlamaService.ts])                            *)
(* ===================================================================== *)

(** An entry of [getBestYieldOpportunities]. *)
Record YieldOpportunity : Type := {
  yield_protocol : string;
  yield_pool : string;
  yield_apy : JS.number;
  yield_tvl : JS.number;
  yield_apyBase : JS.number;
  yield_apyReward : JS.number;
  yield_rewardTokens : list string;
  yield_url : string
}.

(** The object of [getProtocolDetails]. *)
Record ProtocolDetails : Type := {
  details_name : string;
  details_tvl : JS.number;
  details_change24h : JS.number;
  details_change7d : JS.number;
  details_chains : option (list string);
  details_category : option string;
  details_url : option string;
  details_description : option string;
  details_twitter : option string;
  details_audit : list string
}.

Module DeFiLlamaService.

Import Llama.
Local Open Scope llama_scope.

Definition CACHE_DURATION : Z := 10 * 60 * 1000.

Definition APTOS_PROTOCOLS : list string :=
  ["PancakeSwap AMM"; "Thala LSD"; "Merkle Trade"; "LiquidSwap"; "Aries Markets"].

Definition set_tvlCache (c : Cached JS.number) (s : State) : State :=
  {| tvlCache := Some c; poolsCache := poolsCache s; protocolsCache := protocolsCache s |}.

Definition set_poolsCache (c : Cached (list Pool)) (s : State) : State :=
  {| tvlCache := tvlCache s; poolsCache := Some c; protocolsCache := protocolsCache s |}.

Definition set_protocolsCache (c : Cached (list ProtocolData)) (s : State) : State :=
  {| tvlCache := tvlCache s; poolsCache := poolsCache s; protocolsCache := Some c |}.

(** [cache && now - cache.timestamp < CACHE_DURATION]. *)
Definition valid {A : Type} (cache : option (Cached A)) (now : Z) : bool :=
  match cache with
  | Some c => now - timestamp c <? CACHE_DURATION
  | None => false
  end.

Definition is_aptos (c : Chain) : bool :=
  str_truthy (chain_name c) && String.eqb (toLowerCase (str_or (chain_name c) "")) "aptos".

(** [getAptosTVL()]. *)
Definition getAptosTVL : M JS.number :=
  let* now := dateNow in
  let* cache := gets tvlCache in
  match cache, valid cache now with
  | Some c, true => ret (data c)
  | _, _ =>
      try_catch
        (let* body := axios_get Chains in
         match as_array body with
         | None => throw "Invalid response format from DeFiLlama API"
         | Some chains =>
             match find is_aptos chains with
             | None => throw "Aptos data not found in DeFiLlama response"
             | Some aptosData =>
                 match chain_tvl aptosData with
                 | None => throw "Cannot read properties of undefined (reading 'toLocaleString')"
                 | Some tvl =>
                     modify (set_tvlCache {| data := tvl; timestamp := now |}) ;;;
                     ret tvl
                 end
             end
         end)
        (fun error =>
           let* cache := gets tvlCache in
           match cache with
           | Some c => ret (data c)
           | None => ret (JS.Fin 117000000)
           end)
  end.

(** [getFallbackProtocolData(limit)]. *)
Definition getFallbackProtocolData (limit : Z) : list ProtocolData :=
  slice0
    [ {| protocol_name := "PancakeSwap AMM"; protocol_tvl := JS.Fin 42000000;
         change24h := JS.Fin 0.5; change1h := JS.Fin 0.1;
         protocol_category := "DEX"; protocol_url := "https://pancakeswap.finance";
         protocol_description := "PancakeSwap is a decentralized exchange on Aptos";
         protocol_chains := ["Aptos"; "BNB Chain"] |};
      {| protocol_name := "Thala LSD"; protocol_tvl := JS.Fin 18000000;
         change24h := JS.Fin 1.2; change1h := JS.Fin 0.3;
         protocol_category := "Liquid Staking"; protocol_url := "https://thala.fi";
         protocol_description := "Thala is a liquid staking protocol on Aptos";
         protocol_chains := ["Aptos"] |};
      {| protocol_name := "Merkle Trade"; protocol_tvl := JS.Fin 12000000;
         change24h := JS.Fin 2.5; change1h := JS.Fin 0.7;
         protocol_category := "Derivatives"; protocol_url := "https://merkle.trade";
         protocol_description := "Merkle Trade is a derivatives exchange on Aptos";
         protocol_chains := ["Aptos"] |};
      {| protocol_name := "LiquidSwap"; protocol_tvl := JS.Fin 25000000;
         change24h := JS.Fin (-0.2); change1h := JS.Fin (-0.1);
         protocol_category := "DEX"; protocol_url := "https://liquidswap.com";
         protocol_description := "LiquidSwap is a decentralized exchange on Aptos";
         protocol_chains := ["Aptos"] |};
      {| protocol_name := "Aries Markets"; protocol_tvl := JS.Fin 15000000;
         change24h := JS.Fin 0.8; change1h := JS.Fin 0.2;
         protocol_category := "Lending"; protocol_url := "https://aries.markets";
         protocol_description := "Aries Markets is a lending protocol on Aptos";
         protocol_chains := ["Aptos"] |} ]
    limit.

(** The filter of [getTopAptosProtocols]. *)
Definition tracked (p : Protocol) : bool :=
  match chains p with
  | Some cs =>
      existsb (String.eqb "Aptos") cs &&
      existsb (fun n => includes (name p) n) APTOS_PROTOCOLS
  | None => false
  end.

Definition by_tvl_desc (a b : Protocol) : JS.number := JS.sub (tvl b) (tvl a).

Definition protocol_data (p : Protocol) : ProtocolData :=
  let aptosTvl :=
    match chainTvls_Aptos p with
    | Some v => if JS.truthy v then v else tvl p
    | None => tvl p
    end in
  {| protocol_name := name p;
     protocol_tvl := JS.or_else aptosTvl (JS.Fin 0);
     change24h := num_or (change_1d p) (JS.Fin 0);
     change1h := num_or (change_1h p) (JS.Fin 0);
     protocol_category := str_or (category p) "DeFi";
     protocol_url := str_or (url p) "";
     protocol_description := str_or (description p) "";
     protocol_chains := default ["Aptos"] (chains p) |}.

(** [getTopAptosProtocols(limit = 5)]. *)
Definition getTopAptosProtocols (limit : option Z) : M (list ProtocolData) :=
  let limit := default 5 limit in
  let* now := dateNow in
  let* cache := gets protocolsCache in
  match cache, valid cache now with
  | Some c, true => ret (slice0 (data c) limit)
  | _, _ =>
      try_catch
        (let* body := axios_get Protocols in
         match as_array body with
         | None => throw "Invalid response format from DeFiLlama API"
         | Some protocols =>
             let aptosProtocols := filter (fun p => tracked p = true) protocols in
             match aptosProtocols with
             | [] => ret (getFallbackProtocolData limit)
             | _ =>
                 let sortedProtocols := slice0 (Array_sort by_tvl_desc aptosProtocols) limit in
                 let mappedProtocols := map protocol_data sortedProtocols in
                 modify (set_protocolsCache {| data := mappedProtocols; timestamp := now |}) ;;;
                 ret mappedProtocols
             end
         end)
        (fun error =>
           let* cache := gets protocolsCache in
           match cache with
           | Some c => ret (slice0 (data c) limit)
           | None => ret (getFallbackProtocolData limit)
           end)
  end.

(** [getAptosPools()]. *)
Definition getAptosPools : M (list Pool) :=
  let* now := dateNow in
  let* cache := gets poolsCache in
  match cache, valid cache now with
  | Some c, true => ret (data c)
  | _, _ =>
      try_catch
        (let* body := axios_get Pools in
         let* all := LendingService.pools_of body in
         let aptosPools :=
           filter (fun p => String.eqb (toLowerCase (chain p)) "aptos" = true) all in
         modify (set_poolsCache {| data := aptosPools; timestamp := now |}) ;;;
         ret aptosPools)
        (fun error =>
           let* cache := gets poolsCache in
           match cache with
           | Some c => ret (data c)
           | None => ret []
           end)
  end.

Definition by_apy_desc (a b : Pool) : JS.number := JS.sub (apy b) (apy a).

Definition yield_opportunity (p : Pool) : YieldOpportunity :=
  {| yield_protocol := project p;
     yield_pool := symbol p;
     yield_apy := apy p;
     yield_tvl := tvlUsd p;
     yield_apyBase := num_or (apyBase p) (JS.Fin 0);
     yield_apyReward := num_or (apyReward p) (JS.Fin 0);
     yield_rewardTokens := default [] (rewardTokens p);
     yield_url :=
       "https://app." +:+ strip_spaces (toLowerCase (project p)) +:+ ".com/pool/" +:+ pool p |}.

(** [getBestYieldOpportunities(token, limit = 5)]. *)
Definition getBestYieldOpportunities (token : string) (limit : option Z)
    : M (list YieldOpportunity) :=
  let limit := default 5 limit in
  try_catch
    (let* pools := getAptosPools in
     let tokenPools :=
       filter (fun p => includes (toUpperCase (symbol p)) (toUpperCase token) = true) pools in
     ret (map yield_opportunity (slice0 (Array_sort by_apy_desc tokenPools) limit)))
    (fun error => ret []).

Definition details_of (p : Protocol) : ProtocolDetails :=
  {| details_name := name p;
     details_tvl := tvl p;
     details_change24h := num_or (change_1d p) (JS.Fin 0);
     details_change7d := num_or (change_7d p) (JS.Fin 0);
     details_chains := chains p;
     details_category := category p;
     details_url := url p;
     details_description := description p;
     details_twitter := twitter p;
     details_audit := default [] (audit_links p) |}.

(** [getProtocolDetails(protocolName)]; [None] is [null]. *)
Definition getProtocolDetails (protocolName : string) : M (option ProtocolDetails) :=
  try_catch
    (let* body := axios_get Protocols in
     match field_array "protocols" body with
     | None => throw "Cannot read properties of undefined (reading 'find')"
     | Some protocols =>
         match find (fun p => String.eqb (toLowerCase (name p)) (toLowerCase protocolName))
                    protocols with
         | None => throw ("Protocol not found: " +:+ protocolName)
         | Some protocol => ret (Some (details_of protocol))
         end
     end)
    (fun error => ret None).

End DeFiLlamaService.

(* ===================================================================== *)
(** * Several callers in flight: the event loop                           *)
(* ===================================================================== *)

(** The runtime is single-threaded and cooperative: a caller runs without
    interruption until it waits for a timer or for an upstream answer, and
    is resumed when that is due.  Callers due at the same time are resumed
    in the order in which they were started. *)

Inductive Task (A : Type) : Type :=
| Suspended (wake : Z) (p : Prog A)
| Settled (a : A).

Arguments Suspended {A} wake p.
Arguments Settled {A} a.

Definition suspends {X : Type} (e : Eff X) : bool :=
  match e with
  | SetTimeout _ | Call _ => true
  | _ => false
  end.

(** Runs a caller up to its next suspension.  A request is issued (and
    logged) at the current time; the time of [step]'s world is when the
    timer fires or the answer arrives. *)
Fixpoint run_sync {A : Type} (up : Upstream) (p : Prog A) (w : World) : Task A * World :=
  match p with
  | Ret a => (Settled a, w)
  | Vis e k =>
      let (x, w') := step up e w in
      if suspends e
      then (Suspended (w_clock w') (k x), at_time (w_clock w) w')
      else run_sync up (k x) w'
  end.

(** [callers.map(f => f())]: every caller runs its synchronous prefix. *)
Fixpoint start_all {A : Type} (up : Upstream) (ps : list (Prog A)) (w : World)
  : list (Task A) * World :=
  match ps with
  | [] => ([], w)
  | p :: rest =>
      let (t, w1) := run_sync up p w in
      let (ts, w2) := start_all up rest w1 in
      (t :: ts, w2)
  end.

Fixpoint earliest {A : Type} (ts : list (Task A)) : option Z :=
  match ts with
  | [] => None
  | Suspended wake _ :: rest =>
      match earliest rest with
      | Some t => Some (Z.min wake t)
      | None => Some wake
      end
  | Settled _ :: rest => earliest rest
  end.

(** Resumes the first caller that is due at [t]. *)
Fixpoint resume_due {A : Type} (up : Upstream) (t : Z) (ts : list (Task A)) (w : World)
  : list (Task A) * World :=
  match ts with
  | [] => ([], w)
  | Suspended wake p :: rest =>
      if wake =? t
      then let (task, w') := run_sync up p (at_time (Z.max t (w_clock w)) w) in
           (task :: rest, w')
      else let (rest', w') := resume_due up t rest w in
           (Suspended wake p :: rest', w')
  | Settled a :: rest =>
      let (rest', w') := resume_due up t rest w in
      (Settled a :: rest', w')
  end.

Fixpoint event_loop {A : Type} (up : Upstream) (fuel : nat) (ts : list (Task A)) (w : World)
  : list (Task A) * World :=
  match fuel with
  | O => (ts, w)
  | S f =>
      match earliest ts with
      | None => (ts, w)
      | Some t => let (ts', w') := resume_due up t ts w in event_loop up f ts' w'
      end
  end.

(** [Promise.all(callers)] with all callers in flight at once. *)
Definition run_concurrently {A : Type} (up : Upstream) (fuel : nat)
    (ps : list (Prog A)) (w : World) : list (Task A) * World :=
  let (ts, w1) := start_all up ps w in
  event_loop up fuel ts w1.

(* ===================================================================== *)
(** * Reference formulas and predicates used in the statements            *)
(* ===================================================================== *)

(** The slippage formula as the specification words it:
    [min(0.1, amountUsd / max(tvlUsd, 1_000_000))]. *)
Definition spec_slippageFactor (amount tokenInPrice tvlUsd : JS.number) : JS.number :=
  JS.Math_min (JS.Fin 0.1)
    (JS.div (JS.mul amount tokenInPrice) (JS.Math_max tvlUsd (JS.Fin 1000000))).

(** A finite, strictly positive number. *)
Definition positive (x : JS.number) : Prop :=
  match x with
  | JS.Fin q => (0 < q)%Q
  | _ => False
  end.

(** A string that parses as a non-negative number. *)
Definition parses_nonneg (s : string) : Prop := JS.nonneg (JS.parseFloat s).

(** A string that reads as a number that is not negative: zero, a
    positive number or [Infinity]. *)
Definition parses_not_negative (s : string) : Prop :=
  JS.leb (JS.Fin 0) (JS.parseFloat s) = true.

(** The numeric output of a quote, and the descending order on quotes. *)
Definition output_of (q : DexQuote) : JS.number := JS.parseFloat (outputAmount q).

Definition numeric (q : DexQuote) : Prop := JS.isNaN (output_of q) = false.

Definition not_below (a b : DexQuote) : Prop :=
  JS.leb (output_of b) (output_of a) = true.

(** A quote of a DEX with a given output, for examples. *)
Definition example_quote (k : DexKey) (out : string) : DexQuote :=
  {| dex := dex_key_name k;
     dexName := name (APTOS_DEXES k);
     outputAmount := out;
     priceImpact := "0.01";
     quote_fee := DexService.fee_label k;
     dexUrl := url (APTOS_DEXES k);
     quote_gasEstimate := Some (JS.Fin (gasEstimate (APTOS_DEXES k))) |}.

(** A slot of the fan-out whose quote, if present, has an output that
    parses as a non-negative number. *)
Definition output_ok (oq : option DexQuote) : Prop :=
  forall q, oq = Some q -> parses_nonneg (outputAmount q).

(** A pool payload whose TVL is absent or a positive number. *)
Definition pool_ok (p : PoolData) : Prop :=
  match tvl p with
  | Some t => positive t
  | None => True
  end.

(** Cached prices are positive and cached pool TVLs are absent or positive. *)
Definition caches_ok (s : State) : Prop :=
  (forall k e, priceCache (priceService s) !! k = Some e -> positive (price e)) /\
  (forall k p, poolCache (dexService s) !! k = Some p -> pool_ok p).

(** What the statements need of [Math.log10]: finite on positive numbers,
    and not zero at one million. *)
Definition log10_ok (Math_log10 : JS.number -> JS.number) : Prop :=
  (forall t, (0 < t)%Q -> exists r, Math_log10 (JS.Fin t) = JS.Fin r) /\
  (exists r, Math_log10 (JS.Fin 1000000) = JS.Fin r /\ ~ (r == 0)%Q).

(** The integer part of the decimal logarithm, for evaluating the quoter
    on concrete pools: it agrees with [Math.log10] on the powers of ten
    from 1 on. *)
Definition log10_floor (x : JS.number) : JS.number :=
  match x with
  | JS.Fin q =>
      match JS.sgn q with
      | Gt => JS.Fin (inject_Z (Z.of_nat (JS.num_digits (Qfloor q)) - 1))
      | Eq => JS.NInf
      | Lt => JS.NaN
      end
  | JS.PInf => JS.PInf
  | _ => JS.NaN
  end.

(** The world after the wait of [withRateLimit]: the clock has moved to the
    end of the 1.1 s window if the last request is more recent than that,
    and [lastApiCall] is the time of the clock. *)
Definition after_rate_limit (w : World) : World :=
  let since := w_clock w - lastApiCall (priceService (w_state w)) in
  let w1 := if since <? PriceService.API_RATE_LIMIT
            then tick (PriceService.API_RATE_LIMIT - since) w else w in
  with_state (set_priceService (PriceService.set_lastApiCall (w_clock w1))) w1.

(** A world that never answers, and one whose caches are cold. *)
Definition offline : Upstream :=
  {| reply := fun _ _ => (0, None); panora_ctor := fun _ => None |}.

Definition cold_state : State :=
  {| priceService := {| priceCache := ∅; priceMarketDataCache := ∅; lastApiCall := 0 |};
     dexService := {| poolCache := ∅; poolCacheTimestamp := 0; dex_isTestnet := true |};
     swapService := {| panoraClient := Some {| rpcUrl := "https://fullnode.testnet.aptoslabs.com/v1" |};
                       swap_isTestnet := true;
                       swap_networkUrl := "https://fullnode.testnet.aptoslabs.com/v1" |};
     defiService := {| client := "https://fullnode.mainnet.aptoslabs.com/v1";
                       defi_isTestnet := false;
                       defi_networkUrl := "https://fullnode.mainnet.aptoslabs.com/v1";
                       testnetRatesCache := ∅;
                       marketDataCache := None;
                       marketDataTimestamp := 0 |} |}.

Definition cold_world (t : Z) : World :=
  {| w_state := cold_state; w_clock := t; w_calls := [] |}.

(** An upstream whose price API answers 6.75 after 200 ms and whose other
    services are down. *)
Definition prices_only : Upstream :=
  {| reply := fun _ r =>
       match r return Z * option (Reply r) with
       | ReqPrice _ => (200, Some (Some (JS.Fin 6.75)))
       | ReqPool _ => (200, None)
       | ReqPanoraQuote _ => (200, None)
       | ReqResources _ => (200, None)
       end;
     panora_ctor := fun rpc => Some {| rpcUrl := rpc |} |}.

(** An upstream where only the node answers, with an APT/USDC pool that
    holds no liquidity yet. *)
Definition empty_pool_resource : Resource :=
  {| res_type := "0xc7efb4076dbe143cbcd98cfaaa929ecfc8f299203dfff63b95ccb6bfe19850fa::swap::TokenPairReserve<0x1::aptos_coin::AptosCoin, 0x8c805723ebc0a7fc5b7d3e7b75d567918e806b3461cb9fa21941a9edc0220bf::devnet_coins::DevnetUSDC>";
     res_data := Some (Some "0", Some "0") |}.

Definition node_only : Upstream :=
  {| reply := fun _ r =>
       match r return Z * option (Reply r) with
       | ReqResources _ => (150, Some [empty_pool_resource])
       | ReqPrice _ => (0, None)
       | ReqPool _ => (0, None)
       | ReqPanoraQuote _ => (0, None)
       end;
     panora_ctor := fun _ => None |}.

(** A start time for the evaluations (epoch milliseconds). *)
Definition t0 : Z := 1700000000000.

(** Warm caches: prices and one pool fetched one second before [t0], and a
    testnet rate cached at [t0]. *)
Definition warm_state : State :=
  {| priceService :=
       {| priceCache := {[ "apt" := {| price := JS.Fin 6.75; timestamp := t0 - 1000 |};
                           "usdc" := {| price := JS.Fin 1; timestamp := t0 - 1000 |} ]};
          priceMarketDataCache := ∅;
          lastApiCall := t0 - 1000 |};
     dexService :=
       {| poolCache := {[ "PancakeSwap" := {| tvl := Some (JS.Fin 2000000) |} ]};
          poolCacheTimestamp := t0 - 1000;
          dex_isTestnet := false |};
     swapService := {| panoraClient := None;
                       swap_isTestnet := false;
                       swap_networkUrl := "https://fullnode.mainnet.aptoslabs.com/v1" |};
     defiService := {| client := "https://fullnode.mainnet.aptoslabs.com/v1";
                       defi_isTestnet := false;
                       defi_networkUrl := "https://fullnode.mainnet.aptoslabs.com/v1";
                       testnetRatesCache :=
                         {[ "APT-USDC" := {| rate := JS.Fin 58.034; rate_timestamp := t0 |} ]};
                       marketDataCache := Some "{}";
                       marketDataTimestamp := t0 |} |}.

Definition warm_world : World :=
  {| w_state := warm_state; w_clock := t0; w_calls := [] |}.

(** Cold caches, except for an APT price of 7 fetched a second ago. *)
Definition cached_apt_world : World :=
  {| w_state :=
       set_priceService
         (PriceService.set_priceCache "apt" {| price := JS.Fin 7; timestamp := t0 - 1000 |})
         cold_state;
     w_clock := t0;
     w_calls := [] |}.

(** The warm caches with a second pool, Panora's, without a TVL field. *)
Definition two_pools_world : World :=
  with_state
    (set_dexService (fun d =>
       {| poolCache := <[ "Panora" := {| tvl := None |} ]> (poolCache d);
          poolCacheTimestamp := poolCacheTimestamp d;
          dex_isTestnet := dex_isTestnet d |}))
    warm_world.

(** The two pools, with a negative TVL in the payload of PancakeSwap. *)
Definition negative_tvl_world : World :=
  with_state
    (set_dexService (fun d =>
       {| poolCache := <[ "PancakeSwap" := {| tvl := Some (JS.Fin (-5)) |} ]> (poolCache d);
          poolCacheTimestamp := poolCacheTimestamp d;
          dex_isTestnet := dex_isTestnet d |}))
    two_pools_world.

(** Cold price cache, one cached pool without a TVL field. *)
Definition pool_only_world : World :=
  {| w_state :=
       set_dexService (fun d =>
         {| poolCache := {[ "PancakeSwap" := {| tvl := None |} ]};
            poolCacheTimestamp := t0;
            dex_isTestnet := dex_isTestnet d |}) cold_state;
     w_clock := t0;
     w_calls := [] |}.

(** The place of a DEX in [Object.values(APTOS_DEXES)], and what the pool
    request of that DEX is answered when the first of the five requests is
    the [n0]-th of the run: the payload, when the request succeeds with a
    truthy one. *)
Definition dex_index (k : DexKey) : nat :=
  match k with
  | PANCAKE => 0 | LIQUIDSWAP => 1 | AUX => 2 | THALA => 3 | PANORA => 4
  end.

Definition pool_request (k : DexKey) : Request :=
  ReqPool (liquiditySource (APTOS_DEXES k)).

Definition pool_answer (up : Upstream) (n0 : nat) (k : DexKey) : option PoolData :=
  match snd (reply up (n0 + dex_index k)%nat (ReqPool (liquiditySource (APTOS_DEXES k)))) with
  | Some (Some data) => Some data
  | _ => None
  end.

(** The [results] of [fetchPoolData] for the DEXes [ks], the first request
    being the [n]-th of the run. *)
Fixpoint pool_results (up : Upstream) (n : nat) (ks : list DexKey)
  : list (string * option PoolData) :=
  match ks with
  | [] => []
  | k :: rest =>
      (name (APTOS_DEXES k),
       match snd (reply up n (ReqPool (liquiditySource (APTOS_DEXES k)))) with
       | Some data => data
       | None => None
       end) :: pool_results up (S n) rest
  end.

(** An upstream where only the liquidity source of PancakeSwap answers,
    with a TVL of 3,000,000. *)
Definition pancake_pool_only : Upstream :=
  {| reply := fun _ r =>
       match r return Z * option (Reply r) with
       | ReqPool source =>
           if String.eqb source "PancakeSwap AMM"
           then (100, Some (Some {| tvl := Some (JS.Fin 3000000) |}))
           else (100, None)
       | ReqPrice _ => (0, None)
       | ReqPanoraQuote _ => (0, None)
       | ReqResources _ => (0, None)
       end;
     panora_ctor := fun _ => None |}.

(** An upstream where only Panora answers: two candidate routes and a
    transaction payload. *)
Definition panora_data : PanoraData :=
  {| pd_toTokenAmount := Some "67.1";
     pd_priceImpact := Some "0.12";
     pd_estimatedGas := None;
     pd_routes :=
       Some [ {| pr_name := Some "ThalaSwap"; pr_fee := None;
                 pr_toTokenAmount := Some "67.1"; pr_priceImpact := Some "0.12";
                 pr_estimatedGas := None |};
              {| pr_name := None; pr_fee := None;
                 pr_toTokenAmount := Some "66.9"; pr_priceImpact := None;
                 pr_estimatedGas := Some "0.0003" |} ];
     pd_transactionPayload := Some "{..}";
     pd_rawTransaction := None |}.

Definition panora_only : Upstream :=
  {| reply := fun _ r =>
       match r return Z * option (Reply r) with
       | ReqPanoraQuote _ => (300, Some (Some (Some panora_data)))
       | ReqPrice _ => (0, None)
       | ReqPool _ => (0, None)
       | ReqResources _ => (0, None)
       end;
     panora_ctor := fun rpc => Some {| rpcUrl := rpc |} |}.

(** The request of the aggregator tier in a given state. *)
Definition panora_request (s : State) (tokenIn tokenOut : TokenType) (amount : string)
  : Request :=
  let isTestnet := swap_isTestnet (swapService s) in
  ReqPanoraQuote
    (SwapService.panora_params isTestnet
       (DexService.getTokenAddress tokenIn isTestnet)
       (DexService.getTokenAddress tokenOut isTestnet) amount).

(** What the aggregator tier was answered, when it asked. *)
Definition panora_answer (up : Upstream) (w : World) (tokenIn tokenOut : TokenType)
    (amount : string) : option (option (option PanoraData)) :=
  snd (reply up (length (w_calls w))
         (panora_request (w_state w) tokenIn tokenOut amount)).

(** The aggregator tier yields a route: the client is there and the answer
    carries at least one route. *)
Definition panora_routes (up : Upstream) (w : World) (tokenIn tokenOut : TokenType)
    (amount : string) : option (PanoraData * PanoraRoute * list PanoraRoute) :=
  match panoraClient (swapService (w_state w)),
        panora_answer up w tokenIn tokenOut amount with
  | Some _, Some (Some (Some data)) =>
      match pd_routes data with
      | Some (best :: rest) => Some (data, best, rest)
      | _ => None
      end
  | _, _ => None
  end.

(** The world after the request of the aggregator tier. *)
Definition after_panora (up : Upstream) (w : World) (tokenIn tokenOut : TokenType)
    (amount : string) : World :=
  match panoraClient (swapService (w_state w)) with
  | Some _ =>
      let req := panora_request (w_state w) tokenIn tokenOut amount in
      tick (fst (reply up (length (w_calls w)) req)) (log_call req w)
  | None => w
  end.

(** A magnitude between [1e-100] and [1e100]: the products and quotients
    that the services form of three such numbers stay well inside the
    range of binary64, so that neither overflow nor underflow occurs. *)
Definition moderate (q : Q) : Prop :=
  (1 # 10 ^ 100 <= q)%Q /\ (q <= inject_Z (10 ^ 100))%Q.

(** ** The DeFiLlama clients *)

(** What the next request of a run is answered, and the world once the
    answer is there. *)
Definition llama_answer (up : Llama.Upstream) (w : Llama.World) (e : Llama.Endpoint)
    : Result (Llama.Document (Llama.Item e)) :=
  snd (up (length (Llama.w_calls w)) e).

Definition llama_after (up : Llama.Upstream) (w : Llama.World) (e : Llama.Endpoint)
    : Llama.World :=
  {| Llama.w_state := Llama.w_state w;
     Llama.w_clock := Llama.w_clock w + Z.max 0 (fst (up (length (Llama.w_calls w)) e));
     Llama.w_calls := Llama.w_calls w ++ [(Llama.w_clock w, e)] |}.

(** The pools that the next request to the yields endpoint carries, when
    it succeeds with a [data] array. *)
Definition pools_answer (up : Llama.Upstream) (w : Llama.World) : option (list Llama.Pool) :=
  match llama_answer up w Llama.Pools with
  | Ok body => Llama.field_array "data" body
  | Thrown _ => None
  end.

(** Descending order of a numeric key. *)
Definition descending {A : Type} (key : A -> JS.number) (l : list A) : Prop :=
  StronglySorted (fun a b => JS.leb (key b) (key a) = true) l.
(** The Aptos TVL that the next request to the chains endpoint carries:
    the [tvl] of the first entry named Aptos, when the request succeeds
    with an array that has such an entry with a [tvl]. *)
Definition aptos_tvl_answer (up : Llama.Upstream) (w : Llama.World) : option JS.number :=
  match llama_answer up w Llama.Chains with
  | Ok body =>
      match Llama.as_array body with
      | Some chains =>
          match find DeFiLlamaService.is_aptos chains with
          | Some aptosData => Llama.chain_tvl aptosData
          | None => None
          end
      | None => None
      end
  | Thrown _ => None
  end.

(** The tracked protocols that the next request to the protocols endpoint
    carries, when it succeeds with an array. *)
Definition tracked_answer (up : Llama.Upstream) (w : Llama.World)
    : option (list Llama.Protocol) :=
  match llama_answer up w Llama.Protocols with
  | Ok body =>
      match Llama.as_array body with
      | Some protocols => Some (filter (fun p => DeFiLlamaService.tracked p = true) protocols)
      | None => None
      end
  | Thrown _ => None
  end.

Definition llama_with_state (f : Llama.State -> Llama.State) (w : Llama.World)
    : Llama.World :=
  {| Llama.w_state := f (Llama.w_state w);
     Llama.w_clock := Llama.w_clock w;
     Llama.w_calls := Llama.w_calls w |}.

(** The caches of [DeFiLlamaService] hold what its own functions put
    there: Aptos pools only, and tracked protocols on Aptos whose TVL is a
    number. *)
Definition llama_caches_ok (s : Llama.State) : Prop :=
  match Llama.poolsCache s with
  | Some c =>
      Forall (fun p => toLowerCase (Llama.chain p) = "aptos") (Llama.data c)
  | None => True
  end /\
  match Llama.protocolsCache s with
  | Some c =>
      Forall (fun d => In "Aptos" (Llama.protocol_chains d) /\
                       (exists n, In n DeFiLlamaService.APTOS_PROTOCOLS /\
                                  includes (Llama.protocol_name d) n = true) /\
                       JS.isNaN (Llama.protocol_tvl d) = false)
             (Llama.data c)
  | None => True
  end.

(** Unpriced: the price data has no usable price for the token. *)
Definition unpriced (priceData : gmap string JS.number) (token : string) : Prop :=
  match priceData !! ("aptos:" +:+ token) with
  | Some p => JS.truthy p = false
  | None => True
  end.

(** ** Sample answers of DeFiLlama *)

Definition sample_pool (chain project symbol pool : string) (tvlUsd apy : Q) : Llama.Pool :=
  {| Llama.chain := chain; Llama.project := project; Llama.symbol := symbol;
     Llama.tvlUsd := JS.Fin tvlUsd; Llama.apy := JS.Fin apy;
     Llama.apyBase := Some (JS.Fin apy); Llama.apyReward := None;
     Llama.rewardTokens := None; Llama.pool := pool;
     Llama.utilization := None; Llama.volumeUsd := None; Llama.fee := None |}.

Definition sample_pools : list Llama.Pool :=
  [ sample_pool "Aptos" "Thala" "APT-USDC" "pool-1" 5000000 12.8;
    sample_pool "Ethereum" "Aave" "USDC" "pool-2" 900000000 4.1;
    sample_pool "Aptos" "Aries Markets" "USDC" "pool-3" 18700000 5.2;
    sample_pool "aptos" "Tiny" "usdc" "pool-4" 500 40 ].

Definition sample_protocol (name : string) (chains : list string) (tvl : Q) : Llama.Protocol :=
  {| Llama.name := name; Llama.chains := Some chains; Llama.tvl := JS.Fin tvl;
     Llama.chainTvls_Aptos := None; Llama.change_1d := None; Llama.change_1h := None;
     Llama.change_7d := None; Llama.category := None; Llama.url := None;
     Llama.description := None; Llama.twitter := None; Llama.audit_links := None |}.

Definition sample_protocols : list Llama.Protocol :=
  [ sample_protocol "Aries Markets" ["Aptos"] 15000000;
    sample_protocol "Uniswap" ["Ethereum"] 4000000000;
    sample_protocol "PancakeSwap AMM" ["BSC"; "Aptos"] 42000000;
    sample_protocol "Thala LSD" ["Aptos"] 18000000 ].

Definition sample_chains : list Llama.Chain :=
  [ {| Llama.chain_name := Some "Ethereum"; Llama.chain_tvl := Some (JS.Fin 50000000000) |};
    {| Llama.chain_name := Some "Aptos"; Llama.chain_tvl := Some (JS.Fin 123000000) |} ].

(** DeFiLlama answering every request after 200 ms. *)
Definition llama_online : Llama.Upstream :=
  fun n e =>
    match e return Z * Result (Llama.Document (Llama.Item e)) with
    | Llama.Chains => (200, Ok (Llama.Listing sample_chains))
    | Llama.Protocols => (200, Ok (Llama.Listing sample_protocols))
    | Llama.Pools => (200, Ok (Llama.Keyed "data" sample_pools))
    end.

(** DeFiLlama answering [/protocols] with an object that holds the list
    under [protocols]. *)
Definition llama_keyed : Llama.Upstream :=
  fun n e =>
    match e return Z * Result (Llama.Document (Llama.Item e)) with
    | Llama.Protocols => (200, Ok (Llama.Keyed "protocols" sample_protocols))
    | _ => (200, Thrown "Network Error")
    end.

(** DeFiLlama out of reach. *)
Definition llama_offline : Llama.Upstream :=
  fun n e => (3000, Thrown "Network Error").

Definition llama_cold : Llama.World :=
  {| Llama.w_state :=
       {| Llama.tvlCache := None; Llama.poolsCache := None; Llama.protocolsCache := None |};
     Llama.w_clock := t0;
     Llama.w_calls := [] |}.

(** A TVL cached an hour before [t0]. *)
Definition llama_stale : Llama.World :=
  {| Llama.w_state :=
       {| Llama.tvlCache := Some {| Llama.data := JS.Fin 120000000;
                                    Llama.timestamp := t0 - 3600000 |};
          Llama.poolsCache := None;
          Llama.protocolsCache := None |};
     Llama.w_clock := t0;
     Llama.w_calls := [] |}.

(** A continuation that does nothing but read the clock: it makes no
    request and leaves the caches alone. *)
Inductive clock_only {A : Type} : Llama.Prog A -> Prop :=
| clock_only_ret (a : A) : clock_only (Llama.Ret a)
| clock_only_now (k : Z -> Llama.Prog A) :
    (forall t, clock_only (k t)) -> clock_only (Llama.Vis Llama.DateNow k).

(** DeFiLlama slow to answer the first request of a run, quick after. *)
Definition llama_slow_start : Llama.Upstream :=
  fun n e =>
    match e return Z * Result (Llama.Document (Llama.Item e)) with
    | Llama.Pools =>
        (match n with O => 900 | _ => 200 end, Ok (Llama.Keyed "data" sample_pools))
    | _ => (200, Thrown "Network Error")
    end.

(** An upstream that answers, when it answers, with prices that are
    positive numbers, with pool payloads whose TVL is absent or positive,
    and with aggregator quotes whose output amount ("0" when it is
    missing) reads as a number that is not negative. *)
Definition upstream_ok (up : Upstream) : Prop :=
  (forall n geckoId p,
      snd (reply up n (ReqPrice geckoId)) = Some (Some p) ->
      JS.truthy p = true -> positive p) /\
  (forall n source pd,
      snd (reply up n (ReqPool source)) = Some (Some pd) -> pool_ok pd) /\
  (forall n params data,
      snd (reply up n (ReqPanoraQuote params)) = Some (Some (Some data)) ->
      parses_not_negative (str_or (pd_toTokenAmount data) "0")).

(** Upstreams that each break one of these conditions: a negative price
    for APT, a negative TVL in every pool payload, a negative output
    amount in the quote of the aggregator. *)
Definition negative_price : Upstream :=
  {| reply := fun _ r =>
       match r return Z * option (Reply r) with
       | ReqPrice geckoId =>
           (200, Some (Some (if String.eqb geckoId "aptos" then JS.Fin (-2) else JS.Fin 1)))
       | ReqPool _ => (0, None)
       | ReqPanoraQuote _ => (0, None)
       | ReqResources _ => (0, None)
       end;
     panora_ctor := fun _ => None |}.

Definition negative_tvl : Upstream :=
  {| reply := fun _ r =>
       match r return Z * option (Reply r) with
       | ReqPool _ => (100, Some (Some {| tvl := Some (JS.Fin (-5)) |}))
       | ReqPrice _ => (0, None)
       | ReqPanoraQuote _ => (0, None)
       | ReqResources _ => (0, None)
       end;
     panora_ctor := fun _ => None |}.

Definition negative_panora_data : PanoraData :=
  {| pd_toTokenAmount := Some "-5";
     pd_priceImpact := Some "0.12";
     pd_estimatedGas := None;
     pd_routes :=
       Some [ {| pr_name := Some "ThalaSwap"; pr_fee := None;
                 pr_toTokenAmount := Some "-5"; pr_priceImpact := Some "0.12";
                 pr_estimatedGas := None |} ];
     pd_transactionPayload := None;
     pd_rawTransaction := None |}.

Definition negative_panora : Upstream :=
  {| reply := fun _ r =>
       match r return Z * option (Reply r) with
       | ReqPanoraQuote _ => (300, Some (Some (Some negative_panora_data)))
       | ReqPrice _ => (0, None)
       | ReqPool _ => (0, None)
       | ReqResources _ => (0, None)
       end;
     panora_ctor := fun rpc => Some {| rpcUrl := rpc |} |}.

(* ===================================================================== *)
(** * Facts about numerals: [toFixed] and [parseFloat]                    *)
(* ===================================================================== *)

Section Numerals.
Import JS.

Lemma append_cons (c : ascii) (s t : string) :
  String c s +:+ t = String c (s +:+ t).
Proof. reflexivity. Qed.

Lemma append_nil_l (t : string) : EmptyString +:+ t = t.
Proof. reflexivity. Qed.

Lemma append_nil_r (s : string) : s +:+ EmptyString = s.
Proof.
  induction s as [|c s IH]; [reflexivity |].
  now rewrite append_cons, IH.
Qed.

Lemma append_assoc (s t u : string) : (s +:+ t) +:+ u = s +:+ (t +:+ u).
Proof.
  induction s as [|c s IH]; [reflexivity |].
  now rewrite !append_cons, IH.
Qed.

Lemma digit_val_char (k : Z) : 0 <= k < 10 -> digit_val (digit_char k) = Some k.
Proof.
  intros Hk.
  assert (k = 0 \/ k = 1 \/ k = 2 \/ k = 3 \/ k = 4 \/ k = 5 \/ k = 6 \/
          k = 7 \/ k = 8 \/ k = 9) as Hc by lia.
  repeat (destruct Hc as [-> | Hc]; [reflexivity |]). now subst.
Qed.

Lemma is_digit_char (k : Z) : is_digit (digit_char k) = true.
Proof.
  unfold digit_char.
  pose proof (Z.mod_pos_bound k 10 ltac:(lia)) as Hk.
  assert (k mod 10 = 0 \/ k mod 10 = 1 \/ k mod 10 = 2 \/ k mod 10 = 3 \/
          k mod 10 = 4 \/ k mod 10 = 5 \/ k mod 10 = 6 \/ k mod 10 = 7 \/
          k mod 10 = 8 \/ k mod 10 = 9) as Hc by lia.
  repeat (destruct Hc as [-> | Hc]; [reflexivity |]). now rewrite Hc.
Qed.

Lemma scan_digits_fixed (len : nat) :
  forall (n : Z) (rest : string) (acc : Z) (cnt : nat),
    0 <= n ->
    scan_digits (fixed_digits len n +:+ rest) acc cnt
    = scan_digits rest (acc * 10 ^ Z.of_nat len + n mod 10 ^ Z.of_nat len)
        (cnt + len)%nat.
Proof.
  induction len as [|k IH]; intros n rest acc cnt Hn.
  - cbn [fixed_digits]. rewrite append_nil_l.
    change (10 ^ Z.of_nat 0) with 1.
    rewrite Z.mod_1_r, Nat.add_0_r. f_equal. f_equal. lia.
  - cbn [fixed_digits]. rewrite append_assoc, append_cons, append_nil_l.
    rewrite IH by (apply Z.div_pos; lia).
    cbn [scan_digits].
    rewrite digit_val_char by (apply Z.mod_pos_bound; lia).
    f_equal; [| lia].
    rewrite Nat2Z.inj_succ, Z.pow_succ_r by lia.
    rewrite (Z.rem_mul_r n 10 (10 ^ Z.of_nat k)) by lia.
    lia.
Qed.

Lemma ndigits_bound (fuel : nat) :
  forall n : Z, 0 <= n < 2 ^ (Z.of_nat fuel + 1) ->
                n < 10 ^ Z.of_nat (ndigits fuel n).
Proof.
  induction fuel as [|f IH]; intros n Hn.
  - simpl in *. lia.
  - cbn [ndigits]. destruct (n <? 10) eqn:E.
    + apply Z.ltb_lt in E. simpl. lia.
    + apply Z.ltb_ge in E.
      rewrite Nat2Z.inj_succ, Z.pow_succ_r by lia.
      assert (n / 10 < 10 ^ Z.of_nat (ndigits f (n / 10))) as Hd.
      { apply IH. split; [apply Z.div_pos; lia |].
        apply Z.div_lt_upper_bound; [lia |].
        replace (Z.of_nat (S f) + 1) with (Z.succ (Z.of_nat f + 1)) in Hn by lia.
        rewrite Z.pow_succ_r in Hn by lia. lia. }
      pose proof (Z.div_mod n 10 ltac:(lia)) as Hdm.
      pose proof (Z.mod_pos_bound n 10 ltac:(lia)). lia.
Qed.

Lemma num_digits_bound (n : Z) : 0 <= n -> n < 10 ^ Z.of_nat (num_digits n).
Proof.
  intros Hn. unfold num_digits. apply ndigits_bound. split; [exact Hn |].
  destruct (Z.eq_dec n 0) as [-> | Hnz]; [simpl; lia |].
  rewrite Z2Nat.id by apply Z.log2_nonneg.
  replace (Z.log2 n + 1) with (Z.succ (Z.log2 n)) by lia.
  apply Z.log2_spec. lia.
Qed.

Lemma ndigits_pos (fuel : nat) (n : Z) : exists k, ndigits fuel n = S k.
Proof. destruct fuel; simpl; [eauto |]. destruct (n <? 10); eauto. Qed.

Lemma scan_digits_numeral (n : Z) (rest : string) :
  0 <= n ->
  scan_digits (digits n +:+ rest) 0 0 = scan_digits rest n (num_digits n).
Proof.
  intros Hn. unfold digits. rewrite scan_digits_fixed by exact Hn.
  rewrite Z.mod_small by (split; [exact Hn | now apply num_digits_bound]).
  reflexivity.
Qed.

Lemma fixed_digits_head (k : nat) :
  forall n, exists c s, fixed_digits (S k) n = String c s /\ is_digit c = true.
Proof.
  induction k as [|k IH]; intros n.
  - exists (digit_char (n mod 10)), EmptyString. split; [reflexivity | apply is_digit_char].
  - destruct (IH (n / 10)) as (c & s & E & Hc).
    change (fixed_digits (S (S k)) n)
      with (fixed_digits (S k) (n / 10) +:+ String (digit_char (n mod 10)) EmptyString).
    rewrite E, append_cons. eauto.
Qed.

Lemma digits_head (n : Z) :
  exists c s, digits n = String c s /\ is_digit c = true.
Proof.
  unfold digits, num_digits.
  destruct (ndigits_pos (Z.to_nat (Z.log2 n)) n) as [k ->].
  apply fixed_digits_head.
Qed.

Lemma is_digit_head_plain (c : ascii) (s : string) :
  is_digit c = true ->
  skip_ws (String c s) = String c s /\
  take_sign (String c s) = (false, String c s) /\
  String.prefix "Infinity" (String c s) = false.
Proof.
  destruct c as [[] [] [] [] [] [] [] []]; intros H;
    try discriminate H; repeat split.
Qed.

Lemma pow10_pos (d : nat) : 0 < pow10 d.
Proof. unfold pow10. apply Z.pow_pos_nonneg; lia. Qed.

Lemma scan_digits_stop_at_dot (s : string) (acc : Z) (cnt : nat) :
  scan_digits (String "." s) acc cnt = (acc, cnt, String "."%char s).
Proof. reflexivity. Qed.

Lemma scan_digits_end (acc : Z) (cnt : nat) :
  scan_digits EmptyString acc cnt = (acc, cnt, EmptyString).
Proof. reflexivity. Qed.

Lemma parse_unsigned_numeral (n : Z) (d : nat) :
  0 <= n ->
  exists q, parse_unsigned (fixed_numeral n d) = Some q /\
            (q == inject_Z n / inject_Z (pow10 d))%Q.
Proof.
  intros Hn. pose proof (pow10_pos d) as Hp.
  assert (0 <= n / pow10 d) as Hip by (apply Z.div_pos; lia).
  unfold parse_unsigned, fixed_numeral.
  rewrite scan_digits_numeral by exact Hip.
  unfold num_digits.
  destruct (ndigits_pos (Z.to_nat (Z.log2 (n / pow10 d))) (n / pow10 d)) as [k ->].
  destruct d as [|d'].
  - rewrite scan_digits_end. cbn [scan_exponent].
    eexists; split; [reflexivity |].
    change (pow10 0) with 1. rewrite Z.div_1_r.
    change (10 ^ 0)%Q with 1%Q. field.
  - rewrite scan_digits_stop_at_dot.
    rewrite <- (append_nil_r (fixed_digits (S d') (n mod pow10 (S d')))).
    rewrite scan_digits_fixed by (apply Z.mod_pos_bound; exact Hp).
    rewrite scan_digits_end. cbn [scan_exponent Nat.add].
    eexists; split; [reflexivity |].
    fold (pow10 (S d')).
    rewrite Z.mod_mod by lia.
    change (10 ^ 0)%Q with 1%Q.
    set (P := pow10 (S d')) in *.
    replace (0 * P + n mod P) with (n mod P) by lia.
    pose proof (Z.div_mod n P ltac:(lia)) as Hdm.
    set (ip := n / P) in *. set (fp := n mod P) in *.
    rewrite Hdm, inject_Z_plus, inject_Z_mult.
    field. intros E. unfold Qeq in E. simpl in E. lia.
Qed.

Lemma fixed_numeral_head (n : Z) (d : nat) :
  exists c s, fixed_numeral n d = String c s /\ is_digit c = true.
Proof.
  unfold fixed_numeral.
  destruct (digits_head (n / pow10 d)) as (c & s & -> & Hc).
  rewrite append_cons. eauto.
Qed.

Lemma parseFloat_finite (s s1 : string) (negative : bool) (q : Q) :
  take_sign (skip_ws s) = (negative, s1) ->
  String.prefix "Infinity" s1 = false ->
  parse_unsigned s1 = Some q ->
  parseFloat s = Fin (if negative then (- q)%Q else q).
Proof. intros H1 H2 H3. unfold parseFloat. now rewrite H1, H2, H3. Qed.

Lemma parseFloat_numeral (n : Z) (d : nat) :
  0 <= n ->
  exists q, parseFloat (fixed_numeral n d) = Fin q /\
            (q == inject_Z n / inject_Z (pow10 d))%Q.
Proof.
  intros Hn.
  destruct (parse_unsigned_numeral n d Hn) as (q & Hq & Hv).
  destruct (fixed_numeral_head n d) as (c & s & E & Hc).
  destruct (is_digit_head_plain c s Hc) as (H1 & H2 & H3).
  exists q. split; [| exact Hv].
  rewrite E in *.
  apply (parseFloat_finite _ (String c s) false); [now rewrite H1 | exact H3 | exact Hq].
Qed.

Lemma parseFloat_minus_numeral (n : Z) (d : nat) :
  0 <= n ->
  exists q, parseFloat (String "-" (fixed_numeral n d)) = Fin (- q) /\
            (q == inject_Z n / inject_Z (pow10 d))%Q.
Proof.
  intros Hn.
  destruct (parse_unsigned_numeral n d Hn) as (q & Hq & Hv).
  destruct (fixed_numeral_head n d) as (c & s & E & Hc).
  destruct (is_digit_head_plain c s Hc) as (H1 & H2 & H3).
  exists q. split; [| exact Hv].
  rewrite E in *.
  apply (parseFloat_finite _ (String c s) true); [reflexivity | exact H3 | exact Hq].
Qed.

Lemma scaled_round_nonneg (q : Q) (d : nat) : (0 <= q)%Q -> 0 <= scaled_round q d.
Proof.
  intros Hq. unfold scaled_round.
  change 0 with (Qfloor 0). apply Qfloor_resp_le.
  pose proof (pow10_pos d) as Hp.
  assert (0 <= inject_Z (pow10 d))%Q.
  { change 0%Q with (inject_Z 0). rewrite <- Zle_Qle. lia. }
  nra.
Qed.

(** Reading back what [toFixed] printed gives the rounded value. *)
Theorem parseFloat_toFixed (x : number) (d : nat) :
  same (parseFloat (toFixed x d)) (toFixed_value x d).
Proof.
  destruct x as [| | |q]; try exact I.
  unfold toFixed, toFixed_value.
  destruct (sgn q) eqn:Es.
  - destruct (parseFloat_numeral (scaled_round q d) d) as (r & -> & Hr).
    { apply scaled_round_nonneg. unfold sgn in Es. apply Qeq_alt in Es. lra. }
    exact Hr.
  - destruct (parseFloat_minus_numeral (scaled_round (- q) d) d)
      as (r & -> & Hr).
    { apply scaled_round_nonneg. unfold sgn in Es. apply Qlt_alt in Es. lra. }
    simpl. now rewrite Hr.
  - destruct (parseFloat_numeral (scaled_round q d) d) as (r & -> & Hr).
    { apply scaled_round_nonneg. unfold sgn in Es. apply Qgt_alt in Es. lra. }
    exact Hr.
Qed.

End Numerals.

Section Numeral_examples.
Import JS.

Example toFixed_examples :
  toFixed (Fin 67.5) 6 = "67.500000" /\
  toFixed (Fin 2.5) 0 = "3" /\
  toFixed (Fin (-0.0000001)) 6 = "-0.000000" /\
  toFixed NaN 6 = "NaN" /\
  toFixed (Fin 0.0675) 2 = "0.07".
Proof. repeat split. Qed.

Example parseFloat_examples :
  sameb (parseFloat "10") (Fin 10) = true /\
  sameb (parseFloat "  -12.50abc") (Fin (-12.5)) = true /\
  sameb (parseFloat "1e3") (Fin 1000) = true /\
  sameb (parseFloat ".5") (Fin 0.5) = true /\
  sameb (parseFloat "5.") (Fin 5) = true /\
  sameb (parseFloat "2.5e-1x") (Fin 0.25) = true /\
  sameb (parseFloat "1e") (Fin 1) = true /\
  parseFloat "abc" = NaN /\
  parseFloat "." = NaN /\
  parseFloat "" = NaN /\
  parseFloat "-Infinity" = NInf.
Proof. vm_compute. repeat split. Qed.

End Numeral_examples.

(* ===================================================================== *)
(** * Facts about number arithmetic                                       *)
(* ===================================================================== *)

Section Arithmetic.
Import JS.

Lemma sgn_Eq (q : Q) : sgn q = Eq <-> (q == 0)%Q.
Proof. unfold sgn. symmetry. apply Qeq_alt. Qed.

Lemma sgn_Lt (q : Q) : sgn q = Lt <-> (q < 0)%Q.
Proof. unfold sgn. symmetry. apply Qlt_alt. Qed.

Lemma sgn_Gt (q : Q) : sgn q = Gt <-> (0 < q)%Q.
Proof. unfold sgn. symmetry. apply Qgt_alt. Qed.

Lemma sgn_pos (q : Q) : (0 < q)%Q -> sgn q = Gt.
Proof. apply sgn_Gt. Qed.

Lemma sgn_nonneg (q : Q) : (0 <= q)%Q -> sgn q <> Lt.
Proof. intros H E. apply -> sgn_Lt in E. lra. Qed.

Lemma truthy_positive (x : number) : positive x -> truthy x = true.
Proof.
  destruct x as [| | |q]; simpl; try contradiction.
  intros H. now rewrite (sgn_pos q H).
Qed.

Lemma toFixed_nonneg (q : Q) (d : nat) :
  (0 <= q)%Q -> toFixed (Fin q) d = fixed_numeral (scaled_round q d) d.
Proof.
  intros H. unfold toFixed. pose proof (sgn_nonneg q H).
  destruct (sgn q); [reflexivity | contradiction | reflexivity].
Qed.

Lemma Qfloor_unique (y : Q) (m : Z) :
  (inject_Z m <= y)%Q -> (y < inject_Z (m + 1))%Q -> Qfloor y = m.
Proof.
  intros Hlo Hhi.
  assert (m <= Qfloor y).
  { rewrite <- (Qfloor_Z m). now apply Qfloor_resp_le. }
  assert (Qfloor y < m + 1).
  { rewrite Zlt_Qlt. eapply Qle_lt_trans; [apply Qfloor_le | exact Hhi]. }
  lia.
Qed.

Lemma same_Fin_r (x : number) (v : Q) :
  same x (Fin v) -> exists r, x = Fin r /\ (r == v)%Q.
Proof. destruct x as [| | |r]; simpl; try contradiction. eauto. Qed.

Lemma inject_Z_pow10_pos (d : nat) : (0 < inject_Z (pow10 d))%Q.
Proof.
  change 0%Q with (inject_Z 0). rewrite <- Zlt_Qlt. apply pow10_pos.
Qed.

Lemma toFixed_value_nonneg (q : Q) (d : nat) :
  (0 <= q)%Q ->
  toFixed_value (Fin q) d = Fin (inject_Z (scaled_round q d) / inject_Z (pow10 d))
  /\ (0 <= inject_Z (scaled_round q d) / inject_Z (pow10 d))%Q.
Proof.
  intros Hq. split.
  - unfold toFixed_value. pose proof (sgn_nonneg q Hq).
    destruct (sgn q); [reflexivity | contradiction | reflexivity].
  - apply Qle_shift_div_l; [apply inject_Z_pow10_pos |].
    rewrite Qmult_0_l. change 0%Q with (inject_Z 0). rewrite <- Zle_Qle.
    now apply scaled_round_nonneg.
Qed.

(** Printing a non-negative value and reading it back gives a
    non-negative number. *)
Lemma toFixed_parses_nonneg (x : number) (d : nat) :
  nonneg x -> parses_nonneg (toFixed x d).
Proof.
  destruct x as [| | |q]; intros Hq; try (exfalso; exact Hq).
  change (0 <= q)%Q in Hq. unfold parses_nonneg.
  pose proof (parseFloat_toFixed (Fin q) d) as Hs.
  destruct (toFixed_value_nonneg q d Hq) as [Ev Hv].
  rewrite Ev in Hs. apply same_Fin_r in Hs as (r & -> & Hr).
  simpl. now rewrite Hr.
Qed.

End Arithmetic.

(* ===================================================================== *)
(** * C10: the two amount formatters                                      *)
(* ===================================================================== *)

Section FormatTokenAmount.
Import JS.

Lemma digits_of_floor (x : Q) :
  (0 <= x)%Q -> toString_int (Math_floor (Fin x)) = digits (Qfloor x).
Proof.
  intros Hx. unfold Math_floor, toString_int.
  assert (0 <= inject_Z (Qfloor x))%Q as Hf.
  { change 0%Q with (inject_Z 0). rewrite <- Zle_Qle.
    change 0 with (Qfloor 0). now apply Qfloor_resp_le. }
  pose proof (sgn_nonneg _ Hf) as Hn.
  destruct (sgn (inject_Z (Qfloor x))); try contradiction;
    now rewrite Qfloor_Z.
Qed.

Lemma round_at_zero_digits (x : Q) :
  scaled_round x 0 =
  match (x - inject_Z (Qfloor x) ?= 1 # 2)%Q with
  | Lt => Qfloor x
  | _ => Qfloor x + 1
  end.
Proof.
  unfold scaled_round. change (inject_Z (pow10 0)) with 1%Q.
  pose proof (Qfloor_le x) as Hlo. pose proof (Qlt_floor x) as Hhi.
  rewrite inject_Z_plus in Hhi. change (inject_Z 1) with 1%Q in Hhi.
  destruct (x - inject_Z (Qfloor x) ?= 1 # 2)%Q eqn:E.
  - apply Qeq_alt in E. apply Qfloor_unique; rewrite !inject_Z_plus;
      change (inject_Z 1) with 1%Q; lra.
  - apply Qlt_alt in E. apply Qfloor_unique; rewrite ?inject_Z_plus;
      change (inject_Z 1) with 1%Q; lra.
  - apply Qgt_alt in E. apply Qfloor_unique; rewrite !inject_Z_plus;
      change (inject_Z 1) with 1%Q; lra.
Qed.




End FormatTokenAmount.
(* ===================================================================== *)
(** * Running programs                                                    *)
(* ===================================================================== *)

Section Running.
Context (up : Upstream).

Lemma run_pbind {A B : Type} (p : Prog A) (f : A -> Prog B) (w : World) :
  run up (pbind p f) w = let (a, w') := run up p w in run up (f a) w'.
Proof.
  revert w. induction p as [a | X e k IH]; intros w; [reflexivity |].
  cbn [pbind run]. destruct (step up e w) as [x w1]. apply IH.
Qed.

Lemma run_bind {A B : Type} (m : M A) (f : A -> M B) (w : World) :
  run up (bind m f) w =
  match run up m w with
  | (Ok a, w') => run up (f a) w'
  | (Thrown e, w') => (Thrown e, w')
  end.
Proof.
  unfold bind. rewrite run_pbind.
  destruct (run up m w) as [[a | e] w']; reflexivity.
Qed.

Lemma run_try_catch {A : Type} (m : M A) (h : Error -> M A) (w : World) :
  run up (try_catch m h) w =
  match run up m w with
  | (Ok a, w') => (Ok a, w')
  | (Thrown e, w') => run up (h e) w'
  end.
Proof.
  unfold try_catch. rewrite run_pbind.
  destruct (run up m w) as [[a | e] w']; reflexivity.
Qed.

Lemma run_ret {A : Type} (a : A) (w : World) : run up (ret a) w = (Ok a, w).
Proof. reflexivity. Qed.

Lemma run_throw {A : Type} (e : Error) (w : World) :
  run up (throw e : M A) w = (Thrown e, w).
Proof. reflexivity. Qed.

Lemma run_gets {A : Type} (f : State -> A) (w : World) :
  run up (gets f) w = (Ok (f (w_state w)), w).
Proof. reflexivity. Qed.

Lemma run_modify (f : State -> State) (w : World) :
  run up (modify f) w = (Ok tt, with_state f w).
Proof. reflexivity. Qed.

Lemma run_dateNow (w : World) : run up dateNow w = (Ok (w_clock w), w).
Proof. reflexivity. Qed.

Lemma run_setTimeout (ms : Z) (w : World) :
  run up (setTimeout ms) w = (Ok tt, tick ms w).
Proof. reflexivity. Qed.

Lemma run_await (r : Request) (w : World) :
  run up (await r) w =
  (match snd (reply up (length (w_calls w)) r) with
   | Some v => Ok v
   | None => Thrown "request failed"
   end,
   tick (fst (reply up (length (w_calls w)) r)) (log_call r w)).
Proof.
  unfold await, perform, bind. cbn [pbind run step].
  destruct (reply up (length (w_calls w)) r) as [lat [v |]]; reflexivity.
Qed.

End Running.
(* ===================================================================== *)
(** * C2 and C4: the synthetic quoter                                     *)
(* ===================================================================== *)

Section Quoter_facts.
Import JS.

Lemma poolTVL_divisor (pd : PoolData) :
  or_else (DexService.poolTVL pd) (Fin 1000000) =
  match tvl pd with
  | Some t => if truthy t then t else Fin 1000000
  | None => Fin 1000000
  end.
Proof.
  unfold or_else, DexService.poolTVL.
  destruct (tvl pd) as [t |]; [| reflexivity].
  destruct (truthy t) eqn:E; [now rewrite E | reflexivity].
Qed.

Lemma ltb_Fin_false (a b : Q) : (b <= a)%Q -> ltb (Fin a) (Fin b) = false.
Proof.
  intros H. unfold ltb. destruct (a ?= b)%Q eqn:E; try reflexivity.
  apply Qlt_alt in E. lra.
Qed.

Lemma ltb_Fin_true (a b : Q) : (a < b)%Q -> ltb (Fin a) (Fin b) = true.
Proof.
  intros H. unfold ltb. destruct (a ?= b)%Q eqn:E; try reflexivity.
  - apply Qeq_alt in E. lra.
  - apply Qgt_alt in E. lra.
Qed.

Lemma div_Fin_pos (a b : Q) : (0 < b)%Q -> div (Fin a) (Fin b) = Fin (a / b).
Proof. intros H. unfold div. now rewrite (sgn_pos b H). Qed.

Lemma div_Fin_nonzero (a b : Q) : ~ (b == 0)%Q -> div (Fin a) (Fin b) = Fin (a / b).
Proof.
  intros H. unfold div. destruct (sgn b) eqn:E; try reflexivity.
  apply -> sgn_Eq in E. contradiction.
Qed.

Lemma Qdiv_pos (a b : Q) : (0 < a)%Q -> (0 < b)%Q -> (0 < a / b)%Q.
Proof.
  intros Ha Hb. apply Qlt_shift_div_l; [exact Hb | lra].
Qed.

(** C2, amended: the divisor of the slippage factor is the pool TVL when
    the payload has a truthy one, and 1,000,000 only when it has none (or
    a zero one); the formula with [max(tvl, 1_000_000)] is met from a TVL
    of 1,000,000 upwards. *)
Theorem slippageFactor_divisor (amount tokenInPrice : number) (pd : PoolData) :
  (forall t, tvl pd = Some t -> truthy t = true ->
     DexService.slippageFactor amount tokenInPrice pd
     = Math_min (Fin 0.1) (div (mul amount tokenInPrice) t)) /\
  ((tvl pd = None \/ exists t, tvl pd = Some t /\ truthy t = false) ->
     DexService.slippageFactor amount tokenInPrice pd
     = Math_min (Fin 0.1) (div (mul amount tokenInPrice) (Fin 1000000))) /\
  (forall t, tvl pd = Some (Fin t) -> (1000000 <= t)%Q ->
     DexService.slippageFactor amount tokenInPrice pd
     = spec_slippageFactor amount tokenInPrice (Fin t)).
Proof.
  unfold DexService.slippageFactor. rewrite poolTVL_divisor.
  repeat split.
  - intros t -> Ht. now rewrite Ht.
  - intros [-> | (t & -> & Ht)]; [reflexivity | now rewrite Ht].
  - intros t -> Ht. unfold spec_slippageFactor.
    assert (truthy (Fin t) = true) as -> by (apply truthy_positive; simpl; lra).
    unfold Math_max. now rewrite ltb_Fin_false.
Qed.

Lemma slippageFactor_divisor_witness :
  DexService.slippageFactor (Fin 100) (Fin 1) {| tvl := Some (Fin 500000) |}
  = Math_min (Fin 0.1) (div (mul (Fin 100) (Fin 1)) (Fin 500000)) /\
  DexService.slippageFactor (Fin 100) (Fin 1) {| tvl := None |}
  = Math_min (Fin 0.1) (div (mul (Fin 100) (Fin 1)) (Fin 1000000)) /\
  DexService.slippageFactor (Fin 100) (Fin 1) {| tvl := Some (Fin 2000000) |}
  = spec_slippageFactor (Fin 100) (Fin 1) (Fin 2000000).
Proof.
  split; [| split].
  - apply (proj1 (slippageFactor_divisor (Fin 100) (Fin 1)
                    {| tvl := Some (Fin 500000) |})); reflexivity.
  - apply (proj1 (proj2 (slippageFactor_divisor (Fin 100) (Fin 1)
                           {| tvl := None |}))).
    left. reflexivity.
  - apply (proj2 (proj2 (slippageFactor_divisor (Fin 100) (Fin 1)
                           {| tvl := Some (Fin 2000000) |}))).
    + reflexivity.
    + vm_compute. discriminate.
Defined.

(** C2 as stated fails: with a pool TVL of 500,000, a 100 USD trade has
    slippage factor 100/500,000 = 0.0002 (price impact "0.02"), where
    [max(tvl, 1_000_000)] would give 100/1,000,000 = 0.0001. *)
Lemma slippageFactor_not_spec :
  DexService.slippageFactor (Fin 100) (Fin 1) {| tvl := Some (Fin 500000) |}
  = Fin (100 * 1 / 500000) /\
  spec_slippageFactor (Fin 100) (Fin 1) (Fin 500000) = Fin (100 * 1 / 1000000) /\
  ~ same (DexService.slippageFactor (Fin 100) (Fin 1) {| tvl := Some (Fin 500000) |})
         (spec_slippageFactor (Fin 100) (Fin 1) (Fin 500000)) /\
  priceImpact (DexService.makeQuote log10_floor PANCAKE (Fin 100) (Fin 1) (Fin 1)
                 {| tvl := Some (Fin 500000) |}) = "0.02".
Proof.
  repeat split; try reflexivity.
  vm_compute. discriminate.
Qed.

Lemma Math_min_cap (x : number) :
  match Math_min (Fin 0.1) x with
  | PInf => False
  | Fin s => (s <= 0.1)%Q
  | _ => True
  end.
Proof.
  destruct x as [| | |q]; simpl; try exact I; try lra.
  destruct (q ?= 0.1)%Q eqn:E; try lra.
  apply Qlt_alt in E. lra.
Qed.

Lemma scaled_round_le (q : Q) (d : nat) (b : Z) :
  (q <= inject_Z b)%Q -> scaled_round q d <= b * pow10 d.
Proof.
  intros H. unfold scaled_round.
  pose proof (inject_Z_pow10_pos d) as Hp.
  set (P := inject_Z (pow10 d)) in *.
  enough (Qfloor (q * P + (1 # 2)) < b * pow10 d + 1) by lia.
  rewrite Zlt_Qlt. eapply Qle_lt_trans; [apply Qfloor_le |].
  rewrite inject_Z_plus, inject_Z_mult. fold P.
  change (inject_Z 1) with 1%Q. nra.
Qed.

(** The printed price impact never reads above 10. *)
Lemma priceImpact_capped (x : number) :
  ltb (Fin 10) (parseFloat (toFixed (mul (Math_min (Fin 0.1) x) (Fin 100)) 2)) = false.
Proof.
  pose proof (Math_min_cap x) as Hc.
  destruct (Math_min (Fin 0.1) x) as [| | |s]; try reflexivity; try contradiction.
  cbn [mul].
  pose proof (parseFloat_toFixed (Fin (s * 100)) 2) as Hs.
  unfold toFixed_value in Hs.
  destruct (sgn (s * 100)) eqn:Es.
  1,3: apply same_Fin_r in Hs as (r & -> & Hr);
       apply ltb_Fin_false; rewrite Hr;
       apply Qle_shift_div_r; [apply inject_Z_pow10_pos |];
       change (10 * inject_Z (pow10 2))%Q with (inject_Z (10 * pow10 2));
       rewrite <- Zle_Qle; apply scaled_round_le;
       change (inject_Z 10) with 10%Q; lra.
  apply same_Fin_r in Hs as (r & -> & Hr).
  apply ltb_Fin_false. rewrite Hr.
  apply -> sgn_Lt in Es.
  assert (0 <= inject_Z (scaled_round (- (s * 100)) 2) / inject_Z (pow10 2))%Q.
  { apply toFixed_value_nonneg. lra. }
  lra.
Qed.

Lemma parses_nonneg_not_negative (s : string) :
  parses_nonneg s -> parses_not_negative s.
Proof.
  unfold parses_nonneg, parses_not_negative, nonneg, leb.
  destruct (parseFloat s) as [| | | q]; try contradiction.
  intros H. destruct (0 ?= q)%Q eqn:E; try reflexivity.
  apply Qgt_alt in E. lra.
Qed.

Section With_log10.
Variable Math_log10 : number -> number.
Hypothesis log10_sane : log10_ok Math_log10.

Lemma liquidityFactor_range (pd : PoolData) :
  pool_ok pd ->
  exists l, DexService.liquidityFactor Math_log10 pd = Fin l /\ (0.9 <= l <= 1)%Q.
Proof.
  intros Hpd. unfold DexService.liquidityFactor, pool_ok in *.
  destruct (tvl pd) as [t |]; [| exists 1%Q; split; [reflexivity | lra]].
  rewrite (truthy_positive t Hpd).
  destruct t as [| | |tq]; try contradiction. simpl in Hpd.
  destruct log10_sane as [Hfin (r6 & E6 & Hr6)].
  destruct (Hfin tq Hpd) as [r Er]. rewrite Er, E6.
  rewrite div_Fin_nonzero by exact Hr6.
  unfold Math_max.
  destruct (ltb (Fin 0.9) (Fin (r / r6))) eqn:E1.
  - unfold ltb in E1. destruct (0.9 ?= r / r6)%Q eqn:C1; try discriminate.
    apply Qlt_alt in C1.
    unfold Math_min.
    destruct (ltb (Fin (r / r6)) (Fin 1)) eqn:E2.
    + unfold ltb in E2. destruct (r / r6 ?= 1)%Q eqn:C2; try discriminate.
      apply Qlt_alt in C2. eexists; split; [reflexivity | lra].
    + exists 1%Q. split; [reflexivity | lra].
  - exists 0.9%Q. split; [reflexivity | lra].
Qed.

Lemma slippageFactor_range (a p : Q) (pd : PoolData) :
  (0 < a)%Q -> (0 < p)%Q -> pool_ok pd ->
  exists s, DexService.slippageFactor (Fin a) (Fin p) pd = Fin s /\ (0 < s <= 0.1)%Q.
Proof.
  intros Ha Hp Hpd. unfold DexService.slippageFactor.
  rewrite poolTVL_divisor.
  assert (exists dq, match tvl pd with
                     | Some t => if truthy t then t else Fin 1000000
                     | None => Fin 1000000
                     end = Fin dq /\ (0 < dq)%Q) as (dq & -> & Hdq).
  { unfold pool_ok in Hpd. destruct (tvl pd) as [t |].
    - rewrite (truthy_positive t Hpd).
      destruct t as [| | |tq]; try contradiction. eauto.
    - exists 1000000%Q. split; [reflexivity | lra]. }
  cbn [mul]. rewrite div_Fin_pos by exact Hdq.
  assert (0 < a * p / dq)%Q as Hy by (apply Qdiv_pos; nra).
  unfold Math_min.
  destruct (ltb (Fin (a * p / dq)) (Fin 0.1)) eqn:E.
  - unfold ltb in E. destruct (a * p / dq ?= 0.1)%Q eqn:C; try discriminate.
    apply Qlt_alt in C. eexists; split; [reflexivity | lra].
  - exists 0.1%Q. split; [reflexivity | lra].
Qed.

Lemma fee_below_one (k : DexKey) : (0 < 1 + - fee (APTOS_DEXES k))%Q.
Proof. destruct k; vm_compute; reflexivity. Qed.

Lemma makeQuote_nonneg (k : DexKey) (amount pin pout : number) (pd : PoolData) :
  positive amount -> positive pin -> positive pout -> pool_ok pd ->
  parses_nonneg (outputAmount (DexService.makeQuote Math_log10 k amount pin pout pd)) /\
  parses_nonneg (priceImpact (DexService.makeQuote Math_log10 k amount pin pout pd)).
Proof.
  intros Ha Hi Ho Hpd.
  destruct amount as [| | |a]; try contradiction.
  destruct pin as [| | |p]; try contradiction.
  destruct pout as [| | |o]; try contradiction.
  simpl in Ha, Hi, Ho.
  destruct (slippageFactor_range a p pd Ha Hi Hpd) as (s & Es & Hs).
  destruct (liquidityFactor_range pd Hpd) as (l & El & Hl).
  unfold DexService.makeQuote, DexService.quoteOutput. cbn [outputAmount priceImpact].
  rewrite Es, El. cbn [mul sub neg add].
  rewrite !div_Fin_pos by assumption. cbn [mul].
  split; apply toFixed_parses_nonneg; simpl.
  - pose proof (fee_below_one k) as Hf.
    assert (0 < a * p / o)%Q by (apply Qdiv_pos; nra).
    assert (0 < a * (1 + - fee (APTOS_DEXES k)) / a)%Q by (apply Qdiv_pos; nra).
    set (u := (a * p / o)%Q) in *.
    set (v := (a * (1 + - fee (APTOS_DEXES k)) / a)%Q) in *.
    assert (0 <= u * l)%Q by nra.
    assert (0 <= u * l * (1 + - s))%Q by nra.
    nra.
  - lra.
Qed.

Lemma getDexQuote_inv (up : Upstream) (w w' : World) (k : DexKey)
    (tokenIn tokenOut : TokenType) (amount : number) (q : DexQuote) :
  run up (DexService.getDexQuote Math_log10 k tokenIn tokenOut amount) w = (Ok (Some q), w') ->
  exists pin pout pd,
    run up (DexService.quote_prices tokenIn tokenOut) w = (Ok (pin, pout), w') /\
    poolCache (dexService (w_state w')) !! name (APTOS_DEXES k) = Some pd /\
    truthy pin = true /\ truthy pout = true /\
    q = DexService.makeQuote Math_log10 k amount pin pout pd.
Proof.
  unfold DexService.getDexQuote.
  rewrite run_try_catch, run_bind.
  destruct (run up (DexService.quote_prices tokenIn tokenOut) w) as [[[pin pout] | e] w1];
    [| rewrite run_ret; discriminate].
  cbn [fst snd].
  destruct (truthy pin) eqn:Ti; [| cbn [negb orb]; rewrite run_ret; discriminate].
  destruct (truthy pout) eqn:To; [| cbn [negb orb]; rewrite run_ret; discriminate].
  cbn [negb orb]. rewrite run_bind, run_gets.
  destruct (poolCache (dexService (w_state w1)) !! name (APTOS_DEXES k)) as [pd |] eqn:Ep;
    rewrite run_ret; intros H; inversion H; subst.
  exists pin, pout, pd. auto.
Qed.

End With_log10.


End Quoter_facts.

Section Quoter_evaluations.
Import JS.

Lemma log10_floor_ok : log10_ok log10_floor.
Proof.
  split.
  - intros t Ht. unfold log10_floor. rewrite (sgn_pos t Ht). eauto.
  - exists 6%Q. split; [reflexivity | vm_compute; discriminate].
Qed.



End Quoter_evaluations.

(* ===================================================================== *)
(** * C3: switching the network                                           *)
(* ===================================================================== *)

Section Network_switch.
Import JS.

(** C3, amended: the switch sets the mode flag of the three services, the
    node URL and clients, and empties the testnet-rate cache and the
    market-data cache of DeFiService; the price cache, the rate-limiter
    timestamp, the pool cache and its timestamp are left as they were, and
    no upstream request is made. *)
Theorem setTestnetMode_effect (up : Upstream) (w : World) (isTestnet : bool) :
  let r := run up (DeFiService.setTestnetMode isTestnet) w in
  let s := w_state w in
  let s' := w_state (snd r) in
  fst r = Ok tt /\
  testnetRatesCache (defiService s') = ∅ /\
  marketDataCache (defiService s') = None /\
  marketDataTimestamp (defiService s') = 0 /\
  defi_isTestnet (defiService s') = isTestnet /\
  defi_networkUrl (defiService s') = SwapService.network_url isTestnet /\
  client (defiService s') = SwapService.network_url isTestnet /\
  swap_isTestnet (swapService s') = isTestnet /\
  swap_networkUrl (swapService s') = SwapService.network_url isTestnet /\
  panoraClient (swapService s') =
    match panora_ctor up (SwapService.network_url isTestnet) with
    | Some c => Some c
    | None => panoraClient (swapService s)
    end /\
  dex_isTestnet (dexService s') = isTestnet /\
  poolCache (dexService s') = poolCache (dexService s) /\
  poolCacheTimestamp (dexService s') = poolCacheTimestamp (dexService s) /\
  priceService s' = priceService s /\
  w_calls (snd r) = w_calls w /\
  w_clock (snd r) = w_clock w.
Proof.
  unfold DeFiService.setTestnetMode, SwapService.setTestnetMode,
    DexService.setTestnetMode.
  cbn. destruct (panora_ctor up (SwapService.network_url isTestnet)); cbn;
    repeat split; reflexivity.
Qed.

(** C3 as stated fails: after a switch the price and pool caches still hold
    their entries, and the next price lookup is answered from the cache
    without any upstream request. *)
Lemma setTestnetMode_keeps_price_and_pool_caches :
  let w' := snd (run offline (DeFiService.setTestnetMode true) warm_world) in
  priceCache (priceService (w_state w')) !! "apt"
    = Some {| price := Fin 6.75; timestamp := t0 - 1000 |} /\
  poolCache (dexService (w_state w')) !! "PancakeSwap"
    = Some {| tvl := Some (Fin 2000000) |} /\
  testnetRatesCache (defiService (w_state w')) !! "APT-USDC" = None /\
  run offline (PriceService.getTokenPriceWithCache APT) w' = (Ok (Fin 6.75), w') /\
  w_calls w' = [].
Proof. vm_compute. repeat split. Qed.

End Network_switch.

(* ===================================================================== *)
(** * C7: the price cache                                                 *)
(* ===================================================================== *)

Section Price_cache.
Import JS.
Context (up : Upstream).

Lemma run_withRateLimit {A : Type} (fn : M A) (w : World) :
  run up (PriceService.withRateLimit fn) w = run up fn (after_rate_limit w).
Proof.
  unfold PriceService.withRateLimit, after_rate_limit.
  rewrite run_bind, run_dateNow, run_bind, run_gets, run_bind.
  destruct (w_clock w - lastApiCall (priceService (w_state w))
            <? PriceService.API_RATE_LIMIT);
    [rewrite run_setTimeout | rewrite run_ret];
    now rewrite run_bind, run_dateNow, run_bind, run_modify.
Qed.

Lemma COINGECKO_IDS_total (token : TokenType) :
  exists geckoId, COINGECKO_IDS token = Some geckoId.
Proof. destruct token; simpl; eauto. Qed.

(** The world after the one request of [fetchTokenPrice]. *)
Lemma run_fetchTokenPrice (token : TokenType) (geckoId : string) (w : World) :
  COINGECKO_IDS token = Some geckoId ->
  let w1 := after_rate_limit w in
  let answer := reply up (length (w_calls w1)) (ReqPrice geckoId) in
  run up (PriceService.fetchTokenPrice token) w =
  (match snd answer with
   | Some (Some p) => if truthy p then Ok p else Thrown "No price data"
   | Some None => Thrown "No price data"
   | None => Thrown "request failed"
   end,
   tick (fst answer) (log_call (ReqPrice geckoId) w1)).
Proof.
  intros Hid. unfold PriceService.fetchTokenPrice.
  rewrite run_withRateLimit, Hid, run_bind, run_await.
  cbn zeta.
  destruct (snd (reply up (length (w_calls (after_rate_limit w))) (ReqPrice geckoId)))
    as [[p |] |]; try reflexivity.
  destruct (truthy p); reflexivity.
Qed.

Lemma after_rate_limit_calls (w : World) :
  w_calls (after_rate_limit w) = w_calls w.
Proof.
  unfold after_rate_limit.
  destruct (_ <? _); reflexivity.
Qed.

Lemma after_rate_limit_caches (w : World) :
  priceCache (priceService (w_state (after_rate_limit w)))
  = priceCache (priceService (w_state w)) /\
  dexService (w_state (after_rate_limit w)) = dexService (w_state w) /\
  swapService (w_state (after_rate_limit w)) = swapService (w_state w) /\
  defiService (w_state (after_rate_limit w)) = defiService (w_state w).
Proof.
  unfold after_rate_limit.
  destruct (_ <? _); repeat split; reflexivity.
Qed.

(** A lookup that finds a fresh entry. *)
Lemma lookup_fresh (token : TokenType) (w : World) (e : TokenPriceResponse) :
  priceCache (priceService (w_state w)) !! toLowerCase (symbol token) = Some e ->
  w_clock w - timestamp e < PriceService.CACHE_DURATION ->
  run up (PriceService.getTokenPriceWithCache token) w = (Ok (price e), w).
Proof.
  intros He Hfresh. unfold PriceService.getTokenPriceWithCache.
  rewrite run_bind, run_gets, He, run_bind, run_dateNow.
  apply Z.ltb_lt in Hfresh. rewrite Hfresh. apply run_ret.
Qed.

(** A lookup that finds no entry, or a stale one, goes to [fetchTokenPrice]. *)
Lemma lookup_miss (token : TokenType) (w : World) :
  (priceCache (priceService (w_state w)) !! toLowerCase (symbol token) = None \/
   exists e, priceCache (priceService (w_state w)) !! toLowerCase (symbol token) = Some e /\
             PriceService.CACHE_DURATION <= w_clock w - timestamp e) ->
  run up (PriceService.getTokenPriceWithCache token) w =
  match run up (PriceService.fetchTokenPrice token) w with
  | (Ok p, w1) =>
      (Ok p,
       with_state (set_priceService
                     (PriceService.set_priceCache (toLowerCase (symbol token))
                        {| price := p; timestamp := w_clock w |})) w1)
  | (Thrown _, w1) =>
      (match priceCache (priceService (w_state w)) !! toLowerCase (symbol token) with
       | Some c => Ok (price c)
       | None =>
           match PriceService.fallback_price token with
           | Some p => Ok p
           | None => Thrown "No price data available"
           end
       end, w1)
  end.
Proof.
  intros Hmiss. unfold PriceService.getTokenPriceWithCache.
  rewrite run_bind, run_gets, run_bind, run_dateNow.
  assert (match priceCache (priceService (w_state w)) !! toLowerCase (symbol token) with
          | Some c => w_clock w - timestamp c <? PriceService.CACHE_DURATION
          | None => false
          end = false) as Hstale.
  { destruct Hmiss as [-> | (e & -> & Hs)]; [reflexivity | now apply Z.ltb_ge]. }
  rewrite Hstale.
  assert (forall (o : option TokenPriceResponse) (X Y : M number),
             match o, false with Some c, true => X | _, _ => Y end = Y) as Hm
      by (intros [?|] ? ?; reflexivity).
  destruct (priceCache (priceService (w_state w)) !! toLowerCase (symbol token)) as [c |];
    rewrite run_try_catch, run_bind;
    destruct (run up (PriceService.fetchTokenPrice token) w) as [[p | err] w1];
    try reflexivity.
  destruct (PriceService.fallback_price token); reflexivity.
Qed.

(** A lookup that finds no entry, or one of five minutes or more, issues
    exactly one upstream request. *)
Lemma lookup_stale_one_call (token : TokenType) (w : World) :
  priceCache (priceService (w_state w)) !! toLowerCase (symbol token) = None \/
  (exists e, priceCache (priceService (w_state w)) !! toLowerCase (symbol token) = Some e /\
             PriceService.CACHE_DURATION <= w_clock w - timestamp e) ->
  exists geckoId t,
    COINGECKO_IDS token = Some geckoId /\
    w_calls (snd (run up (PriceService.getTokenPriceWithCache token) w))
    = w_calls w ++ [(t, ReqPrice geckoId)].
Proof.
  intros Hstale. destruct (COINGECKO_IDS_total token) as [geckoId Hid].
  exists geckoId, (w_clock (after_rate_limit w)). split; [exact Hid |].
  rewrite (lookup_miss token w Hstale), (run_fetchTokenPrice token geckoId w Hid).
  cbn zeta.
  destruct (match snd (reply up (length (w_calls (after_rate_limit w))) (ReqPrice geckoId)) with
            | Some (Some p) => if truthy p then Ok p else Thrown "No price data"
            | Some None => Thrown "No price data"
            | None => Thrown "request failed"
            end); cbn [snd w_calls with_state tick log_call];
    now rewrite after_rate_limit_calls.
Qed.

(** C7, amended: a lookup that finds an entry younger than five minutes
    returns it with no upstream request and no wait; a lookup that finds no
    entry, or one of five minutes or more, issues exactly one upstream
    request.  When that request succeeds, the price is cached with the time
    at which the fetching lookup started: every later lookup of the symbol
    that starts less than five minutes after that time is answered from
    the cache with no request and no wait, and one that starts five
    minutes or more after it issues exactly one new request. *)
Theorem price_cache_freshness (token : TokenType) (w : World) :
  let key := toLowerCase (symbol token) in
  let cache := priceCache (priceService (w_state w)) in
  let stale := cache !! key = None \/
               exists e, cache !! key = Some e /\
                         PriceService.CACHE_DURATION <= w_clock w - timestamp e in
  (forall e,
      cache !! key = Some e ->
      w_clock w - timestamp e < PriceService.CACHE_DURATION ->
      run up (PriceService.getTokenPriceWithCache token) w = (Ok (price e), w)) /\
  (stale ->
   exists geckoId t,
     COINGECKO_IDS token = Some geckoId /\
     w_calls (snd (run up (PriceService.getTokenPriceWithCache token) w))
     = w_calls w ++ [(t, ReqPrice geckoId)]) /\
  (stale ->
   forall geckoId p,
     COINGECKO_IDS token = Some geckoId ->
     snd (reply up (length (w_calls w)) (ReqPrice geckoId)) = Some (Some p) ->
     truthy p = true ->
     exists w1,
       run up (PriceService.getTokenPriceWithCache token) w = (Ok p, w1) /\
       length (w_calls w1) = S (length (w_calls w)) /\
       priceCache (priceService (w_state w1)) !! key
       = Some {| price := p; timestamp := w_clock w |} /\
       forall w2,
         priceCache (priceService (w_state w2)) !! key
         = priceCache (priceService (w_state w1)) !! key ->
         (w_clock w2 - w_clock w < PriceService.CACHE_DURATION ->
          run up (PriceService.getTokenPriceWithCache token) w2 = (Ok p, w2)) /\
         (PriceService.CACHE_DURATION <= w_clock w2 - w_clock w ->
          exists t,
            w_calls (snd (run up (PriceService.getTokenPriceWithCache token) w2))
            = w_calls w2 ++ [(t, ReqPrice geckoId)])).
Proof.
  cbn zeta. split; [| split].
  - intros e. apply lookup_fresh.
  - apply lookup_stale_one_call.
  - intros Hstale geckoId p Hid Hreply Hp.
    rewrite (lookup_miss token w Hstale), (run_fetchTokenPrice token geckoId w Hid).
    cbn zeta. rewrite after_rate_limit_calls, Hreply, Hp.
    eexists. split; [reflexivity |]. split; [| split].
    + cbn [snd w_calls with_state tick log_call].
      rewrite after_rate_limit_calls, length_app. cbn. lia.
    + cbn. apply lookup_insert_eq.
    + intros w2 Hsame.
      assert (priceCache (priceService (w_state w2)) !! toLowerCase (symbol token)
              = Some {| price := p; timestamp := w_clock w |}) as Hentry.
      { rewrite Hsame. cbn. apply lookup_insert_eq. }
      split.
      * intros Ht2.
        apply lookup_fresh with (e := {| price := p; timestamp := w_clock w |});
          [exact Hentry | exact Ht2].
      * intros Ht2.
        destruct (lookup_stale_one_call token w2) as (geckoId' & t & Hid' & Hcalls).
        { right. eexists. split; [exact Hentry | exact Ht2]. }
        rewrite Hid in Hid'. inversion Hid'; subst geckoId'.
        now exists t.
Qed.

End Price_cache.

Section Price_cache_evaluation.
Import JS.

Lemma price_cache_freshness_witness :
  (* a fresh entry: answered from the cache *)
  run prices_only (PriceService.getTokenPriceWithCache APT) warm_world
  = (Ok (Fin 6.75), warm_world) /\
  (* an entry of five minutes: one request *)
  (exists geckoId t,
      COINGECKO_IDS APT = Some geckoId /\
      w_calls (snd (run prices_only (PriceService.getTokenPriceWithCache APT)
                      (at_time (t0 + 299000) warm_world)))
      = [] ++ [(t, ReqPrice geckoId)]) /\
  (* a cold cache: one request, then the cache for five minutes from [t0] *)
  (exists w1,
      run prices_only (PriceService.getTokenPriceWithCache APT) (cold_world t0)
      = (Ok (Fin 6.75), w1) /\
      length (w_calls w1) = 1%nat /\
      run prices_only (PriceService.getTokenPriceWithCache APT) (at_time (t0 + 299999) w1)
      = (Ok (Fin 6.75), at_time (t0 + 299999) w1) /\
      exists t,
        w_calls (snd (run prices_only (PriceService.getTokenPriceWithCache APT)
                        (at_time (t0 + 300000) w1)))
        = w_calls w1 ++ [(t, ReqPrice "aptos")]).
Proof.
  split; [| split].
  - apply (proj1 (price_cache_freshness prices_only APT warm_world)
             {| price := Fin 6.75; timestamp := t0 - 1000 |}); reflexivity.
  - apply (proj1 (proj2 (price_cache_freshness prices_only APT
                           (at_time (t0 + 299000) warm_world)))).
    right. exists {| price := Fin 6.75; timestamp := t0 - 1000 |}.
    split; [reflexivity | vm_compute; discriminate].
  - destruct (proj2 (proj2 (price_cache_freshness prices_only APT (cold_world t0)))
                (or_introl eq_refl) "aptos" (Fin 6.75) eq_refl eq_refl eq_refl)
      as (w1 & Hrun & Hlen & Hentry & Hlater).
    exists w1. split; [exact Hrun |]. split; [exact Hlen |]. split.
    + apply (proj1 (Hlater (at_time (t0 + 299999) w1) eq_refl)).
      vm_compute. reflexivity.
    + apply (proj2 (Hlater (at_time (t0 + 300000) w1) eq_refl)).
      vm_compute. discriminate.
Defined.

(** C7 as stated fails for lookups in flight together: two lookups of APT
    started at the same time on a cold cache both miss the cache, and each
    issues its own upstream request, 1.1 s apart. *)
Lemma price_cache_concurrent_lookups :
  let r := run_concurrently prices_only 10
             (map PriceService.getTokenPriceWithCache [APT; APT])
             (cold_world t0) in
  fst r = [Settled (Ok (Fin 6.75)); Settled (Ok (Fin 6.75))] /\
  w_calls (snd r) = [(t0, ReqPrice "aptos"); (t0 + 1100, ReqPrice "aptos")].
Proof. vm_compute. split; reflexivity. Qed.

End Price_cache_evaluation.

(* ===================================================================== *)
(** * C8: the rate limiter under concurrent callers                       *)
(* ===================================================================== *)

Section Rate_limiter_race.
Context (up : Upstream).

(** A caller that arrives inside the window goes to sleep until its end and
    leaves [lastApiCall] as it found it: the slot is not reserved. *)
Lemma withRateLimit_sleeps_without_reserving {A : Type} (fn : M A) (w : World) :
  w_clock w - lastApiCall (priceService (w_state w)) < PriceService.API_RATE_LIMIT ->
  exists k,
    run_sync up (PriceService.withRateLimit fn) w
    = (Suspended
         (lastApiCall (priceService (w_state w)) + PriceService.API_RATE_LIMIT) k,
       w).
Proof.
  intros Hin. unfold PriceService.withRateLimit.
  apply Z.ltb_lt in Hin.
  cbn [bind pbind dateNow gets perform run_sync step suspends ret].
  rewrite Hin.
  cbn [bind pbind setTimeout perform run_sync step suspends tick w_clock at_time
       w_state w_calls].
  apply Z.ltb_lt in Hin.
  eexists. f_equal; [f_equal; lia | now destruct w].
Qed.

(** So two callers that arrive inside the same window are woken at the
    same time, whatever they are about to request. *)
Lemma withRateLimit_same_wake {A : Type} (fn1 fn2 : M A) (w : World) :
  w_clock w - lastApiCall (priceService (w_state w)) < PriceService.API_RATE_LIMIT ->
  exists k1 k2,
    start_all up [PriceService.withRateLimit fn1; PriceService.withRateLimit fn2] w
    = ([Suspended (lastApiCall (priceService (w_state w)) + PriceService.API_RATE_LIMIT) k1;
        Suspended (lastApiCall (priceService (w_state w)) + PriceService.API_RATE_LIMIT) k2],
       w).
Proof.
  intros Hin.
  destruct (withRateLimit_sleeps_without_reserving fn1 w Hin) as [k1 H1].
  destruct (withRateLimit_sleeps_without_reserving fn2 w Hin) as [k2 H2].
  exists k1, k2. cbn [start_all]. now rewrite H1, H2.
Qed.

End Rate_limiter_race.

Section Rate_limiter.
Import JS.

(** Three lookups awaited one after the other are spaced by the limiter. *)
Lemma rate_limiter_sequential_callers :
  w_calls (snd (run prices_only
                  (promise_all PriceService.getTokenPriceWithCache [APT; USDC; USDT])
                  (cold_world t0)))
  = [(t0, ReqPrice "aptos");
     (t0 + 1100, ReqPrice "usd-coin");
     (t0 + 2200, ReqPrice "tether")].
Proof. vm_compute. reflexivity. Qed.

(** C8 on the code: three lookups for distinct symbols started together on
    a cold cache.  The first is let through at [t0]; the second and the
    third both read the same [lastApiCall], both sleep for 1.1 s and both
    issue their request at [t0 + 1100]: two upstream requests 0 ms apart. *)
Lemma rate_limiter_concurrent_callers :
  let r := run_concurrently prices_only 10
             (map PriceService.getTokenPriceWithCache [APT; USDC; USDT])
             (cold_world t0) in
  fst r = [Settled (Ok (Fin 6.75)); Settled (Ok (Fin 6.75)); Settled (Ok (Fin 6.75))] /\
  w_calls (snd r)
  = [(t0, ReqPrice "aptos");
     (t0 + 1100, ReqPrice "usd-coin");
     (t0 + 1100, ReqPrice "tether")].
Proof. vm_compute. split; reflexivity. Qed.

End Rate_limiter.


(* ===================================================================== *)
(** * C5: the fan-out tier                                                *)
(* ===================================================================== *)

Section Fanout.
Import JS.

Lemma Qcompare_sub (a b : Q) : (0 ?= b + - a)%Q = (a ?= b)%Q.
Proof.
  destruct (a ?= b)%Q eqn:E.
  - apply Qeq_alt in E. apply (proj1 (Qeq_alt _ _)). lra.
  - apply Qlt_alt in E. apply (proj1 (Qlt_alt _ _)). lra.
  - apply Qgt_alt in E. apply (proj1 (Qgt_alt _ _)). lra.
Qed.

(** On numbers the comparator is positive exactly when the left quote has
    the smaller output. *)
Lemma comparator_positive (x y : number) :
  isNaN x = false -> isNaN y = false ->
  gtb (sub y x) (Fin 0) = ltb x y.
Proof.
  destruct x as [| | |a], y as [| | |b]; intros Hx Hy;
    try discriminate; try reflexivity.
  unfold gtb, sub, neg, add, ltb. now rewrite Qcompare_sub.
Qed.

Lemma ltb_false_leb (x y : number) :
  isNaN x = false -> isNaN y = false -> ltb x y = false -> leb y x = true.
Proof.
  destruct x as [| | |a], y as [| | |b]; intros Hx Hy;
    try discriminate; try reflexivity.
  unfold ltb, leb. rewrite <- (Qcompare_antisym a b).
  destruct (a ?= b)%Q; simpl; intros; congruence.
Qed.

Lemma ltb_true_leb (x y : number) : ltb x y = true -> leb x y = true.
Proof.
  destruct x as [| | |a], y as [| | |b]; try discriminate; try reflexivity.
  unfold ltb, leb. destruct (a ?= b)%Q; intros; congruence.
Qed.

Lemma leb_trans (x y z : number) : leb x y = true -> leb y z = true -> leb x z = true.
Proof.
  destruct x as [| | |a], y as [| | |b], z as [| | |c];
    try discriminate; try reflexivity.
  unfold leb.
  destruct (a ?= b)%Q eqn:E1; try discriminate;
    destruct (b ?= c)%Q eqn:E2; try discriminate; intros _ _;
    destruct (a ?= c)%Q eqn:E3; try reflexivity; exfalso;
    repeat match goal with
           | H : (_ ?= _)%Q = Eq |- _ => apply Qeq_alt in H
           | H : (_ ?= _)%Q = Lt |- _ => apply Qlt_alt in H
           | H : (_ ?= _)%Q = Gt |- _ => apply Qgt_alt in H
           end; lra.
Qed.

Lemma leb_refl (x : number) : isNaN x = false -> leb x x = true.
Proof.
  destruct x as [| | |a]; try discriminate; try reflexivity.
  intros _. unfold leb. now rewrite (proj1 (Qeq_alt a a) (Qeq_refl a)).
Qed.

Lemma sort_insert_perm (x : DexQuote) (l : list DexQuote) :
  Permutation (sort_insert SwapService.by_output_desc x l) (x :: l).
Proof.
  induction l as [| y ys IH]; [reflexivity |].
  cbn [sort_insert]. destruct (gtb _ _); [| reflexivity].
  rewrite IH. apply perm_swap.
Qed.

Lemma Array_sort_perm (l : list DexQuote) :
  Permutation (Array_sort SwapService.by_output_desc l) l.
Proof.
  induction l as [| x xs IH]; [reflexivity |].
  cbn [Array_sort]. rewrite sort_insert_perm. now constructor.
Qed.

Lemma sort_insert_sorted (x : DexQuote) (l : list DexQuote) :
  numeric x -> Forall numeric l ->
  StronglySorted not_below l ->
  StronglySorted not_below (sort_insert SwapService.by_output_desc x l).
Proof.
  intros Hx Hl Hs. induction Hs as [| y ys Hys IH Hy]; cbn [sort_insert].
  - repeat constructor.
  - inversion Hl as [| ? ? Hny Hnys]; subst.
    unfold SwapService.by_output_desc at 1.
    fold (output_of x). fold (output_of y).
    rewrite (comparator_positive (output_of x) (output_of y) Hx Hny).
    destruct (ltb (output_of x) (output_of y)) eqn:E.
    + constructor; [now apply IH |].
      rewrite sort_insert_perm. constructor; [| exact Hy].
      unfold not_below. now apply ltb_true_leb.
    + assert (leb (output_of y) (output_of x) = true) as Hyx
          by now apply ltb_false_leb.
      constructor; [now constructor |].
      constructor; [exact Hyx |].
      eapply Forall_impl; [exact Hy |].
      intros z Hz. unfold not_below in *. eapply leb_trans; eassumption.
Qed.

Lemma Array_sort_sorted (l : list DexQuote) :
  Forall numeric l -> StronglySorted not_below (Array_sort SwapService.by_output_desc l).
Proof.
  induction l as [| x xs IH]; intros Hl; cbn [Array_sort]; [constructor |].
  inversion Hl; subst.
  apply sort_insert_sorted; [assumption | | now apply IH].
  now rewrite Array_sort_perm.
Qed.

Context (Math_log10 : number -> number) (up : Upstream).

Lemma run_getFallbackSwapRoute (tokenIn tokenOut : TokenType) (amount : string) (w : World) :
  run up (SwapService.getFallbackSwapRoute Math_log10 tokenIn tokenOut amount) w =
  match run up (DexService.getAllDexQuotes Math_log10 tokenIn tokenOut (parseFloat amount)) w with
  | (Ok qs, w1) =>
      match SwapService.route_of_quotes tokenIn tokenOut amount qs with
      | Some r => (Ok r, w1)
      | None => run up (SwapService.generateFallbackSwapRoute tokenIn tokenOut amount) w1
      end
  | (Thrown _, w1) =>
      run up (SwapService.generateFallbackSwapRoute tokenIn tokenOut amount) w1
  end.
Proof.
  unfold SwapService.getFallbackSwapRoute.
  rewrite run_try_catch, run_bind.
  destruct (run up (DexService.getAllDexQuotes Math_log10 tokenIn tokenOut
                      (parseFloat amount)) w) as [[qs | e] w1]; [| reflexivity].
  destruct (SwapService.route_of_quotes tokenIn tokenOut amount qs); reflexivity.
Qed.

(** C5, amended: when the outputs of all present quotes read as numbers,
    the route of the fan-out tier is built from the present quotes in
    descending order of their numeric output: the primary route has the
    output and the name of a quote that no present quote exceeds, and the
    alternatives carry the names, outputs and price impacts of the other
    present quotes, in descending order of output, none above the
    primary.  With no present quote the tier gives way to the fallback
    synthesizer. *)
Theorem fanout_selects_best (tokenIn tokenOut : TokenType) (amount : string)
    (w w1 : World) (qs : list (option DexQuote)) :
  run up (DexService.getAllDexQuotes Math_log10 tokenIn tokenOut (parseFloat amount)) w
  = (Ok qs, w1) ->
  Forall numeric (present qs) ->
  match present qs with
  | [] =>
      run up (SwapService.getFallbackSwapRoute Math_log10 tokenIn tokenOut amount) w
      = run up (SwapService.generateFallbackSwapRoute tokenIn tokenOut amount) w1
  | _ :: _ =>
      exists r best rest alts,
        run up (SwapService.getFallbackSwapRoute Math_log10 tokenIn tokenOut amount) w
        = (Ok r, w1) /\
        Permutation (best :: rest) (present qs) /\
        Forall (fun q => leb (output_of q) (output_of best) = true) (present qs) /\
        expectedOutput r = outputAmount best /\
        route_dex r = dexName best /\
        protocol r = Some (dexName best) /\
        route_priceImpact r = parseFloat (priceImpact best) /\
        alternativeRoutes r = Some alts /\
        map alt_protocol alts = map dexName rest /\
        map alt_expectedOutput alts = map outputAmount rest /\
        map alt_priceImpact alts = map priceImpact rest /\
        StronglySorted
          (fun a b => leb (parseFloat (alt_expectedOutput b))
                          (parseFloat (alt_expectedOutput a)) = true) alts /\
        Forall (fun a => leb (parseFloat (alt_expectedOutput a))
                             (parseFloat (expectedOutput r)) = true) alts
  end.
Proof.
  intros Hrun Hnum.
  pose proof (Array_sort_perm (present qs)) as Hperm.
  pose proof (Array_sort_sorted (present qs) Hnum) as Hsorted.
  rewrite run_getFallbackSwapRoute, Hrun.
  unfold SwapService.route_of_quotes.
  destruct (Array_sort SwapService.by_output_desc (present qs)) as [| best rest] eqn:Es.
  - apply Permutation_nil in Hperm. rewrite Hperm. reflexivity.
  - destruct (present qs) as [| q0 qs0] eqn:Ep.
    { symmetry in Hperm. apply Permutation_nil in Hperm. discriminate. }
    rewrite <- Ep in *.
    eexists. exists best, rest, (map SwapService.alternative_of_quote rest).
    split; [reflexivity |]. split; [exact Hperm |].
    inversion Hsorted as [| ? ? Hrest Hbest]; subst.
    assert (Forall numeric (best :: rest)) as Hn by now rewrite Hperm.
    inversion Hn as [| ? ? Hnb Hnr]; subst.
    split.
    { rewrite <- Hperm. constructor; [now apply leb_refl | exact Hbest]. }
    cbn [expectedOutput route_dex protocol route_priceImpact alternativeRoutes].
    repeat (split; [reflexivity |]).
    rewrite !map_map. cbn [SwapService.alternative_of_quote alt_protocol
                           alt_expectedOutput alt_priceImpact].
    repeat (split; [reflexivity |]).
    split.
    + clear - Hrest. induction Hrest as [| y ys Hys IH Hy]; cbn [map]; constructor.
      * exact IH.
      * apply Forall_map. exact Hy.
    + apply Forall_map. exact Hbest.
Qed.

End Fanout.

Section Fanout_evaluation.
Import JS.

Example route_of_quotes_5_12_3 :
  match SwapService.route_of_quotes APT USDC "1"
          [Some (example_quote PANCAKE "5.000000"); None;
           Some (example_quote AUX "12.000000");
           Some (example_quote THALA "3.000000")] with
  | Some r =>
      expectedOutput r = "12.000000" /\ route_dex r = "AUX Exchange" /\
      option_map (map alt_expectedOutput) (alternativeRoutes r)
      = Some ["5.000000"; "3.000000"]
  | None => False
  end.
Proof. vm_compute. repeat split. Qed.

Lemma fanout_selects_best_witness :
  let w := two_pools_world in
  let fan := run offline
               (DexService.getAllDexQuotes log10_floor APT USDC (parseFloat "100")) w in
  let qs := match fst fan with Ok qs => qs | Thrown _ => [] end in
  map dexName (present qs) = ["PancakeSwap"; "Panora"] /\
  map outputAmount (present qs) = ["672.747871"; "673.195286"] /\
  Forall numeric (present qs) /\
  exists r alts,
    run offline (SwapService.getFallbackSwapRoute log10_floor APT USDC "100") w
    = (Ok r, snd fan) /\
    expectedOutput r = "673.195286" /\
    route_dex r = "Panora" /\
    alternativeRoutes r = Some alts /\
    map alt_protocol alts = ["PancakeSwap"] /\
    map alt_expectedOutput alts = ["672.747871"].
Proof.
  intros w fan qs.
  assert (Forall numeric (present qs)) as Hnum
    by (repeat constructor; vm_compute; reflexivity).
  split; [vm_compute; reflexivity |].
  split; [vm_compute; reflexivity |].
  split; [exact Hnum |].
  assert (run offline
            (DexService.getAllDexQuotes log10_floor APT USDC (parseFloat "100")) w
          = (Ok qs, snd fan)) as Hrun by (vm_compute; reflexivity).
  pose proof (fanout_selects_best log10_floor offline APT USDC "100" w (snd fan) qs
                Hrun Hnum) as H.
  assert (exists q0 rest0, present qs = q0 :: rest0) as (q0 & rest0 & Ep)
    by (vm_compute; eauto).
  rewrite Ep in H.
  destruct H as (r & best & rest & alts & Hr & _ & _ & _ & _ & _ & _ & Halts & _).
  exists r, alts. split; [exact Hr |].
  vm_compute in Hr. injection Hr as <-.
  vm_compute in Halts. injection Halts as <-.
  repeat split; reflexivity.
Defined.

(** C5 as stated fails when an output is no number: with a cached
    PancakeSwap payload whose TVL is negative, the PancakeSwap quote has
    the output "NaN", the comparator of the sort returns NaN for it and it
    stays where it was, in front: it becomes the primary route, and
    Panora's quote of 673.195286 is the alternative. *)
Lemma fanout_primary_not_largest :
  exists r w',
    run offline (SwapService.getFallbackSwapRoute log10_floor APT USDC "100")
      negative_tvl_world = (Ok r, w') /\
    expectedOutput r = "NaN" /\
    route_dex r = "PancakeSwap" /\
    option_map (map alt_protocol) (alternativeRoutes r) = Some ["Panora"] /\
    option_map (map alt_expectedOutput) (alternativeRoutes r) = Some ["673.195286"] /\
    leb (parseFloat "673.195286") (parseFloat (expectedOutput r)) = false.
Proof. eexists. eexists. split; [vm_compute; reflexivity |]. repeat split. Qed.

End Fanout_evaluation.

(* ===================================================================== *)
(** * C6 and C1: the route selector and the fallback synthesizer          *)
(* ===================================================================== *)

Section Selector_runs.
Import JS.
Context (Math_log10 : number -> number) (up : Upstream).

Lemma run_fallback_prices_returns (tokenIn tokenOut : TokenType) (w : World) :
  exists prices w', run up (SwapService.fallback_prices tokenIn tokenOut) w = (Ok prices, w').
Proof.
  unfold SwapService.fallback_prices. rewrite run_try_catch.
  destruct (run up _ w) as [[prices | e] w1]; [eauto |].
  rewrite run_ret. eauto.
Qed.

Lemma run_generateFallbackSwapRoute (tokenIn tokenOut : TokenType) (amount : string)
    (w : World) :
  run up (SwapService.generateFallbackSwapRoute tokenIn tokenOut amount) w =
  match run up (SwapService.fallback_prices tokenIn tokenOut) w with
  | (Ok prices, w1) =>
      (Ok (SwapService.fallback_route tokenIn tokenOut amount (fst prices) (snd prices)), w1)
  | (Thrown e, w1) => (Thrown e, w1)
  end.
Proof.
  unfold SwapService.generateFallbackSwapRoute. rewrite run_bind.
  destruct (run up (SwapService.fallback_prices tokenIn tokenOut) w) as [[prices | e] w1];
    reflexivity.
Qed.

Lemma generateFallbackSwapRoute_returns (tokenIn tokenOut : TokenType) (amount : string)
    (w : World) :
  exists r w',
    run up (SwapService.generateFallbackSwapRoute tokenIn tokenOut amount) w = (Ok r, w').
Proof.
  rewrite run_generateFallbackSwapRoute.
  destruct (run_fallback_prices_returns tokenIn tokenOut w) as (prices & w' & ->).
  eauto.
Qed.

Lemma getFallbackSwapRoute_returns (tokenIn tokenOut : TokenType) (amount : string)
    (w : World) :
  exists r w',
    run up (SwapService.getFallbackSwapRoute Math_log10 tokenIn tokenOut amount) w = (Ok r, w').
Proof.
  rewrite run_getFallbackSwapRoute.
  destruct (run up (DexService.getAllDexQuotes Math_log10 tokenIn tokenOut
                      (parseFloat amount)) w) as [[qs | e] w1].
  - destruct (SwapService.route_of_quotes tokenIn tokenOut amount qs); [eauto |].
    apply generateFallbackSwapRoute_returns.
  - apply generateFallbackSwapRoute_returns.
Qed.

Lemma run_getBestSwapRoute (tokenIn tokenOut : TokenType) (amount : string) (w : World) :
  run up (SwapService.getBestSwapRoute Math_log10 tokenIn tokenOut amount) w =
  match run up (SwapService.try_panora tokenIn tokenOut amount) w with
  | (Ok (Some r), w1) => (Ok r, w1)
  | (Ok None, w1) =>
      run up (SwapService.getFallbackSwapRoute Math_log10 tokenIn tokenOut amount) w1
  | (Thrown _, w1) =>
      run up (SwapService.generateFallbackSwapRoute tokenIn tokenOut amount) w1
  end.
Proof.
  unfold SwapService.getBestSwapRoute. rewrite run_try_catch, run_bind.
  destruct (run up (SwapService.try_panora tokenIn tokenOut amount) w)
    as [[[r |] | e] w1]; try reflexivity.
  destruct (getFallbackSwapRoute_returns tokenIn tokenOut amount w1)
    as (r & w2 & ->). reflexivity.
Qed.

(** The selector always returns a route. *)
Lemma getBestSwapRoute_returns (tokenIn tokenOut : TokenType) (amount : string)
    (w : World) :
  exists r w',
    run up (SwapService.getBestSwapRoute Math_log10 tokenIn tokenOut amount) w = (Ok r, w').
Proof.
  rewrite run_getBestSwapRoute.
  destruct (run up (SwapService.try_panora tokenIn tokenOut amount) w)
    as [[[r |] | e] w1].
  - eauto.
  - apply getFallbackSwapRoute_returns.
  - apply generateFallbackSwapRoute_returns.
Qed.

(** C6, amended: when the aggregator tier yields no route, the fan-out
    yields no quote (or fails) and the two price lookups of the synthesizer
    resolve to the static defaults 6.75 and 1, the route for 10 APT to USDC
    is the fallback route: output "67.500000", PancakeSwap, price impact
    0.5, gas 0.0002, and the one alternative at 99.5% of the output. *)
Theorem fallback_route_defaults (w w1 w2 w3 : World)
    (fanout : Result (list (option DexQuote))) :
  run up (SwapService.try_panora APT USDC "10") w = (Ok None, w1) ->
  run up (DexService.getAllDexQuotes Math_log10 APT USDC (parseFloat "10")) w1
  = (fanout, w2) ->
  match fanout with
  | Ok qs => present qs = []
  | Thrown _ => True
  end ->
  run up (SwapService.fallback_prices APT USDC) w2 = (Ok (Fin 6.75, Fin 1), w3) ->
  exists r,
    run up (SwapService.getBestSwapRoute Math_log10 APT USDC "10") w = (Ok r, w3) /\
    expectedOutput r = "67.500000" /\
    route_dex r = "PancakeSwap" /\
    protocol r = Some "PancakeSwap" /\
    route_priceImpact r = Fin 0.5 /\
    estimatedGas r = Fin 0.0002 /\
    alternativeRoutes r
    = Some [ {| alt_protocol := "Liquidswap";
                alt_expectedOutput := "67.162500";
                alt_priceImpact := "0.7";
                alt_estimatedGas := Fin 0.00025 |} ] /\
    same (parseFloat "67.162500") (mul (parseFloat (expectedOutput r)) (Fin 0.995)).
Proof.
  intros Hpanora Hfan Hnone Hprices.
  exists (SwapService.fallback_route APT USDC "10" (Fin 6.75) (Fin 1)).
  split; [| vm_compute; repeat split; reflexivity].
  rewrite run_getBestSwapRoute, Hpanora, run_getFallbackSwapRoute, Hfan.
  assert (run up (SwapService.generateFallbackSwapRoute APT USDC "10") w2
          = (Ok (SwapService.fallback_route APT USDC "10" (Fin 6.75) (Fin 1)), w3)) as Hgen
      by now rewrite run_generateFallbackSwapRoute, Hprices.
  destruct fanout as [qs | e]; [| exact Hgen].
  unfold SwapService.route_of_quotes. rewrite Hnone. exact Hgen.
Qed.

End Selector_runs.

Section Selector_evaluation.
Import JS.

Lemma fallback_route_defaults_witness :
  exists r w',
    run offline (SwapService.getBestSwapRoute log10_floor APT USDC "10") (cold_world t0)
    = (Ok r, w') /\
    expectedOutput r = "67.500000" /\
    route_dex r = "PancakeSwap" /\
    option_map (map alt_expectedOutput) (alternativeRoutes r) = Some ["67.162500"].
Proof.
  pose (w1 := snd (run offline (SwapService.try_panora APT USDC "10") (cold_world t0))).
  pose (rf := run offline
                (DexService.getAllDexQuotes log10_floor APT USDC (parseFloat "10")) w1).
  pose (w3 := snd (run offline (SwapService.fallback_prices APT USDC) (snd rf))).
  destruct (fallback_route_defaults log10_floor offline (cold_world t0) w1 (snd rf) w3
              (fst rf))
    as (r & Hrun & Hout & Hdex & _ & _ & _ & Halt & _).
  - vm_compute. reflexivity.
  - vm_compute. reflexivity.
  - vm_compute. reflexivity.
  - vm_compute. reflexivity.
  - exists r, w3. split; [exact Hrun |].
    split; [exact Hout | split; [exact Hdex |]].
    now rewrite Halt.
Defined.

(** C6 as stated fails: with a cached APT price of 7 the aggregator tier
    fails and the fan-out is empty all the same, and the route is computed
    from the cached price. *)
Lemma fallback_route_uses_cached_price :
  exists r w',
    fst (run offline (SwapService.try_panora APT USDC "10") cached_apt_world) = Ok None /\
    run offline (SwapService.getBestSwapRoute log10_floor APT USDC "10") cached_apt_world
    = (Ok r, w') /\
    route_dex r = "PancakeSwap" /\
    expectedOutput r = "70.000000" /\
    expectedOutput r <> "67.500000".
Proof.
  eexists. eexists. split; [vm_compute; reflexivity |].
  split; [vm_compute; reflexivity |].
  split; [reflexivity | split; [reflexivity | discriminate]].
Qed.

End Selector_evaluation.

Section Selector_outputs.
Import JS.

Lemma fallback_price_positive (token : TokenType) :
  exists p, PriceService.fallback_price token = Some p /\ positive p.
Proof. destruct token; eexists; (split; [reflexivity | simpl; lra]). Qed.

Lemma or_else_positive (p d : number) : positive p -> or_else p d = p.
Proof. intros H. unfold or_else. now rewrite truthy_positive. Qed.

Lemma present_In {A : Type} (x : A) (l : list (option A)) :
  In x (present l) -> In (Some x) l.
Proof.
  induction l as [| [y |] l IH]; cbn [present]; [tauto | |].
  - intros [-> | H]; [now left | right; auto].
  - intros H. right. auto.
Qed.

Lemma route_of_quotes_output (tokenIn tokenOut : TokenType) (amount : string)
    (qs : list (option DexQuote)) (r : SwapRoute) :
  SwapService.route_of_quotes tokenIn tokenOut amount qs = Some r ->
  exists q, In (Some q) qs /\ expectedOutput r = outputAmount q.
Proof.
  unfold SwapService.route_of_quotes.
  pose proof (Array_sort_perm (present qs)) as Hperm.
  destruct (Array_sort SwapService.by_output_desc (present qs)) as [| best rest];
    [discriminate |].
  intros H. inversion H; subst. exists best. split; [| reflexivity].
  apply present_In. eapply Permutation_in; [exact Hperm | now left].
Qed.

Lemma positive_nonneg (x : number) : positive x -> nonneg x.
Proof. destruct x as [| | |q]; simpl; try contradiction. lra. Qed.

End Selector_outputs.

(* ===================================================================== *)
(** * C9: the testnet exchange rate                                       *)
(* ===================================================================== *)

Section Testnet_rate_cache.
Import JS.
Context (Math_log10 : number -> number) (up : Upstream).

Lemma rate_lookup_fresh (tokenIn tokenOut : TokenType) (w : World) (c : RateEntry) :
  testnetRatesCache (defiService (w_state w)) !! (symbol tokenIn +:+ "-" +:+ symbol tokenOut)
  = Some c ->
  w_clock w - rate_timestamp c < DeFiService.TESTNET_RATES_CACHE_DURATION ->
  run up (DeFiService.getTestnetExchangeRate Math_log10 tokenIn tokenOut) w
  = (Ok (rate c), w).
Proof.
  intros Hc Hfresh. unfold DeFiService.getTestnetExchangeRate.
  rewrite run_bind, run_dateNow, run_bind, run_gets, Hc.
  apply Z.ltb_lt in Hfresh. rewrite Hfresh. apply run_ret.
Qed.

Lemma rate_lookup_miss (tokenIn tokenOut : TokenType) (w : World) :
  let key := symbol tokenIn +:+ "-" +:+ symbol tokenOut in
  let cache := testnetRatesCache (defiService (w_state w)) in
  (cache !! key = None \/
   exists c, cache !! key = Some c /\
             DeFiService.TESTNET_RATES_CACHE_DURATION <= w_clock w - rate_timestamp c) ->
  run up (DeFiService.getTestnetExchangeRate Math_log10 tokenIn tokenOut) w
  = run up (DeFiService.compute_rate Math_log10 tokenIn tokenOut key (w_clock w)) w.
Proof.
  cbn zeta. intros Hmiss. unfold DeFiService.getTestnetExchangeRate.
  rewrite run_bind, run_dateNow, run_bind, run_gets.
  destruct Hmiss as [-> | (c & -> & Hs)]; [reflexivity |].
  apply Z.ltb_ge in Hs. now rewrite Hs.
Qed.

Lemma query_pool_reserves_returns (tokenIn tokenOut : TokenType) (bestRate : number)
    (w : World) :
  exists b w', run up (DeFiService.query_pool_reserves tokenIn tokenOut bestRate) w
               = (Ok b, w').
Proof.
  unfold DeFiService.query_pool_reserves.
  destruct (_ && _); [| rewrite run_ret; eauto].
  rewrite run_try_catch. destruct (run up _ w) as [[x | e] w1]; [eauto |].
  rewrite run_ret. eauto.
Qed.

(** A computed rate is returned, never thrown, and is in the cache under
    its key afterwards. *)
Lemma compute_rate_caches (tokenIn tokenOut : TokenType) (key : string) (now : Z)
    (w : World) :
  exists r w',
    run up (DeFiService.compute_rate Math_log10 tokenIn tokenOut key now) w = (Ok r, w') /\
    testnetRatesCache (defiService (w_state w')) !! key
    = Some {| rate := r; rate_timestamp := now |}.
Proof.
  unfold DeFiService.compute_rate. rewrite run_try_catch, run_bind.
  destruct (run up (DexService.getAllDexQuotes Math_log10 tokenIn tokenOut (Fin 1)) w)
    as [[qs | e] w1].
  - rewrite run_bind.
    destruct (query_pool_reserves_returns tokenIn tokenOut
                (DeFiService.best_of_quotes qs (Fin 0)) w1) as (b & w2 & ->).
    rewrite run_bind, run_modify, run_ret.
    eexists. eexists. split; [reflexivity |]. cbn. apply lookup_insert_eq.
  - rewrite run_bind, run_modify, run_ret.
    eexists. eexists. split; [reflexivity |]. cbn. apply lookup_insert_eq.
Qed.

(** The parts of C9 that hold: the call never rejects; a rate that had to
    be computed is stored under the ordered pair with the time at which
    the call started, and a second call less than 60 s after that start
    returns the same rate from the cache and leaves the world as it is (no
    upstream request). *)
Lemma getTestnetExchangeRate_returns_and_caches (tokenIn tokenOut : TokenType) (w : World) :
  let key := symbol tokenIn +:+ "-" +:+ symbol tokenOut in
  let cache := testnetRatesCache (defiService (w_state w)) in
  exists r w',
    run up (DeFiService.getTestnetExchangeRate Math_log10 tokenIn tokenOut) w = (Ok r, w') /\
    ((cache !! key = None \/
      exists c, cache !! key = Some c /\
                DeFiService.TESTNET_RATES_CACHE_DURATION <= w_clock w - rate_timestamp c) ->
     testnetRatesCache (defiService (w_state w')) !! key
     = Some {| rate := r; rate_timestamp := w_clock w |} /\
     forall t2,
       t2 - w_clock w < DeFiService.TESTNET_RATES_CACHE_DURATION ->
       run up (DeFiService.getTestnetExchangeRate Math_log10 tokenIn tokenOut) (at_time t2 w')
       = (Ok r, at_time t2 w')).
Proof.
  cbn zeta.
  set (key := symbol tokenIn +:+ "-" +:+ symbol tokenOut).
  destruct (testnetRatesCache (defiService (w_state w)) !! key) as [c |] eqn:Ec.
  - destruct (Z_lt_ge_dec (w_clock w - rate_timestamp c)
                DeFiService.TESTNET_RATES_CACHE_DURATION) as [Hfresh | Hstale].
    + exists (rate c), w. split; [now apply rate_lookup_fresh |].
      intros [Hnone | (c' & Hc' & Hs)]; [discriminate |]. inversion Hc'; subst. lia.
    + rewrite rate_lookup_miss by (right; exists c; split; [exact Ec | lia]).
      fold key.
      destruct (compute_rate_caches tokenIn tokenOut key (w_clock w) w)
        as (r & w' & -> & Hc).
      exists r, w'. split; [reflexivity |]. intros _. split; [exact Hc |].
      intros t2 Ht2.
      now apply (rate_lookup_fresh tokenIn tokenOut (at_time t2 w')
                   {| rate := r; rate_timestamp := w_clock w |}).
  - rewrite rate_lookup_miss by (left; exact Ec).
    fold key.
    destruct (compute_rate_caches tokenIn tokenOut key (w_clock w) w)
      as (r & w' & -> & Hc).
    exists r, w'. split; [reflexivity |]. intros _. split; [exact Hc |].
    intros t2 Ht2.
    now apply (rate_lookup_fresh tokenIn tokenOut (at_time t2 w')
                 {| rate := r; rate_timestamp := w_clock w |}).
Qed.

End Testnet_rate_cache.

Section Testnet_rate.
Import JS.

(** C9 on the code: no DEX quote is available and the node reports the
    APT/USDC pool with both reserves at zero.  The rate is 0/0 = NaN, which
    the test [bestRate === 0] lets through; NaN is returned and cached. *)
Lemma getTestnetExchangeRate_empty_pool :
  exists w',
    run node_only (DeFiService.getTestnetExchangeRate log10_floor APT USDC) (cold_world t0)
    = (Ok NaN, w') /\
    testnetRatesCache (defiService (w_state w')) !! "APT-USDC"
    = Some {| rate := NaN; rate_timestamp := t0 |}.
Proof. eexists. split; vm_compute; reflexivity. Qed.

End Testnet_rate.

(* ===================================================================== *)
(** * Price lookups: what they return, keep and never do                  *)
(* ===================================================================== *)

Section Price_lookup_facts.
Import JS.
Context (up : Upstream).

Lemma tick_clock (ms : Z) (w : World) : w_clock w <= w_clock (tick ms w).
Proof. cbn. lia. Qed.

Lemma after_rate_limit_clock (w : World) : w_clock w <= w_clock (after_rate_limit w).
Proof. unfold after_rate_limit. destruct (_ <? _); cbn; lia. Qed.

Lemma after_rate_limit_lastApiCall (w : World) :
  lastApiCall (priceService (w_state (after_rate_limit w))) = w_clock (after_rate_limit w).
Proof. unfold after_rate_limit. destruct (_ <? _); reflexivity. Qed.

Lemma after_rate_limit_spacing (w : World) :
  PriceService.API_RATE_LIMIT
  <= w_clock (after_rate_limit w) - lastApiCall (priceService (w_state w)).
Proof.
  unfold after_rate_limit.
  destruct (_ <? _) eqn:E; cbn; [apply Z.ltb_lt in E | apply Z.ltb_ge in E]; lia.
Qed.

Lemma after_rate_limit_marketData (w : World) :
  priceMarketDataCache (priceService (w_state (after_rate_limit w)))
  = priceMarketDataCache (priceService (w_state w)).
Proof. unfold after_rate_limit. destruct (_ <? _); reflexivity. Qed.

(** The world in which a fetch ends: the limiter has waited, the request
    is logged, and the answer has taken its time. *)
Lemma fetch_world (token : TokenType) (geckoId : string) (w : World) :
  COINGECKO_IDS token = Some geckoId ->
  snd (run up (PriceService.fetchTokenPrice token) w)
  = tick (fst (reply up (length (w_calls w)) (ReqPrice geckoId)))
      (log_call (ReqPrice geckoId) (after_rate_limit w)).
Proof.
  intros Hid. rewrite (run_fetchTokenPrice up token geckoId w Hid).
  cbn zeta. now rewrite after_rate_limit_calls.
Qed.

(** Case analysis on a lookup: a fresh entry, or a fetch whose request
    succeeds with a usable price, or one that does not. *)
Ltac lookup_cases up token w :=
  let e := fresh "e" in
  let E := fresh "E" in
  let Hfresh := fresh "Hfresh" in
  let Hstale := fresh "Hstale" in
  let geckoId := fresh "geckoId" in
  let Hid := fresh "Hid" in
  destruct (COINGECKO_IDS_total token) as [geckoId Hid];
  destruct (priceCache (priceService (w_state w)) !! toLowerCase (symbol token))
    as [e |] eqn:E;
  [ destruct (Z_lt_ge_dec (w_clock w - timestamp e) PriceService.CACHE_DURATION)
      as [Hfresh | Hstale];
    [ rewrite (lookup_fresh up token w e E Hfresh)
    | rewrite (lookup_miss up token w) by (right; exists e; split; [exact E | lia]);
      rewrite (run_fetchTokenPrice up token geckoId w Hid); cbn zeta;
      rewrite after_rate_limit_calls, ?E ]
  | rewrite (lookup_miss up token w) by (left; exact E);
    rewrite (run_fetchTokenPrice up token geckoId w Hid); cbn zeta;
    rewrite after_rate_limit_calls, ?E ].

Lemma lookup_source (token : TokenType) (w : World) :
  exists p w',
    run up (PriceService.getTokenPriceWithCache token) w = (Ok p, w') /\
    ((exists e, priceCache (priceService (w_state w)) !! toLowerCase (symbol token) = Some e /\
                p = price e) \/
     (exists geckoId,
         COINGECKO_IDS token = Some geckoId /\
         snd (reply up (length (w_calls w)) (ReqPrice geckoId)) = Some (Some p) /\
         truthy p = true) \/
     PriceService.fallback_price token = Some p).
Proof.
  lookup_cases up token w.
  - exists (price e), w. split; [reflexivity |]. left. eauto.
  - destruct (snd (reply up (length (w_calls w)) (ReqPrice geckoId))) as [[p |] |] eqn:Er.
    + destruct (truthy p) eqn:Hp.
      * eexists p, _. split; [reflexivity |]. right. left. exists geckoId. auto.
      * eexists (price e), _. split; [reflexivity |]. left. eauto.
    + eexists (price e), _. split; [reflexivity |]. left. eauto.
    + eexists (price e), _. split; [reflexivity |]. left. eauto.
  - destruct (fallback_price_positive token) as (d & Hd & _).
    destruct (snd (reply up (length (w_calls w)) (ReqPrice geckoId))) as [[p |] |] eqn:Er.
    + destruct (truthy p) eqn:Hp.
      * eexists p, _. split; [reflexivity |]. right. left. exists geckoId. auto.
      * rewrite Hd. eexists d, _. split; [reflexivity |]. auto.
    + rewrite Hd. eexists d, _. split; [reflexivity |]. auto.
    + rewrite Hd. eexists d, _. split; [reflexivity |]. auto.
Qed.

Lemma getTokenPriceWithCache_returns (token : TokenType) (w : World) :
  exists p w', run up (PriceService.getTokenPriceWithCache token) w = (Ok p, w').
Proof. destruct (lookup_source token w) as (p & w' & H & _). eauto. Qed.

Lemma run_getTokenPrice (token : TokenType) (w : World) :
  run up (PriceService.getTokenPrice token) w
  = run up (PriceService.getTokenPriceWithCache token) w.
Proof.
  unfold PriceService.getTokenPrice. rewrite run_try_catch.
  destruct (getTokenPriceWithCache_returns token w) as (p & w' & ->). reflexivity.
Qed.

(** What a lookup leaves alone. *)
Lemma lookup_frame (token : TokenType) (w : World) :
  let w' := snd (run up (PriceService.getTokenPriceWithCache token) w) in
  dexService (w_state w') = dexService (w_state w) /\
  swapService (w_state w') = swapService (w_state w) /\
  defiService (w_state w') = defiService (w_state w) /\
  priceMarketDataCache (priceService (w_state w'))
  = priceMarketDataCache (priceService (w_state w)) /\
  (forall k, k <> toLowerCase (symbol token) ->
             priceCache (priceService (w_state w')) !! k
             = priceCache (priceService (w_state w)) !! k) /\
  w_clock w <= w_clock w'.
Proof.
  cbn zeta.
  destruct (after_rate_limit_caches w) as (Hc & Hd & Hs & Hf).
  pose proof (after_rate_limit_marketData w) as Hm.
  pose proof (after_rate_limit_clock w) as Hk.
  lookup_cases up token w.
  - cbn [snd]. repeat split; try reflexivity; lia.
  - destruct (snd (reply up (length (w_calls w)) (ReqPrice geckoId))) as [[p |] |];
      [destruct (truthy p) |..];
      cbn [snd w_state w_clock with_state tick log_call set_priceService
           PriceService.set_priceCache priceService dexService swapService defiService
           priceCache priceMarketDataCache];
      repeat split; try assumption; try lia;
      intros k Hk'; rewrite ?lookup_insert_ne by congruence; now rewrite Hc.
  - destruct (snd (reply up (length (w_calls w)) (ReqPrice geckoId))) as [[p |] |];
      [destruct (truthy p) |..];
      destruct (PriceService.fallback_price token);
      cbn [snd w_state w_clock with_state tick log_call set_priceService
           PriceService.set_priceCache priceService dexService swapService defiService
           priceCache priceMarketDataCache];
      repeat split; try assumption; try lia;
      intros k Hk'; rewrite ?lookup_insert_ne by congruence; now rewrite Hc.
Qed.

End Price_lookup_facts.

Section Price_lookups.
Import JS.
Context (up : Upstream).

(** X1.  A price lookup never rejects, so neither does [getTokenPrice],
    whose own fallback is never reached: the price is the cached one, the
    one the price API has just answered, or the static default of the
    token. *)
Theorem price_lookup_never_rejects (token : TokenType) (w : World) :
  exists p w',
    run up (PriceService.getTokenPriceWithCache token) w = (Ok p, w') /\
    run up (PriceService.getTokenPrice token) w = (Ok p, w') /\
    ((exists e, priceCache (priceService (w_state w)) !! toLowerCase (symbol token) = Some e /\
                p = price e) \/
     (exists geckoId,
         COINGECKO_IDS token = Some geckoId /\
         snd (reply up (length (w_calls w)) (ReqPrice geckoId)) = Some (Some p) /\
         truthy p = true) \/
     PriceService.fallback_price token = Some p).
Proof.
  destruct (lookup_source up token w) as (p & w' & H & Hs).
  exists p, w'. rewrite run_getTokenPrice. auto.
Qed.

(** X2.  When the entry of a token is five minutes old or more and the
    request for a new price fails (or carries no usable price), the lookup
    returns the stale price after one request; the entry keeps its old
    timestamp, so it is still stale for the next lookup. *)
Theorem stale_price_served_when_fetch_fails (token : TokenType) (geckoId : string)
    (w : World) (e : TokenPriceResponse) :
  priceCache (priceService (w_state w)) !! toLowerCase (symbol token) = Some e ->
  PriceService.CACHE_DURATION <= w_clock w - timestamp e ->
  COINGECKO_IDS token = Some geckoId ->
  (forall p, snd (reply up (length (w_calls w)) (ReqPrice geckoId)) = Some (Some p) ->
             truthy p = false) ->
  exists w',
    run up (PriceService.getTokenPriceWithCache token) w = (Ok (price e), w') /\
    priceCache (priceService (w_state w')) = priceCache (priceService (w_state w)) /\
    w_calls w' = w_calls w ++ [(w_clock (after_rate_limit w), ReqPrice geckoId)] /\
    PriceService.CACHE_DURATION <= w_clock w' - timestamp e.
Proof.
  intros He Hstale Hid Hbad.
  rewrite (lookup_miss up token w) by (right; exists e; split; [exact He | lia]).
  rewrite (run_fetchTokenPrice up token geckoId w Hid). cbn zeta.
  rewrite after_rate_limit_calls, He.
  destruct (after_rate_limit_caches w) as (Hc & _).
  pose proof (after_rate_limit_clock w) as Hk.
  pose proof (after_rate_limit_calls w) as Hcalls.
  assert (forall lat,
             w_clock w <= w_clock (tick lat (log_call (ReqPrice geckoId) (after_rate_limit w))))
    as Hclock by (intros lat; cbn [w_clock tick log_call]; lia).
  destruct (snd (reply up (length (w_calls w)) (ReqPrice geckoId))) as [[p |] |] eqn:Er;
    [rewrite (Hbad p eq_refl) |..];
    (eexists; split; [reflexivity |]);
    (split; [exact Hc |]);
    (split; [cbn [w_calls tick log_call]; now rewrite Hcalls |]);
    specialize (Hclock (fst (reply up (length (w_calls w)) (ReqPrice geckoId)))); lia.
Qed.

(** X3.  A price lookup touches nothing but the entry of its own token
    (and the time of the last request): the pool cache, the states of the
    other services, the market-data cache and the entries of the other
    tokens are as before, and the clock does not go back. *)
Theorem price_lookup_frame (token : TokenType) (w : World) :
  let w' := snd (run up (PriceService.getTokenPriceWithCache token) w) in
  dexService (w_state w') = dexService (w_state w) /\
  swapService (w_state w') = swapService (w_state w) /\
  defiService (w_state w') = defiService (w_state w) /\
  priceMarketDataCache (priceService (w_state w'))
  = priceMarketDataCache (priceService (w_state w)) /\
  (forall k, k <> toLowerCase (symbol token) ->
             priceCache (priceService (w_state w')) !! k
             = priceCache (priceService (w_state w)) !! k) /\
  w_clock w <= w_clock w'.
Proof. apply lookup_frame. Qed.

(** X4.  Two price fetches awaited one after the other issue their
    requests at least 1.1 s apart, whatever the tokens and however long
    the first answer takes. *)
Theorem sequential_fetches_spaced (a b : TokenType) (w : World) :
  let w1 := snd (run up (PriceService.fetchTokenPrice a) w) in
  let w2 := snd (run up (PriceService.fetchTokenPrice b) w1) in
  exists ida idb t1 t2,
    COINGECKO_IDS a = Some ida /\ COINGECKO_IDS b = Some idb /\
    w_calls w2 = w_calls w ++ [(t1, ReqPrice ida); (t2, ReqPrice idb)] /\
    PriceService.API_RATE_LIMIT <= t2 - t1.
Proof.
  cbn zeta.
  destruct (COINGECKO_IDS_total a) as [ida Ha].
  destruct (COINGECKO_IDS_total b) as [idb Hb].
  rewrite (fetch_world up a ida w Ha).
  set (w1 := tick _ (log_call (ReqPrice ida) (after_rate_limit w))).
  rewrite (fetch_world up b idb w1 Hb).
  exists ida, idb, (w_clock (after_rate_limit w)), (w_clock (after_rate_limit w1)).
  split; [exact Ha |]. split; [exact Hb |]. split.
  - cbn [w_calls tick log_call]. rewrite after_rate_limit_calls.
    subst w1. cbn [w_calls tick log_call]. rewrite after_rate_limit_calls.
    now rewrite <- app_assoc.
  - pose proof (after_rate_limit_spacing w1) as Hs.
    assert (lastApiCall (priceService (w_state w1)) = w_clock (after_rate_limit w)) as El.
    { subst w1. cbn [w_state tick log_call]. apply after_rate_limit_lastApiCall. }
    lia.
Qed.

Lemma moderate_pos (q : Q) : moderate q -> (0 < q)%Q.
Proof.
  intros [H _]. eapply Qlt_le_trans; [| exact H]. reflexivity.
Qed.

Lemma Math_max_zero_not_negative (y : number) :
  ltb (Math_max (Fin 0) y) (Fin 0) = false.
Proof.
  destruct y as [| | |q]; try reflexivity.
  unfold Math_max. destruct (ltb (Fin 0) (Fin q)) eqn:E; [| reflexivity].
  unfold ltb in *. destruct (0 ?= q)%Q eqn:C; try discriminate.
  apply Qlt_alt in C. destruct (q ?= 0)%Q eqn:C2; try reflexivity.
  apply Qlt_alt in C2. lra.
Qed.

(** X5.  [calculatePriceImpact] never rejects and never returns a negative
    number.  With prices and an input of moderate magnitude (between
    1e-100 and 1e100) and a non-negative output, it returns a percentage
    between 0 and 100 that is, up to a billionth of a percentage point,
    the shortfall of the output against the price-ratio output, and 0 when
    there is none. *)
Theorem calculatePriceImpact_never_negative (tokenIn tokenOut : TokenType)
    (inputAmount outputAmount : number) (w : World) :
  (exists x w',
      run up (PriceService.calculatePriceImpact tokenIn tokenOut inputAmount outputAmount) w
      = (Ok x, w') /\
      ltb x (Fin 0) = false) /\
  (forall a o pin pout w1 w2,
      inputAmount = Fin a -> outputAmount = Fin o ->
      run up (PriceService.getTokenPrice tokenIn) w = (Ok (Fin pin), w1) ->
      run up (PriceService.getTokenPrice tokenOut) w1 = (Ok (Fin pout), w2) ->
      moderate a -> moderate pin -> moderate pout -> (0 <= o)%Q ->
      exists x,
        run up (PriceService.calculatePriceImpact tokenIn tokenOut inputAmount outputAmount) w
        = (Ok (Fin x), w2) /\
        (0 <= x <= 100)%Q /\
        (a * pin / pout <= o -> x <= 1 # 1000000000)%Q /\
        (o < a * pin / pout ->
         - (1 # 1000000000)
         <= x - (a * pin / pout - o) / (a * pin / pout) * 100
         <= 1 # 1000000000)%Q).
Proof.
  unfold PriceService.calculatePriceImpact. split.
  - rewrite run_try_catch, run_bind, run_getTokenPrice.
    destruct (getTokenPriceWithCache_returns up tokenIn w) as (pin & w1 & ->).
    rewrite run_bind, run_getTokenPrice.
    destruct (getTokenPriceWithCache_returns up tokenOut w1) as (pout & w2 & ->).
    rewrite run_ret. eexists. eexists. split; [reflexivity |].
    apply Math_max_zero_not_negative.
  - intros a o pin pout w1 w2 -> -> H1 H2 Ma Mpin Mpout Ho.
    pose proof (moderate_pos a Ma) as Ha.
    pose proof (moderate_pos pin Mpin) as Hpin.
    pose proof (moderate_pos pout Mpout) as Hpout.
    rewrite run_try_catch, run_bind, H1, run_bind, H2, run_ret.
    cbn [mul]. rewrite div_Fin_pos by exact Hpout.
    set (ex := (a * pin / pout)%Q).
    assert (0 < ex)%Q as Hex by (subst ex; apply Qdiv_pos; nra).
    cbn [sub neg add]. rewrite div_Fin_pos by exact Hex. cbn [mul].
    assert ((ex + - o) / ex == 1 - o / ex)%Q as Ediv by (field; lra).
    assert ((ex - o) / ex == 1 - o / ex)%Q as Ediv' by (field; lra).
    assert (0 <= o / ex)%Q as Hq by (apply Qle_shift_div_l; lra).
    unfold Math_max.
    destruct (ltb (Fin 0) (Fin ((ex + - o) / ex * 100))) eqn:E.
    + unfold ltb in E. destruct (0 ?= (ex + - o) / ex * 100)%Q eqn:C; try discriminate.
      apply Qlt_alt in C.
      eexists. split; [reflexivity |]. split; [split; [lra |] |split].
      * rewrite Ediv. lra.
      * intros Hle. exfalso.
        assert (1 <= o / ex)%Q by (apply Qle_shift_div_l; lra).
        rewrite Ediv in C. lra.
      * intros _. rewrite Ediv, Ediv'. lra.
    + exists 0%Q. split; [reflexivity |]. split; [lra |]. split; [lra |].
      intros Hlt. exfalso.
      assert (o / ex < 1)%Q by (apply Qlt_shift_div_r; lra).
      unfold ltb in E.
      destruct (0 ?= (ex + - o) / ex * 100)%Q eqn:C; try discriminate.
      * apply Qeq_alt in C. rewrite Ediv in C. lra.
      * apply Qgt_alt in C. rewrite Ediv in C. lra.
Qed.

End Price_lookups.

Section Simple_price_impact.
Import JS.

Lemma ltb_Fin_cases (a b : Q) :
  (ltb (Fin a) (Fin b) = true /\ (a < b)%Q) \/ (ltb (Fin a) (Fin b) = false /\ (b <= a)%Q).
Proof.
  destruct (Qlt_le_dec a b) as [H | H].
  - left. split; [now apply ltb_Fin_true | exact H].
  - right. split; [now apply ltb_Fin_false | exact H].
Qed.

Lemma Math_clamp (lo hi y : Q) :
  (lo <= hi)%Q ->
  exists r, Math_min (Fin hi) (Math_max (Fin lo) (Fin y)) = Fin r /\
            (lo <= r <= hi)%Q /\ ((lo <= y <= hi)%Q -> (r == y)%Q).
Proof.
  intros Hlh. unfold Math_max.
  destruct (ltb_Fin_cases lo y) as [[-> H1] | [-> H1]]; unfold Math_min.
  - destruct (ltb_Fin_cases y hi) as [[-> H2] | [-> H2]].
    + exists y. split; [reflexivity |]. split; [lra | reflexivity].
    + exists hi. split; [reflexivity |]. split; [lra | lra].
  - destruct (ltb_Fin_cases lo hi) as [[-> H2] | [-> H2]].
    + exists lo. split; [reflexivity |]. split; [lra | lra].
    + exists hi. split; [reflexivity |]. split; [lra | lra].
Qed.



End Simple_price_impact.

Section Price_lookups_evaluation.
Import JS.

Lemma stale_price_served_when_fetch_fails_witness :
  exists w',
    run offline (PriceService.getTokenPriceWithCache APT) (at_time (t0 + 300000) warm_world)
    = (Ok (Fin 6.75), w') /\
    priceCache (priceService (w_state w')) = priceCache (priceService warm_state) /\
    w_calls w' = [] ++ [(w_clock (after_rate_limit (at_time (t0 + 300000) warm_world)),
                         ReqPrice "aptos")] /\
    PriceService.CACHE_DURATION <= w_clock w' - (t0 - 1000).
Proof.
  apply (stale_price_served_when_fetch_fails offline APT "aptos"
           (at_time (t0 + 300000) warm_world)
           {| price := Fin 6.75; timestamp := t0 - 1000 |}).
  - reflexivity.
  - vm_compute. discriminate.
  - reflexivity.
  - intros p H. discriminate H.
Defined.

Lemma calculatePriceImpact_never_negative_witness :
  moderate 10 /\ moderate 6.75 /\ moderate 1 /\
  exists x,
    run offline (PriceService.calculatePriceImpact APT USDC (Fin 10) (Fin 67)) warm_world
    = (Ok (Fin x), warm_world) /\
    (0 <= x <= 100)%Q /\
    (10 * 6.75 / 1 <= 67 -> x <= 1 # 1000000000)%Q /\
    (67 < 10 * 6.75 / 1 ->
     - (1 # 1000000000)
     <= x - (10 * 6.75 / 1 - 67) / (10 * 6.75 / 1) * 100
     <= 1 # 1000000000)%Q.
Proof.
  assert (moderate 10 /\ moderate 6.75 /\ moderate 1) as (M1 & M2 & M3)
    by (repeat split; vm_compute; discriminate).
  split; [exact M1 |]. split; [exact M2 |]. split; [exact M3 |].
  apply (proj2 (calculatePriceImpact_never_negative offline APT USDC (Fin 10) (Fin 67)
                  warm_world) 10%Q 67%Q 6.75%Q 1%Q warm_world warm_world);
    try reflexivity; try assumption; vm_compute; discriminate.
Defined.

End Price_lookups_evaluation.

(* ===================================================================== *)
(** * The pool cache and the fan-out                                      *)
(* ===================================================================== *)

Section Pool_cache.
Import JS.
Context (up : Upstream).

Lemma run_fetch_pool (k : DexKey) (w : World) :
  run up (DexService.fetch_pool k) w =
  (Ok (name (APTOS_DEXES k),
       match snd (reply up (length (w_calls w)) (ReqPool (liquiditySource (APTOS_DEXES k)))) with
       | Some data => data
       | None => None
       end),
   tick (fst (reply up (length (w_calls w)) (ReqPool (liquiditySource (APTOS_DEXES k)))))
     (log_call (ReqPool (liquiditySource (APTOS_DEXES k))) w)).
Proof.
  unfold DexService.fetch_pool. rewrite run_try_catch, run_bind, run_await.
  destruct (snd (reply up (length (w_calls w))
                   (ReqPool (liquiditySource (APTOS_DEXES k))))); reflexivity.
Qed.

Lemma run_fetch_pools (ks : list DexKey) :
  forall w,
  exists w',
    run up (promise_all DexService.fetch_pool ks) w
    = (Ok (pool_results up (length (w_calls w)) ks), w') /\
    w_state w' = w_state w /\
    map snd (w_calls w') = map snd (w_calls w) ++ map pool_request ks /\
    w_clock w <= w_clock w'.
Proof.
  induction ks as [| k ks IH]; intros w.
  - exists w. cbn. rewrite app_nil_r. repeat split; reflexivity.
  - cbn [promise_all pool_results]. rewrite run_bind, run_fetch_pool, run_bind.
    set (w1 := tick _ (log_call (ReqPool (liquiditySource (APTOS_DEXES k))) w)).
    destruct (IH w1) as (w2 & -> & Es & Ec & Ek).
    assert (length (w_calls w1) = S (length (w_calls w))) as El.
    { subst w1. cbn [w_calls tick log_call]. rewrite length_app. cbn. lia. }
    rewrite El, run_ret. exists w2. split; [reflexivity |].
    split; [now rewrite Es |]. split.
    + rewrite Ec. subst w1. cbn [w_calls tick log_call map].
      rewrite map_app. cbn [map snd]. now rewrite <- app_assoc.
    + subst w1. cbn [w_clock tick log_call] in Ek. lia.
Qed.

Lemma pool_answer_joined (up' : Upstream) (n0 : nat) (k : DexKey) :
  pool_answer up' n0 k
  = match snd (reply up' (n0 + dex_index k)%nat (ReqPool (liquiditySource (APTOS_DEXES k)))) with
    | Some data => data
    | None => None
    end.
Proof.
  unfold pool_answer.
  destruct (snd (reply up' (n0 + dex_index k)%nat
                   (ReqPool (liquiditySource (APTOS_DEXES k))))) as [[d |] |]; reflexivity.
Qed.

Lemma store_pools_five (s0 s1 s2 s3 s4 : string) (a0 a1 a2 a3 a4 : option PoolData) :
  NoDup [s0; s1; s2; s3; s4] ->
  let cache := DexService.store_pools [(s0, a0); (s1, a1); (s2, a2); (s3, a3); (s4, a4)] ∅ in
  cache !! s0 = a0 /\ cache !! s1 = a1 /\ cache !! s2 = a2 /\ cache !! s3 = a3 /\
  cache !! s4 = a4 /\
  (forall s, s <> s0 -> s <> s1 -> s <> s2 -> s <> s3 -> s <> s4 -> cache !! s = None).
Proof.
  intros Hnd. cbn zeta.
  assert (s0 <> s1 /\ s0 <> s2 /\ s0 <> s3 /\ s0 <> s4 /\ s1 <> s2 /\ s1 <> s3 /\
          s1 <> s4 /\ s2 <> s3 /\ s2 <> s4 /\ s3 <> s4) as (? & ? & ? & ? & ? & ? & ? & ? & ? & ?).
  { repeat match goal with
           | H : NoDup (_ :: _) |- _ => apply NoDup_cons in H as [? ?]
           end.
    repeat match goal with
           | H : _ ∉ _ :: _ |- _ => apply not_elem_of_cons in H as [? ?]
           end.
    repeat split; congruence. }
  destruct a0, a1, a2, a3, a4; cbn [DexService.store_pools];
    repeat split;
    try (intros s ? ? ? ? ?);
    repeat first [ rewrite lookup_insert_eq
                 | rewrite lookup_insert_ne by congruence
                 | rewrite lookup_empty ];
    reflexivity.
Qed.

Lemma store_pools_dex_entries (n : nat) :
  (forall k, DexService.store_pools (pool_results up n dex_entries) ∅
             !! name (APTOS_DEXES k) = pool_answer up n k) /\
  (forall s, (forall k, s <> name (APTOS_DEXES k)) ->
             DexService.store_pools (pool_results up n dex_entries) ∅ !! s = None).
Proof.
  unfold dex_entries. cbn [pool_results].
  match goal with
  | |- context [DexService.store_pools
                  [(?s0, ?a0); (?s1, ?a1); (?s2, ?a2); (?s3, ?a3); (?s4, ?a4)] ∅] =>
      destruct (store_pools_five s0 s1 s2 s3 s4 a0 a1 a2 a3 a4)
        as (H0 & H1 & H2 & H3 & H4 & Hout)
  end.
  { cbn [APTOS_DEXES name].
    repeat (apply NoDup_cons; split;
            [rewrite ?not_elem_of_cons; repeat split;
             first [discriminate | apply not_elem_of_nil] |]).
    apply NoDup_nil_2. }
  split.
  - intros k. rewrite pool_answer_joined.
    destruct k; cbn [dex_index];
      rewrite ?Nat.add_0_r, ?Nat.add_1_r,
        ?(Nat.add_comm n 2), ?(Nat.add_comm n 3), ?(Nat.add_comm n 4);
      cbn [Nat.add]; assumption.
  - intros s Hs.
    apply Hout; [apply (Hs PANCAKE) | apply (Hs LIQUIDSWAP) | apply (Hs AUX)
                 | apply (Hs THALA) | apply (Hs PANORA)].
Qed.

Lemma pool_cache_fresh (w : World) :
  poolCache (dexService (w_state w)) <> ∅ ->
  w_clock w - poolCacheTimestamp (dexService (w_state w)) < DexService.POOL_CACHE_DURATION ->
  run up DexService.fetchPoolData w = (Ok tt, w).
Proof.
  intros Hne Hfresh. unfold DexService.fetchPoolData.
  rewrite run_bind, run_dateNow, run_bind, run_gets.
  assert ((0 <? Z.of_nat (size (poolCache (dexService (w_state w))))) = true) as ->.
  { apply Z.ltb_lt.
    assert (size (poolCache (dexService (w_state w))) <> 0%nat)
      by (intros H; apply map_size_empty_iff in H; contradiction).
    lia. }
  apply Z.ltb_lt in Hfresh. rewrite Hfresh. reflexivity.
Qed.

Lemma pool_cache_stale (w : World) :
  poolCache (dexService (w_state w)) = ∅ \/
  DexService.POOL_CACHE_DURATION <= w_clock w - poolCacheTimestamp (dexService (w_state w)) ->
  exists w1,
    run up (promise_all DexService.fetch_pool dex_entries) w
    = (Ok (pool_results up (length (w_calls w)) dex_entries), w1) /\
    w_state w1 = w_state w /\
    map snd (w_calls w1) = map snd (w_calls w) ++ map pool_request dex_entries /\
    w_clock w <= w_clock w1 /\
    run up DexService.fetchPoolData w =
    (Ok tt,
     with_state (set_dexService (fun d =>
       {| poolCache := DexService.store_pools (pool_results up (length (w_calls w)) dex_entries) ∅;
          poolCacheTimestamp := w_clock w;
          dex_isTestnet := dex_isTestnet d |})) w1).
Proof.
  intros Hstale.
  destruct (run_fetch_pools dex_entries w) as (w1 & Hrun & Es & Ec & Ek).
  exists w1. split; [exact Hrun |]. split; [exact Es |]. split; [exact Ec |].
  split; [exact Ek |].
  unfold DexService.fetchPoolData.
  rewrite run_bind, run_dateNow, run_bind, run_gets.
  assert ((0 <? Z.of_nat (size (poolCache (dexService (w_state w)))))
          && (w_clock w - poolCacheTimestamp (dexService (w_state w))
              <? DexService.POOL_CACHE_DURATION) = false) as ->.
  { destruct Hstale as [-> | Hs].
    - reflexivity.
    - apply Z.ltb_ge in Hs. rewrite Hs. apply andb_false_r. }
  rewrite run_try_catch, run_bind, Hrun, run_modify. reflexivity.
Qed.

Lemma fetchPoolData_returns (w : World) :
  exists w', run up DexService.fetchPoolData w = (Ok tt, w') /\
             priceService (w_state w') = priceService (w_state w) /\
             swapService (w_state w') = swapService (w_state w) /\
             defiService (w_state w') = defiService (w_state w).
Proof.
  destruct (decide (poolCache (dexService (w_state w)) = ∅)) as [He | Hne].
  - destruct (pool_cache_stale w (or_introl He)) as (w1 & _ & Es & _ & _ & ->).
    eexists. split; [reflexivity |]. cbn. now rewrite Es.
  - destruct (Z_lt_ge_dec (w_clock w - poolCacheTimestamp (dexService (w_state w)))
                DexService.POOL_CACHE_DURATION) as [Hf | Hs].
    + rewrite (pool_cache_fresh w Hne Hf). exists w. auto.
    + assert (DexService.POOL_CACHE_DURATION
              <= w_clock w - poolCacheTimestamp (dexService (w_state w))) as Hs' by lia.
      destruct (pool_cache_stale w (or_intror Hs')) as (w1 & _ & Es & _ & _ & ->).
      eexists. split; [reflexivity |]. cbn. now rewrite Es.
Qed.

(** X7.  While the pool cache is not empty and younger than five minutes,
    [fetchPoolData] makes no request and changes nothing.  Otherwise it
    asks the liquidity source of each of the five DEXes, in the order of
    [APTOS_DEXES], and replaces the cache: afterwards the cache holds, for
    each DEX, the payload its request was answered with, and nothing for a
    DEX whose request failed or was answered without one, whatever was
    cached before; the timestamp is the time at which the call started.
    It never rejects. *)
Theorem pool_cache_refresh (w : World) :
  let d := dexService (w_state w) in
  (poolCache d <> ∅ ->
   w_clock w - poolCacheTimestamp d < DexService.POOL_CACHE_DURATION ->
   run up DexService.fetchPoolData w = (Ok tt, w)) /\
  (poolCache d = ∅ \/ DexService.POOL_CACHE_DURATION <= w_clock w - poolCacheTimestamp d ->
   exists w',
     run up DexService.fetchPoolData w = (Ok tt, w') /\
     (forall k, poolCache (dexService (w_state w')) !! name (APTOS_DEXES k)
                = pool_answer up (length (w_calls w)) k) /\
     (forall s, (forall k, s <> name (APTOS_DEXES k)) ->
                poolCache (dexService (w_state w')) !! s = None) /\
     poolCacheTimestamp (dexService (w_state w')) = w_clock w /\
     map snd (w_calls w') = map snd (w_calls w) ++ map pool_request dex_entries /\
     priceService (w_state w') = priceService (w_state w)).
Proof.
  cbn zeta. split; [apply pool_cache_fresh |].
  intros Hstale.
  destruct (pool_cache_stale w Hstale) as (w1 & _ & Es & Ec & _ & ->).
  destruct (store_pools_dex_entries (length (w_calls w))) as [Hin Hout].
  eexists. split; [reflexivity |].
  cbn [w_state w_calls with_state set_dexService dexService poolCache poolCacheTimestamp
       priceService].
  repeat split; try assumption; try reflexivity. now rewrite Es.
Qed.

End Pool_cache.

Section Pool_cache_evaluation.
Import JS.

Lemma pool_cache_refresh_witness :
  run pancake_pool_only DexService.fetchPoolData warm_world = (Ok tt, warm_world) /\
  exists w',
    run pancake_pool_only DexService.fetchPoolData (at_time (t0 + 300000) two_pools_world)
    = (Ok tt, w') /\
    poolCache (dexService (w_state w')) !! "PancakeSwap"
    = Some {| tvl := Some (Fin 3000000) |} /\
    poolCache (dexService (w_state w')) !! "Panora" = None /\
    poolCacheTimestamp (dexService (w_state w')) = t0 + 300000 /\
    map snd (w_calls w')
    = [ReqPool "PancakeSwap AMM"; ReqPool "Liquidswap AMM"; ReqPool "AUX AMM";
       ReqPool "Thala AMM"; ReqPool "Panora DEX Aggregator"].
Proof.
  split.
  - apply (proj1 (pool_cache_refresh pancake_pool_only warm_world)).
    + intros H. apply (f_equal (fun m => m !! "PancakeSwap")) in H.
      vm_compute in H. discriminate H.
    + vm_compute. reflexivity.
  - destruct (proj2 (pool_cache_refresh pancake_pool_only
                       (at_time (t0 + 300000) two_pools_world)))
      as (w' & Hrun & Hin & _ & Hts & Hcalls & _).
    + right. vm_compute. discriminate.
    + exists w'. split; [exact Hrun |].
      split; [exact (Hin PANCAKE) |]. split; [exact (Hin PANORA) |].
      split; [exact Hts | exact Hcalls].
Defined.

End Pool_cache_evaluation.

Section Fanout_shape.
Import JS.
Context (Math_log10 : number -> number) (up : Upstream).

Lemma quote_prices_returns (tokenIn tokenOut : TokenType) (w : World) :
  exists pin pout w',
    run up (DexService.quote_prices tokenIn tokenOut) w = (Ok (pin, pout), w') /\
    dexService (w_state w') = dexService (w_state w) /\
    swapService (w_state w') = swapService (w_state w) /\
    defiService (w_state w') = defiService (w_state w).
Proof.
  unfold DexService.quote_prices. rewrite run_pbind.
  pose proof (lookup_frame up tokenIn w) as F1. cbn zeta in F1.
  destruct (getTokenPriceWithCache_returns up tokenIn w) as (pin & w1 & E1).
  rewrite E1 in *. cbn [snd] in F1. rewrite run_pbind.
  pose proof (lookup_frame up tokenOut w1) as F2. cbn zeta in F2.
  destruct (getTokenPriceWithCache_returns up tokenOut w1) as (pout & w2 & E2).
  rewrite E2 in *. cbn [snd] in F2. rewrite run_ret.
  destruct F1 as (D1 & S1 & T1 & _). destruct F2 as (D2 & S2 & T2 & _).
  exists pin, pout, w2. repeat split; congruence.
Qed.

Lemma getDexQuote_shape (k : DexKey) (tokenIn tokenOut : TokenType) (amount : number)
    (w : World) :
  exists oq w',
    run up (DexService.getDexQuote Math_log10 k tokenIn tokenOut amount) w = (Ok oq, w') /\
    dexService (w_state w') = dexService (w_state w) /\
    swapService (w_state w') = swapService (w_state w) /\
    defiService (w_state w') = defiService (w_state w) /\
    (poolCache (dexService (w_state w)) !! name (APTOS_DEXES k) = None -> oq = None) /\
    (forall q, oq = Some q ->
               dex q = dex_key_name k /\ dexName q = name (APTOS_DEXES k) /\
               exists pd, poolCache (dexService (w_state w)) !! name (APTOS_DEXES k) = Some pd).
Proof.
  unfold DexService.getDexQuote. rewrite run_try_catch, run_bind.
  destruct (quote_prices_returns tokenIn tokenOut w) as (pin & pout & w1 & -> & D & S & T).
  cbn [fst snd].
  destruct (negb (truthy pin) || negb (truthy pout)).
  - rewrite run_ret. exists None, w1. repeat split; try assumption; discriminate.
  - rewrite run_bind, run_gets, D.
    destruct (poolCache (dexService (w_state w)) !! name (APTOS_DEXES k)) as [pd |] eqn:Ep;
      rewrite run_ret.
    + eexists. exists w1. split; [reflexivity |].
      split; [exact D |]. split; [exact S |]. split; [exact T |].
      split; [discriminate |].
      intros q' Hq. inversion Hq. cbn. eauto.
    + exists None, w1. split; [reflexivity |].
      split; [exact D |]. split; [exact S |]. split; [exact T |].
      split; [reflexivity | discriminate].
Qed.

Lemma quotes_shape (tokenIn tokenOut : TokenType) (amount : number) (ks : list DexKey) :
  forall w,
  exists qs w',
    run up (promise_all (fun k => DexService.getDexQuote Math_log10 k tokenIn tokenOut amount) ks) w
    = (Ok qs, w') /\
    dexService (w_state w') = dexService (w_state w) /\
    swapService (w_state w') = swapService (w_state w) /\
    defiService (w_state w') = defiService (w_state w) /\
    Forall2 (fun k oq =>
               (poolCache (dexService (w_state w)) !! name (APTOS_DEXES k) = None -> oq = None) /\
               forall q, oq = Some q ->
                 dex q = dex_key_name k /\ dexName q = name (APTOS_DEXES k) /\
                 exists pd, poolCache (dexService (w_state w)) !! name (APTOS_DEXES k) = Some pd)
            ks qs.
Proof.
  induction ks as [| k ks IH]; intros w.
  - exists [], w. repeat split. constructor.
  - cbn [promise_all]. rewrite run_bind.
    destruct (getDexQuote_shape k tokenIn tokenOut amount w)
      as (oq & w1 & -> & D1 & S1 & T1 & Hnone & Hsome).
    rewrite run_bind. destruct (IH w1) as (qs & w2 & -> & D2 & S2 & T2 & Hall).
    rewrite run_ret. exists (oq :: qs), w2.
    split; [reflexivity |]. repeat split; try congruence.
    constructor; [split; assumption |].
    rewrite D1 in Hall. exact Hall.
Qed.

(** X8.  [getAllDexQuotes] never rejects.  It returns one slot for each of
    the five DEXes, in the order of [APTOS_DEXES]; the slot of a DEX holds
    a quote only when the pool cache (as [fetchPoolData] has left it) has a
    payload for that DEX, and then the quote carries the key and the name
    of that DEX. *)
Theorem getAllDexQuotes_shape (tokenIn tokenOut : TokenType) (amount : number) (w : World) :
  exists qs w',
    run up (DexService.getAllDexQuotes Math_log10 tokenIn tokenOut amount) w = (Ok qs, w') /\
    Forall2 (fun k oq =>
               (poolCache (dexService (w_state w')) !! name (APTOS_DEXES k) = None -> oq = None) /\
               forall q, oq = Some q ->
                 dex q = dex_key_name k /\ dexName q = name (APTOS_DEXES k) /\
                 exists pd, poolCache (dexService (w_state w')) !! name (APTOS_DEXES k) = Some pd)
            dex_entries qs.
Proof.
  unfold DexService.getAllDexQuotes. rewrite run_bind.
  destruct (fetchPoolData_returns up w) as (w1 & -> & _).
  destruct (quotes_shape tokenIn tokenOut amount dex_entries w1)
    as (qs & w2 & -> & D & _ & _ & Hall).
  exists qs, w2. split; [reflexivity |]. now rewrite D.
Qed.

End Fanout_shape.

Section Quote_bounds.
Import JS.

Lemma fee_positive (k : DexKey) : (0 < fee (APTOS_DEXES k))%Q.
Proof. destruct k; vm_compute; reflexivity. Qed.

(** X9.  With an amount and prices of moderate magnitude (between 1e-100
    and 1e100) and a pool TVL that is absent or positive, the output of a
    synthetic quote (before it is rounded to six digits) is below the
    price-ratio output, and at least 80% of the price-ratio output less
    the fee of the DEX: liquidity and slippage each take at most 10%. *)
Theorem quoteOutput_bounds (Math_log10 : number -> number) (k : DexKey) (a p o : Q)
    (pd : PoolData) :
  log10_ok Math_log10 ->
  moderate a -> moderate p -> moderate o -> pool_ok pd ->
  exists x,
    DexService.quoteOutput Math_log10 k (Fin a) (Fin p) (Fin o) pd = Fin x /\
    (0.8 * ((1 - fee (APTOS_DEXES k)) * (a * p / o)) <= x)%Q /\
    (x < a * p / o)%Q.
Proof.
  intros Hlog Ma Mp Mo Hpd.
  pose proof (moderate_pos a Ma) as Ha.
  pose proof (moderate_pos p Mp) as Hp.
  pose proof (moderate_pos o Mo) as Ho.
  destruct (slippageFactor_range a p pd Ha Hp Hpd) as (s & Es & Hs).
  destruct (liquidityFactor_range Math_log10 Hlog pd Hpd) as (l & El & Hl).
  unfold DexService.quoteOutput. rewrite Es, El. cbn [mul sub neg add].
  rewrite !div_Fin_pos by assumption. cbn [mul].
  eexists. split; [reflexivity |].
  pose proof (fee_below_one k) as Hf.
  pose proof (fee_positive k) as Hf0.
  set (f := fee (APTOS_DEXES k)) in *.
  assert (0 < a * p / o)%Q as Hu by (apply Qdiv_pos; nra).
  set (u := (a * p / o)%Q) in *.
  assert (a * (1 + - f) / a == 1 - f)%Q as Ev by (field; lra).
  rewrite Ev.
  assert (0.81 <= l * (1 + - s))%Q as Hm1 by nra.
  assert (l * (1 + - s) < 1)%Q as Hm2 by nra.
  set (m := (l * (1 + - s))%Q) in *.
  assert (0 < (1 - f) * u)%Q as Hc by nra.
  assert ((1 - f) * u < u)%Q as Hcu by nra.
  assert (u * l * (1 + - s) * (1 - f) == ((1 - f) * u) * m)%Q as Ex by (subst m; ring).
  rewrite Ex. set (c := ((1 - f) * u)%Q) in *.
  split; nra.
Qed.

Lemma quoteOutput_bounds_witness :
  moderate 100 /\ moderate 6.75 /\ moderate 1 /\
  exists x,
    DexService.quoteOutput log10_floor PANCAKE (Fin 100) (Fin 6.75) (Fin 1)
      {| tvl := Some (Fin 2000000) |} = Fin x /\
    (0.8 * ((1 - fee (APTOS_DEXES PANCAKE)) * (100 * 6.75 / 1)) <= x)%Q /\
    (x < 100 * 6.75 / 1)%Q.
Proof.
  assert (moderate 100 /\ moderate 6.75 /\ moderate 1) as (M1 & M2 & M3)
    by (repeat split; vm_compute; discriminate).
  split; [exact M1 |]. split; [exact M2 |]. split; [exact M3 |].
  apply (quoteOutput_bounds log10_floor PANCAKE 100 6.75 1 {| tvl := Some (Fin 2000000) |}).
  - apply log10_floor_ok.
  - exact M1.
  - exact M2.
  - exact M3.
  - vm_compute. reflexivity.
Defined.

End Quote_bounds.

(* ===================================================================== *)
(** * The aggregator tier                                                 *)
(* ===================================================================== *)

Section Aggregator_tier.
Import JS.
Context (Math_log10 : number -> number) (up : Upstream).

(** The aggregator tier, in terms of what it was answered. *)
Lemma run_try_panora (tokenIn tokenOut : TokenType) (amount : string) (w : World) :
  run up (SwapService.try_panora tokenIn tokenOut amount) w =
  (Ok (match panora_routes up w tokenIn tokenOut amount with
       | Some (data, best, rest) =>
           let isTestnet := swap_isTestnet (swapService (w_state w)) in
           SwapService.route_of_panora isTestnet tokenIn tokenOut
             (DexService.getTokenAddress tokenIn isTestnet)
             (DexService.getTokenAddress tokenOut isTestnet)
             amount (Some (Some data))
       | None => None
       end),
   after_panora up w tokenIn tokenOut amount).
Proof.
  unfold SwapService.try_panora, panora_routes, after_panora, panora_answer, panora_request.
  rewrite run_bind, run_gets.
  destruct (panoraClient (swapService (w_state w))) as [c |]; [| reflexivity].
  rewrite run_try_catch, run_bind, run_await. cbn zeta.
  destruct (snd (reply up (length (w_calls w)) _)) as [[[data |] |] |];
    rewrite ?run_bind, ?run_gets, ?run_ret; try reflexivity.
  cbn [w_state tick log_call].
  unfold SwapService.route_of_panora.
  destruct (pd_routes data) as [[| best rest] |] eqn:E; cbn iota beta; rewrite ?E;
    reflexivity.
Qed.

(** X10.  When the Panora client is there and its quote carries at least
    one route, [getBestSwapRoute] returns the route built from that answer
    after this one request: no price or pool request is made and no cache
    is touched.  The output and the payload are those of the answer, the
    first route names the DEX, the other routes are the alternatives, and
    the route carries the descriptions of both tokens. *)
Theorem panora_route_short_circuits (tokenIn tokenOut : TokenType) (amount : string)
    (w : World) (c : PanoraClient) (data : PanoraData) (best : PanoraRoute)
    (rest : list PanoraRoute) :
  panoraClient (swapService (w_state w)) = Some c ->
  panora_answer up w tokenIn tokenOut amount = Some (Some (Some data)) ->
  pd_routes data = Some (best :: rest) ->
  exists r w',
    run up (SwapService.getBestSwapRoute Math_log10 tokenIn tokenOut amount) w = (Ok r, w') /\
    w_state w' = w_state w /\
    w_calls w' = w_calls w ++ [(w_clock w, panora_request (w_state w) tokenIn tokenOut amount)] /\
    expectedOutput r = str_or (pd_toTokenAmount data) "0" /\
    route_dex r = str_or (pr_name best) "Aptos DEX" /\
    alternativeRoutes r = Some (map SwapService.alternative_of_panora rest) /\
    swapPayload r = match pd_transactionPayload data with
                    | Some p => Some p
                    | None => pd_rawTransaction data
                    end /\
    option_map ti_symbol (route_tokenIn r) = Some (symbol tokenIn) /\
    option_map ti_symbol (route_tokenOut r) = Some (symbol tokenOut).
Proof.
  intros Hc Ha Hr.
  rewrite run_getBestSwapRoute, run_try_panora.
  unfold panora_routes, after_panora. rewrite Hc, Ha, Hr.
  unfold SwapService.route_of_panora. rewrite Hr. cbn [default].
  eexists. eexists. split; [reflexivity |].
  repeat split.
Qed.

(** X11.  When there is no Panora client, no aggregator request is made
    and the route is the one of the fan-out tier; when the request fails,
    or its answer has no data or no route, the route is the one that the
    fan-out tier produces after that request. *)
Theorem no_panora_route_falls_through (tokenIn tokenOut : TokenType) (amount : string)
    (w : World) :
  (panoraClient (swapService (w_state w)) = None ->
   run up (SwapService.getBestSwapRoute Math_log10 tokenIn tokenOut amount) w
   = run up (SwapService.getFallbackSwapRoute Math_log10 tokenIn tokenOut amount) w) /\
  (forall c,
      panoraClient (swapService (w_state w)) = Some c ->
      (forall data best rest,
          panora_answer up w tokenIn tokenOut amount = Some (Some (Some data)) ->
          pd_routes data <> Some (best :: rest)) ->
      run up (SwapService.getBestSwapRoute Math_log10 tokenIn tokenOut amount) w
      = run up (SwapService.getFallbackSwapRoute Math_log10 tokenIn tokenOut amount)
          (tick (fst (reply up (length (w_calls w))
                        (panora_request (w_state w) tokenIn tokenOut amount)))
             (log_call (panora_request (w_state w) tokenIn tokenOut amount) w))).
Proof.
  split.
  - intros Hc. rewrite run_getBestSwapRoute, run_try_panora.
    unfold panora_routes, after_panora. now rewrite Hc.
  - intros c Hc Hno. rewrite run_getBestSwapRoute, run_try_panora.
    unfold panora_routes, after_panora. rewrite Hc.
    destruct (panora_answer up w tokenIn tokenOut amount) as [[[data |] |] |] eqn:Ea;
      try reflexivity.
    destruct (pd_routes data) as [[| best rest] |] eqn:Er; try reflexivity.
    exfalso. exact (Hno data best rest eq_refl Er).
Qed.

(** A route that does not come from Panora carries no payload and no
    token descriptions. *)
Lemma fanout_route_plain (tokenIn tokenOut : TokenType) (amount : string) (w w' : World)
    (r : SwapRoute) :
  run up (SwapService.getFallbackSwapRoute Math_log10 tokenIn tokenOut amount) w = (Ok r, w') ->
  swapPayload r = None /\ route_tokenIn r = None /\ route_tokenOut r = None.
Proof.
  rewrite run_getFallbackSwapRoute.
  assert (forall w0,
             run up (SwapService.generateFallbackSwapRoute tokenIn tokenOut amount) w0
             = (Ok r, w') ->
             swapPayload r = None /\ route_tokenIn r = None /\ route_tokenOut r = None) as Hgen.
  { intros w0. rewrite run_generateFallbackSwapRoute.
    destruct (run up (SwapService.fallback_prices tokenIn tokenOut) w0) as [[prices | e] w1];
      intros H; inversion H; subst. repeat split. }
  destruct (run up (DexService.getAllDexQuotes Math_log10 tokenIn tokenOut
                      (parseFloat amount)) w) as [[qs | e] w1]; [| apply Hgen].
  destruct (SwapService.route_of_quotes tokenIn tokenOut amount qs) as [r0 |] eqn:Er;
    [| apply Hgen].
  intros H. inversion H; subst.
  unfold SwapService.route_of_quotes in Er.
  destruct (Array_sort SwapService.by_output_desc (present qs)); [discriminate |].
  inversion Er. repeat split.
Qed.

Lemma plain_route_without_panora (tokenIn tokenOut : TokenType) (amount : string)
    (w w' : World) (r : SwapRoute) :
  panora_routes up w tokenIn tokenOut amount = None ->
  run up (SwapService.getBestSwapRoute Math_log10 tokenIn tokenOut amount) w = (Ok r, w') ->
  swapPayload r = None /\ route_tokenIn r = None /\ route_tokenOut r = None.
Proof.
  intros Hno. rewrite run_getBestSwapRoute, run_try_panora, Hno.
  apply fanout_route_plain.
Qed.

End Aggregator_tier.

Section Aggregator_tier_evaluation.
Import JS.

Lemma panora_route_short_circuits_witness :
  exists r w',
    run panora_only (SwapService.getBestSwapRoute log10_floor APT USDC "10") (cold_world t0)
    = (Ok r, w') /\
    w_state w' = cold_state /\
    w_calls w' = [] ++ [(t0, panora_request cold_state APT USDC "10")] /\
    expectedOutput r = "67.1" /\
    route_dex r = "ThalaSwap" /\
    alternativeRoutes r
    = Some [ {| alt_protocol := "Aptos DEX"; alt_expectedOutput := "66.9";
                alt_priceImpact := "0.5"; alt_estimatedGas := parseFloat "0.0003" |} ] /\
    swapPayload r = Some "{..}" /\
    option_map ti_symbol (route_tokenIn r) = Some "APT" /\
    option_map ti_symbol (route_tokenOut r) = Some "USDC".
Proof.
  apply (panora_route_short_circuits log10_floor panora_only APT USDC "10" (cold_world t0)
           {| rpcUrl := "https://fullnode.testnet.aptoslabs.com/v1" |} panora_data
           {| pr_name := Some "ThalaSwap"; pr_fee := None;
              pr_toTokenAmount := Some "67.1"; pr_priceImpact := Some "0.12";
              pr_estimatedGas := None |}
           [ {| pr_name := None; pr_fee := None;
                pr_toTokenAmount := Some "66.9"; pr_priceImpact := None;
                pr_estimatedGas := Some "0.0003" |} ]);
    reflexivity.
Defined.

Lemma no_panora_route_falls_through_witness :
  run offline (SwapService.getBestSwapRoute log10_floor APT USDC "10") warm_world
  = run offline (SwapService.getFallbackSwapRoute log10_floor APT USDC "10") warm_world /\
  run offline (SwapService.getBestSwapRoute log10_floor APT USDC "10") (cold_world t0)
  = run offline (SwapService.getFallbackSwapRoute log10_floor APT USDC "10")
      (tick (fst (reply offline (length (w_calls (cold_world t0)))
                    (panora_request (w_state (cold_world t0)) APT USDC "10")))
         (log_call (panora_request (w_state (cold_world t0)) APT USDC "10") (cold_world t0))).
Proof.
  split.
  - apply (proj1 (no_panora_route_falls_through log10_floor offline APT USDC "10" warm_world)).
    reflexivity.
  - apply (proj2 (no_panora_route_falls_through log10_floor offline APT USDC "10"
                    (cold_world t0))
             {| rpcUrl := "https://fullnode.testnet.aptoslabs.com/v1" |}).
    + reflexivity.
    + intros data best rest H. discriminate H.
Defined.

End Aggregator_tier_evaluation.

(* ===================================================================== *)
(** * The synthesized route and its alternative                           *)
(* ===================================================================== *)

Section Synthesized_route.
Import JS.

Lemma Qfloor_below (y : Q) (n : Z) : (y < inject_Z (n + 1))%Q -> Qfloor y <= n.
Proof.
  intros H. enough (Qfloor y < n + 1) by lia.
  rewrite Zlt_Qlt. eapply Qle_lt_trans; [apply Qfloor_le | exact H].
Qed.

(** A value printed with six digits and read back is a whole number of
    millionths. *)
Lemma toFixed_value_millionths (x : number) (v : Q) :
  toFixed_value x 6 = Fin v -> (0 <= v)%Q ->
  exists n : Z, 0 <= n /\ (v == inject_Z n / inject_Z (pow10 6))%Q.
Proof.
  destruct x as [| | |q]; try discriminate. unfold toFixed_value.
  pose proof (inject_Z_pow10_pos 6) as Hp.
  destruct (sgn q) eqn:Es; intros E Hv; inversion E; subst v.
  - exists (scaled_round q 6). split; [| reflexivity].
    apply scaled_round_nonneg. apply -> sgn_Eq in Es. lra.
  - exists 0. split; [lia |].
    apply -> sgn_Lt in Es.
    assert (0 <= inject_Z (scaled_round (- q) 6) / inject_Z (pow10 6))%Q
      by (apply toFixed_value_nonneg; lra).
    change (inject_Z 0) with 0%Q.
    assert (0 / inject_Z (pow10 6) == 0)%Q as -> by (field; lra).
    set (t := (inject_Z (scaled_round (- q) 6) / inject_Z (pow10 6))%Q) in *. lra.
  - exists (scaled_round q 6). split; [| reflexivity].
    apply scaled_round_nonneg. apply -> sgn_Gt in Es. lra.
Qed.

(** X12.  The one alternative of a synthesized fallback route is never
    better than the route itself: when the expected output of the route
    reads as a non-negative number, so does the output of the alternative,
    and it is not larger. *)
Theorem fallback_alternative_not_better (tokenIn tokenOut : TokenType) (amount : string)
    (tokenInPrice tokenOutPrice : number) :
  let r := SwapService.fallback_route tokenIn tokenOut amount tokenInPrice tokenOutPrice in
  parses_nonneg (expectedOutput r) ->
  exists alt,
    alternativeRoutes r = Some [alt] /\
    parses_nonneg (alt_expectedOutput alt) /\
    leb (parseFloat (alt_expectedOutput alt)) (parseFloat (expectedOutput r)) = true.
Proof.
  cbn zeta. unfold SwapService.fallback_route. cbn [expectedOutput alternativeRoutes].
  set (x := div (mul (parseFloat amount) tokenInPrice) tokenOutPrice).
  unfold parses_nonneg. intros Hnn.
  eexists. split; [reflexivity |]. cbn [alt_expectedOutput].
  pose proof (parseFloat_toFixed x 6) as Hs.
  destruct (parseFloat (toFixed x 6)) as [| | |v] eqn:Ev; try contradiction.
  cbn [nonneg] in Hnn.
  assert (exists v', toFixed_value x 6 = Fin v' /\ (v == v')%Q) as (v' & Ev' & Hvv').
  { destruct (toFixed_value x 6) as [| | |v']; try contradiction. eauto. }
  destruct (toFixed_value_millionths x v' Ev') as (n & Hn & Hvn); [lra |].
  cbn [mul].
  assert (0 <= v * 0.995)%Q as Hpos by lra.
  pose proof (parseFloat_toFixed (Fin (v * 0.995)) 6) as Hs2.
  destruct (toFixed_value_nonneg (v * 0.995) 6 Hpos) as [Ev2 Hv2].
  rewrite Ev2 in Hs2. apply same_Fin_r in Hs2 as (r2 & -> & Hr2).
  split; [cbn [nonneg]; lra |].
  unfold leb. destruct (r2 ?= v)%Q eqn:C; try reflexivity.
  exfalso. apply Qgt_alt in C.
  pose proof (inject_Z_pow10_pos 6) as Hp.
  assert (scaled_round (v * 0.995) 6 <= n) as Hle.
  { unfold scaled_round. apply Qfloor_below.
    rewrite inject_Z_plus. change (inject_Z 1) with 1%Q.
    assert (v * inject_Z (pow10 6) == inject_Z n)%Q as Hvn'.
    { rewrite Hvv', Hvn. field. lra. }
    assert (0 <= inject_Z n)%Q by (change 0%Q with (inject_Z 0); rewrite <- Zle_Qle; lia).
    nra. }
  rewrite Zle_Qle in Hle.
  assert (inject_Z (scaled_round (v * 0.995) 6) / inject_Z (pow10 6)
          <= inject_Z n / inject_Z (pow10 6))%Q.
  { unfold Qdiv. apply Qmult_le_compat_r; [exact Hle |].
    apply Qinv_le_0_compat. lra. }
  lra.
Qed.

Lemma fallback_alternative_not_better_witness :
  exists alt,
    alternativeRoutes (SwapService.fallback_route APT USDC "10" (Fin 6.75) (Fin 1))
    = Some [alt] /\
    parses_nonneg (alt_expectedOutput alt) /\
    leb (parseFloat (alt_expectedOutput alt))
        (parseFloat (expectedOutput (SwapService.fallback_route APT USDC "10" (Fin 6.75) (Fin 1))))
    = true.
Proof.
  apply (fallback_alternative_not_better APT USDC "10" (Fin 6.75) (Fin 1)).
  vm_compute. discriminate.
Defined.

End Synthesized_route.

(* ===================================================================== *)
(** * Building the transaction                                            *)
(* ===================================================================== *)

Section Execute_swap.
Import JS.
Context (Math_log10 : number -> number) (up : Upstream).

(** The entry-function call that [executeSwap] builds when the route has
    no payload of its own: PancakeSwap's router, whose address is the
    same on both networks. *)
Lemma run_executeSwap (walletAddress : string) (tokenIn tokenOut : TokenType)
    (amount : string) (slippagePercentage deadline : number) (w : World) :
  exists route w',
    run up (SwapService.getBestSwapRoute Math_log10 tokenIn tokenOut amount) w
    = (Ok route, w') /\
    run up (SwapService.executeSwap Math_log10 walletAddress tokenIn tokenOut amount
              slippagePercentage deadline) w
    = (Ok {| success := true; txHash := None; exec_error := None;
             exec_payload :=
               Some match swapPayload route with
                    | Some p => PanoraPayload p
                    | None =>
                        let isTestnet := swap_isTestnet (swapService (w_state w')) in
                        EntryFunction
                          (DexService.swap_exact_input (router (APTOS_DEXES PANCAKE))
                             (DexService.getTokenAddress tokenIn isTestnet)
                             (DexService.getTokenAddress tokenOut isTestnet)
                             (SwapService.formatTokenAmount (parseFloat amount)
                                (DexService.token_decimals tokenIn isTestnet))
                             (if isTestnet then "1" else "0"))
                    end |}, w').
Proof.
  destruct (getBestSwapRoute_returns Math_log10 up tokenIn tokenOut amount w)
    as (route & w' & Hrun).
  exists route, w'. split; [exact Hrun |].
  unfold SwapService.executeSwap. rewrite run_try_catch, run_bind, Hrun.
  destruct (swapPayload route) as [p |]; [reflexivity |].
  rewrite run_bind, run_gets.
  destruct (swap_isTestnet (swapService (w_state w'))); reflexivity.
Qed.

(** X13.  [executeSwap] never rejects and always reports success: its
    error branch is not reachable.  It looks the route up anew.  A payload
    that Panora returned is passed on as it is; otherwise the payload
    calls [swap_exact_input] of PancakeSwap's router with the addresses of
    the two tokens on the current network, the amount scaled by the
    decimals of the input token and rounded, and a minimum output of "1"
    on testnet and "0" on mainnet, whatever slippage and deadline were
    asked for. *)
Theorem executeSwap_always_succeeds (walletAddress : string) (tokenIn tokenOut : TokenType)
    (amount : string) (slippagePercentage deadline : number) (w : World) :
  exists result route w',
    run up (SwapService.executeSwap Math_log10 walletAddress tokenIn tokenOut amount
              slippagePercentage deadline) w = (Ok result, w') /\
    run up (SwapService.getBestSwapRoute Math_log10 tokenIn tokenOut amount) w
    = (Ok route, w') /\
    success result = true /\ exec_error result = None /\
    match swapPayload route with
    | Some p => exec_payload result = Some (PanoraPayload p)
    | None =>
        let isTestnet := swap_isTestnet (swapService (w_state w')) in
        exec_payload result
        = Some (EntryFunction
                  {| payload_type := "entry_function_payload";
                     payload_function :=
                       "0xc7efb4076dbe143cbcd98cfaaa929ecfc8f299203dfff63b95ccb6bfe19850fa::router::swap_exact_input";
                     type_arguments :=
                       [DexService.getTokenAddress tokenIn isTestnet;
                        DexService.getTokenAddress tokenOut isTestnet];
                     arguments :=
                       [SwapService.formatTokenAmount (parseFloat amount)
                          (DexService.token_decimals tokenIn isTestnet);
                        if isTestnet then "1" else "0"] |})
    end.
Proof.
  destruct (run_executeSwap walletAddress tokenIn tokenOut amount slippagePercentage
              deadline w) as (route & w' & Hroute & ->).
  eexists. exists route, w'. split; [reflexivity |]. split; [exact Hroute |].
  cbn [success exec_error exec_payload]. split; [reflexivity |]. split; [reflexivity |].
  destruct (swapPayload route); reflexivity.
Qed.

(** X14.  The amount is not validated on the way to the payload: when the
    aggregator tier yields no route and the amount string does not parse
    as a number, [executeSwap] still reports success, and the amount
    argument of the payload is the string "NaN". *)
Theorem executeSwap_unparsed_amount (walletAddress : string) (tokenIn tokenOut : TokenType)
    (amount : string) (slippagePercentage deadline : number) (w : World) :
  panora_routes up w tokenIn tokenOut amount = None ->
  parseFloat amount = NaN ->
  exists result w' p minOut,
    run up (SwapService.executeSwap Math_log10 walletAddress tokenIn tokenOut amount
              slippagePercentage deadline) w = (Ok result, w') /\
    success result = true /\
    exec_payload result = Some (EntryFunction p) /\
    arguments p = ["NaN"; minOut].
Proof.
  intros Hno Hnan.
  destruct (run_executeSwap walletAddress tokenIn tokenOut amount slippagePercentage
              deadline w) as (route & w' & Hroute & ->).
  destruct (plain_route_without_panora Math_log10 up tokenIn tokenOut amount w w' route
              Hno Hroute) as (-> & _).
  eexists. exists w'. eexists. eexists. split; [reflexivity |].
  cbn [success exec_payload]. split; [reflexivity |]. split; [reflexivity |].
  cbn [DexService.swap_exact_input arguments]. rewrite Hnan. reflexivity.
Qed.

End Execute_swap.

Section Execute_swap_evaluation.
Import JS.

Lemma executeSwap_unparsed_amount_witness :
  exists result w' p minOut,
    run offline (SwapService.executeSwap log10_floor "0xabc" APT USDC "ten" (Fin 0.5)
                   (Fin 1200)) (cold_world t0) = (Ok result, w') /\
    success result = true /\
    exec_payload result = Some (EntryFunction p) /\
    arguments p = ["NaN"; minOut].
Proof.
  apply (executeSwap_unparsed_amount log10_floor offline "0xabc" APT USDC "ten" (Fin 0.5)
           (Fin 1200) (cold_world t0)); reflexivity.
Defined.

End Execute_swap_evaluation.

Section Payload_builders.
Import JS.

Lemma formatTokenAmount_ok_iff (amount : string) (d : nat) :
  (exists s, DexService.formatTokenAmount amount d = Ok s) <-> isNaN (parseFloat amount) = false.
Proof.
  unfold DexService.formatTokenAmount.
  destruct (isNaN (parseFloat amount)); split; intros H; eauto; try discriminate.
  destruct H as [s H]. discriminate.
Qed.

(** X15.  The two payload builders of DexService throw exactly when one of
    the two amounts does not parse as a number, and otherwise return the
    same call but for the router: the type arguments are the addresses of
    the two tokens on the given network, and the arguments are what
    [formatTokenAmount] makes of the two amounts with the decimals of
    their tokens. *)
Theorem payload_builders_reject_unparsed (tokenIn tokenOut : TokenType)
    (amountIn minAmountOut : string) (deadline : number) (isTestnet : bool) :
  let pancake := DexService.preparePancakeSwapPayload tokenIn tokenOut amountIn minAmountOut
                   deadline isTestnet in
  let liquid := DexService.prepareLiquidswapPayload tokenIn tokenOut amountIn minAmountOut
                  deadline isTestnet in
  ((exists p, pancake = Ok p) <->
   isNaN (parseFloat amountIn) = false /\ isNaN (parseFloat minAmountOut) = false) /\
  ((exists p, liquid = Ok p) <-> (exists p, pancake = Ok p)) /\
  (forall p l, pancake = Ok p -> liquid = Ok l ->
     type_arguments p = [DexService.getTokenAddress tokenIn isTestnet;
                         DexService.getTokenAddress tokenOut isTestnet] /\
     DexService.formatTokenAmount amountIn (DexService.token_decimals tokenIn isTestnet)
     = Ok (nth 0 (arguments p) "") /\
     DexService.formatTokenAmount minAmountOut (DexService.token_decimals tokenOut isTestnet)
     = Ok (nth 1 (arguments p) "") /\
     type_arguments l = type_arguments p /\ arguments l = arguments p /\
     payload_type l = payload_type p).
Proof.
  cbn zeta.
  unfold DexService.preparePancakeSwapPayload, DexService.prepareLiquidswapPayload.
  pose proof (formatTokenAmount_ok_iff amountIn (DexService.token_decimals tokenIn isTestnet))
    as H1.
  pose proof (formatTokenAmount_ok_iff minAmountOut
                (DexService.token_decimals tokenOut isTestnet)) as H2.
  destruct (DexService.formatTokenAmount amountIn _) as [s1 | e1];
    destruct (DexService.formatTokenAmount minAmountOut _) as [s2 | e2].
  - split; [| split].
    + split; [intros _ | eauto]. split; [apply H1 | apply H2]; eauto.
    + split; eauto.
    + intros p l Hp Hl. inversion Hp; inversion Hl; subst. repeat split.
  - split; [| split].
    + split; [intros [p H]; discriminate |].
      intros [_ Hb]. apply H2 in Hb as [s Hs]. discriminate.
    + split; intros [p H]; discriminate.
    + intros p l Hp. discriminate.
  - split; [| split].
    + split; [intros [p H]; discriminate |].
      intros [Ha _]. apply H1 in Ha as [s Hs]. discriminate.
    + split; intros [p H]; discriminate.
    + intros p l Hp. discriminate.
  - split; [| split].
    + split; [intros [p H]; discriminate |].
      intros [Ha _]. apply H1 in Ha as [s Hs]. discriminate.
    + split; intros [p H]; discriminate.
    + intros p l Hp. discriminate.
Qed.

End Payload_builders.

(* ===================================================================== *)
(** * The chat endpoint                                                   *)
(* ===================================================================== *)

Section Chat_swap_answer.
Import JS.
Context (Number_toString : number -> string) (Math_log10 : number -> number)
        (getFormattedTimestamp : Z -> string) (up : Upstream).

Lemma formatSwapResponse_throws_iff (route : SwapRoute) (timestamp : string) :
  (exists e, ChatRoute.formatSwapResponse Number_toString route timestamp = Thrown e) <->
  (route_tokenIn route = None \/ route_tokenOut route = None).
Proof.
  unfold ChatRoute.formatSwapResponse.
  destruct (route_tokenIn route) as [tin |], (route_tokenOut route) as [tout |];
    split; intros H; eauto; try (destruct H as [e H]; discriminate);
    destruct H as [H | H]; discriminate.
Qed.

(** X16.  [formatSwapResponse] throws exactly on a route without the
    description of its input or output token.  The routes of the fan-out
    tier and of the fallback synthesizer carry none, so whenever the
    aggregator tier yields no route the swap branch of the chat endpoint
    answers with its apology and the message of that error, not with the
    route that was found. *)
Theorem chat_swap_answer_needs_panora (tokenIn tokenOut : TokenType) (amount : string)
    (w : World) :
  (forall route timestamp,
      (exists e, ChatRoute.formatSwapResponse Number_toString route timestamp = Thrown e) <->
      (route_tokenIn route = None \/ route_tokenOut route = None)) /\
  (panora_routes up w tokenIn tokenOut amount = None ->
   exists route w',
     run up (SwapService.getBestSwapRoute Math_log10 tokenIn tokenOut amount) w
     = (Ok route, w') /\
     run up (ChatRoute.answer_swap_query Number_toString Math_log10 getFormattedTimestamp
               tokenIn tokenOut amount) w
     = (Ok "Sorry, I couldn't fetch swap rates at the moment. Error: Cannot read properties of undefined (reading 'symbol'). Please try again later or check directly at DEX aggregator.",
        w')).
Proof.
  split; [apply formatSwapResponse_throws_iff |].
  intros Hno.
  destruct (getBestSwapRoute_returns Math_log10 up tokenIn tokenOut amount w)
    as (route & w' & Hrun).
  exists route, w'. split; [exact Hrun |].
  destruct (plain_route_without_panora Math_log10 up tokenIn tokenOut amount w w' route
              Hno Hrun) as (_ & Hin & _).
  unfold ChatRoute.answer_swap_query, DeFiService.getBestSwapRoute.
  rewrite run_try_catch, run_bind, Hrun, run_bind, run_dateNow.
  unfold ChatRoute.formatSwapResponse. rewrite Hin. reflexivity.
Qed.

End Chat_swap_answer.

Section Chat_swap_answer_evaluation.
Import JS.

Lemma chat_swap_answer_needs_panora_witness :
  exists route w',
    run offline (SwapService.getBestSwapRoute log10_floor APT USDC "10") warm_world
    = (Ok route, w') /\
    expectedOutput route = "67.295229" /\
    run offline (ChatRoute.answer_swap_query (fun x => toFixed x 2) log10_floor
                   (fun _ => "Nov 14, 2023") APT USDC "10") warm_world
    = (Ok "Sorry, I couldn't fetch swap rates at the moment. Error: Cannot read properties of undefined (reading 'symbol'). Please try again later or check directly at DEX aggregator.",
       w').
Proof.
  destruct (proj2 (chat_swap_answer_needs_panora (fun x => toFixed x 2) log10_floor
                     (fun _ => "Nov 14, 2023") offline APT USDC "10" warm_world) eq_refl)
    as (route & w' & Hrun & Hans).
  exists route, w'. split; [exact Hrun |]. split; [| exact Hans].
  assert (fst (run offline (SwapService.getBestSwapRoute log10_floor APT USDC "10") warm_world)
          = Ok route) as E by now rewrite Hrun.
  vm_compute in E. inversion E. reflexivity.
Defined.

End Chat_swap_answer_evaluation.

(* ===================================================================== *)
(** * The testnet rate read off the DEX quotes                            *)
(* ===================================================================== *)

Section Testnet_rate_from_quotes.
Import JS.

Lemma best_of_quotes_spec (qs : list (option DexQuote)) :
  forall acc,
    isNaN acc = false ->
    let best := DeFiService.best_of_quotes qs acc in
    isNaN best = false /\
    leb acc best = true /\
    (forall q, In (Some q) qs -> isNaN (output_of q) = false ->
               leb (output_of q) best = true) /\
    (best = acc \/ exists q, In (Some q) qs /\ best = output_of q).
Proof.
  induction qs as [| [q |] qs IH]; intros acc Hacc; cbn zeta.
  - cbn. repeat split; try assumption; [now apply leb_refl | intros q [] | now left].
  - cbn [DeFiService.best_of_quotes]. fold (output_of q).
    unfold gtb.
    destruct (ltb acc (output_of q)) eqn:E.
    + assert (isNaN (output_of q) = false) as Hq
          by (destruct acc, (output_of q); try discriminate; reflexivity).
      destruct (IH (output_of q) Hq) as (Hn & Hle & Hall & Hsrc). cbn zeta in *.
      split; [exact Hn |]. split.
      * eapply leb_trans; [apply ltb_true_leb; exact E | exact Hle].
      * split.
        -- intros q' [Hq' | Hq'] Hnum; [inversion Hq'; subst q'; exact Hle | now apply Hall].
        -- right. destruct Hsrc as [-> | (q' & Hin & ->)].
           ++ exists q. split; [now left | reflexivity].
           ++ exists q'. split; [now right | reflexivity].
    + destruct (IH acc Hacc) as (Hn & Hle & Hall & Hsrc). cbn zeta in *.
      split; [exact Hn |]. split; [exact Hle |]. split.
      * intros q' [Hq' | Hq'] Hnum; [| now apply Hall].
        inversion Hq'; subst q'.
        eapply leb_trans; [| exact Hle].
        now apply ltb_false_leb.
      * destruct Hsrc as [-> | (q' & Hin & ->)]; [now left |].
        right. exists q'. split; [now right | reflexivity].
  - cbn [DeFiService.best_of_quotes].
    destruct (IH acc Hacc) as (Hn & Hle & Hall & Hsrc). cbn zeta in *.
    split; [exact Hn |]. split; [exact Hle |]. split.
    + intros q' [Hq' | Hq'] Hnum; [discriminate | now apply Hall].
    + destruct Hsrc as [-> | (q' & Hin & ->)]; [now left |].
      right. exists q'. split; [now right | reflexivity].
Qed.

Context (Math_log10 : number -> number) (up : Upstream).

(** X17.  On a miss of the rate cache, when some DEX quotes one unit of
    the input token at a positive output, the testnet rate is the largest
    output among the quotes that read as numbers; it is stored under the
    pair with the time at which the call started, and the pool reserves of
    the node are not asked for. *)
Theorem testnet_rate_is_best_quote (tokenIn tokenOut : TokenType) (w w1 : World)
    (qs : list (option DexQuote)) :
  let key := symbol tokenIn +:+ "-" +:+ symbol tokenOut in
  let cache := testnetRatesCache (defiService (w_state w)) in
  (cache !! key = None \/
   exists c, cache !! key = Some c /\
             DeFiService.TESTNET_RATES_CACHE_DURATION <= w_clock w - rate_timestamp c) ->
  run up (DexService.getAllDexQuotes Math_log10 tokenIn tokenOut (Fin 1)) w = (Ok qs, w1) ->
  (exists q, In (Some q) qs /\ ltb (Fin 0) (output_of q) = true) ->
  exists r,
    run up (DeFiService.getTestnetExchangeRate Math_log10 tokenIn tokenOut) w
    = (Ok r,
       with_state (set_defiService
                     (DeFiService.set_rate key {| rate := r; rate_timestamp := w_clock w |}))
         w1) /\
    ltb (Fin 0) r = true /\
    (exists q, In (Some q) qs /\ r = output_of q) /\
    (forall q, In (Some q) qs -> isNaN (output_of q) = false -> leb (output_of q) r = true).
Proof.
  cbn zeta. intros Hmiss Hrun (q0 & Hin0 & Hpos0).
  rewrite (rate_lookup_miss Math_log10 up tokenIn tokenOut w Hmiss).
  unfold DeFiService.compute_rate. rewrite run_try_catch, run_bind, Hrun, run_bind.
  destruct (best_of_quotes_spec qs (Fin 0) eq_refl) as (Hn & Hle & Hall & Hsrc).
  cbn zeta in *.
  set (best := DeFiService.best_of_quotes qs (Fin 0)) in *.
  assert (isNaN (output_of q0) = false) as Hq0
      by (destruct (output_of q0); try discriminate; reflexivity).
  pose proof (Hall q0 Hin0 Hq0) as Hle0.
  assert (ltb (Fin 0) best = true) as Hpos.
  { destruct (output_of q0) as [| | |a], best as [| | |b]; try discriminate; try reflexivity.
    unfold ltb, leb in *.
    destruct (0 ?= a)%Q eqn:C1; try discriminate.
    destruct (a ?= b)%Q eqn:C2; try discriminate;
      destruct (0 ?= b)%Q eqn:C3; try reflexivity; exfalso;
      repeat match goal with
             | H : (_ ?= _)%Q = Eq |- _ => apply Qeq_alt in H
             | H : (_ ?= _)%Q = Lt |- _ => apply Qlt_alt in H
             | H : (_ ?= _)%Q = Gt |- _ => apply Qgt_alt in H
             end; lra. }
  assert (strict_eqb best (Fin 0) = false) as Hnz.
  { destruct best as [| | |b]; try reflexivity.
    unfold ltb in Hpos. unfold strict_eqb.
    destruct (0 ?= b)%Q eqn:C; try discriminate. apply Qlt_alt in C.
    destruct (b ?= 0)%Q eqn:C2; try reflexivity. apply Qeq_alt in C2. lra. }
  unfold DeFiService.query_pool_reserves. rewrite Hnz. cbn [andb].
  rewrite run_ret, Hnz, run_bind, run_modify, run_ret.
  exists best. split; [reflexivity |]. split; [exact Hpos |]. split; [| exact Hall].
  destruct Hsrc as [E | Hex]; [| exact Hex].
  rewrite E in Hpos. discriminate Hpos.
Qed.

End Testnet_rate_from_quotes.

Section Testnet_rate_from_quotes_evaluation.
Import JS.

Lemma testnet_rate_is_best_quote_witness :
  exists r w1 qs,
    run offline (DexService.getAllDexQuotes log10_floor APT USDT (Fin 1)) two_pools_world
    = (Ok qs, w1) /\
    run offline (DeFiService.getTestnetExchangeRate log10_floor APT USDT) two_pools_world
    = (Ok r,
       with_state (set_defiService
                     (DeFiService.set_rate "APT-USDT" {| rate := r; rate_timestamp := t0 |}))
         w1) /\
    ltb (Fin 0) r = true /\
    (exists q, In (Some q) qs /\ r = output_of q) /\
    (forall q, In (Some q) qs -> isNaN (output_of q) = false -> leb (output_of q) r = true).
Proof.
  pose (rq := run offline (DexService.getAllDexQuotes log10_floor APT USDT (Fin 1))
                two_pools_world).
  pose (qs := match fst rq with Ok qs => qs | Thrown _ => [] end).
  destruct (testnet_rate_is_best_quote log10_floor offline APT USDT two_pools_world
              (snd rq) qs) as (r & Hr).
  - left. reflexivity.
  - vm_compute. reflexivity.
  - exists (DexService.makeQuote log10_floor PANCAKE (Fin 1) (Fin 6.75) (Fin 1)
              {| tvl := Some (Fin 2000000) |}).
    vm_compute. split; [left |]; reflexivity.
  - exists r, (snd rq), qs. split; [vm_compute; reflexivity | exact Hr].
Defined.

End Testnet_rate_from_quotes_evaluation.

(* ===================================================================== *)
(** * Switching the network twice                                         *)
(* ===================================================================== *)

Section Network_switch_twice.
Import JS.
Context (up : Upstream).

(** X18.  Switching to the same network twice is the same as switching
    once; and when the Panora client can be built for the second network,
    a switch followed by a second one leaves the services as the second
    one alone does: the last switch wins. *)
Theorem setTestnetMode_last_wins (a b : bool) (w : World) :
  run up (DeFiService.setTestnetMode b ;;; DeFiService.setTestnetMode b) w
  = run up (DeFiService.setTestnetMode b) w /\
  (panora_ctor up (SwapService.network_url b) <> None ->
   run up (DeFiService.setTestnetMode a ;;; DeFiService.setTestnetMode b) w
   = run up (DeFiService.setTestnetMode b) w).
Proof.
  unfold DeFiService.setTestnetMode, SwapService.setTestnetMode, DexService.setTestnetMode.
  split.
  - cbn. destruct (panora_ctor up (SwapService.network_url b)) eqn:Eb;
      cbn; rewrite ?Eb; reflexivity.
  - intros Hb. cbn.
    destruct (panora_ctor up (SwapService.network_url b)) as [cb |] eqn:Eb;
      [| contradiction].
    destruct (panora_ctor up (SwapService.network_url a)) eqn:Ea;
      cbn; rewrite ?Eb; reflexivity.
Qed.

End Network_switch_twice.

Section Network_switch_twice_evaluation.

Lemma setTestnetMode_last_wins_witness :
  run prices_only (DeFiService.setTestnetMode true ;;; DeFiService.setTestnetMode false)
    warm_world
  = run prices_only (DeFiService.setTestnetMode false) warm_world.
Proof.
  apply (proj2 (setTestnetMode_last_wins prices_only true false warm_world)).
  discriminate.
Defined.

End Network_switch_twice_evaluation.

(* ===================================================================== *)
(** * Sorting by a numeric key                                            *)
(* ===================================================================== *)

Section Sorting_by_key.

Import JS.

Context {A : Type}.

Lemma sort_insert_permutation (cmp : A -> A -> number) (x : A) (l : list A) :
  Permutation (sort_insert cmp x l) (x :: l).
Proof.
  induction l as [| y ys IH]; cbn [sort_insert]; [reflexivity |].
  destruct (gtb (cmp x y) (Fin 0)); [| reflexivity].
  rewrite IH. apply perm_swap.
Qed.

Lemma Array_sort_permutation (cmp : A -> A -> number) (l : list A) :
  Permutation (Array_sort cmp l) l.
Proof.
  induction l as [| x xs IH]; cbn [Array_sort]; [reflexivity |].
  rewrite sort_insert_permutation. now rewrite IH.
Qed.

Lemma leb_transitive (x y z : number) :
  leb x y = true -> leb y z = true -> leb x z = true.
Proof.
  destruct x as [| | | a], y as [| | | b], z as [| | | c]; cbn; try congruence.
  destruct (a ?= b)%Q eqn:E1; try discriminate;
    destruct (b ?= c)%Q eqn:E2; try discriminate;
    destruct (a ?= c)%Q eqn:E3; try reflexivity; intros _ _;
    repeat match goal with
           | H : (_ ?= _)%Q = Eq |- _ => apply Qeq_alt in H
           | H : (_ ?= _)%Q = Lt |- _ => apply Qlt_alt in H
           | H : (_ ?= _)%Q = Gt |- _ => apply Qgt_alt in H
           end; lra.
Qed.

(** The comparator [(a, b) => key(b) - key(a)] is positive exactly when
    the second key is larger. *)
Lemma desc_comparator_positive (x y : number) :
  gtb (sub y x) (Fin 0) = true -> leb x y = true.
Proof.
  destruct x as [| | | a], y as [| | | b]; cbn; try congruence.
  destruct (0 ?= b + - a)%Q eqn:E1; try discriminate.
  destruct (a ?= b)%Q eqn:E2; try reflexivity. intros _.
  apply Qlt_alt in E1. apply Qgt_alt in E2. lra.
Qed.

Lemma desc_comparator_not_positive (x y : number) :
  isNaN x = false -> isNaN y = false ->
  gtb (sub y x) (Fin 0) = false -> leb y x = true.
Proof.
  destruct x as [| | | a], y as [| | | b]; cbn; try congruence.
  intros _ _.
  destruct (0 ?= b + - a)%Q eqn:E1; try discriminate;
    destruct (b ?= a)%Q eqn:E2; try reflexivity; intros _;
    repeat match goal with
           | H : (_ ?= _)%Q = Eq |- _ => apply Qeq_alt in H
           | H : (_ ?= _)%Q = Lt |- _ => apply Qlt_alt in H
           | H : (_ ?= _)%Q = Gt |- _ => apply Qgt_alt in H
           end; lra.
Qed.

Variable key : A -> number.

Lemma sort_insert_descending (x : A) (l : list A) :
  isNaN (key x) = false ->
  Forall (fun a => isNaN (key a) = false) l ->
  descending key l ->
  descending key (sort_insert (fun a b => sub (key b) (key a)) x l).
Proof.
  intros Hx Hl Hs. unfold descending in *.
  induction Hs as [| y ys Hs IH Hy]; cbn [sort_insert].
  - constructor; [constructor | constructor].
  - apply Forall_cons in Hl as [Hy0 Hl].
    destruct (gtb (sub (key y) (key x)) (Fin 0)) eqn:E.
    + constructor; [now apply IH |].
      eapply Permutation_Forall;
        [symmetry; apply sort_insert_permutation |].
      constructor; [now apply desc_comparator_positive | exact Hy].
    + assert (Hxy : leb (key y) (key x) = true)
        by now apply desc_comparator_not_positive.
      constructor; [now constructor |].
      constructor; [exact Hxy |].
      eapply Forall_impl; [exact Hy |].
      intros z Hz. cbn in Hz. eapply leb_transitive; eassumption.
Qed.

Lemma Array_sort_descending (l : list A) :
  Forall (fun a => isNaN (key a) = false) l ->
  descending key (Array_sort (fun a b => sub (key b) (key a)) l).
Proof.
  induction l as [| x xs IH]; intros H; cbn [Array_sort].
  - constructor.
  - apply Forall_cons in H as [Hx Hxs].
    apply sort_insert_descending; [exact Hx | | now apply IH].
    eapply Permutation_Forall; [symmetry; apply Array_sort_permutation | exact Hxs].
Qed.

End Sorting_by_key.

(* ===================================================================== *)
(** * Running the DeFiLlama clients                                       *)
(* ===================================================================== *)

Section Llama_running.

Import Llama.

Variable up : Upstream.

Lemma llama_run_pbind {A B : Type} (p : Prog A) (f : A -> Prog B) (w : World) :
  run up (pbind p f) w = let (a, w') := run up p w in run up (f a) w'.
Proof.
  revert w. induction p as [a | X e k IH]; intros w; cbn; [reflexivity |].
  destruct (step up e w) as [x w']. apply IH.
Qed.

Lemma llama_run_bind {A B : Type} (m : M A) (f : A -> M B) (w : World) :
  run up (bind m f) w =
  match run up m w with
  | (Ok a, w') => run up (f a) w'
  | (Thrown e, w') => (Thrown e, w')
  end.
Proof.
  unfold bind. rewrite llama_run_pbind.
  destruct (run up m w) as [[a | e] w']; reflexivity.
Qed.

Lemma llama_run_try_catch {A : Type} (m : M A) (h : Error -> M A) (w : World) :
  run up (try_catch m h) w =
  match run up m w with
  | (Ok a, w') => (Ok a, w')
  | (Thrown e, w') => run up (h e) w'
  end.
Proof.
  unfold try_catch. rewrite llama_run_pbind.
  destruct (run up m w) as [[a | e] w']; reflexivity.
Qed.

Lemma llama_run_get (e : Endpoint) (w : World) :
  run up (axios_get e) w = (llama_answer up w e, llama_after up w e).
Proof.
  unfold llama_answer, llama_after. cbn.
  destruct (up (length (w_calls w)) e) as [latency answer]. reflexivity.
Qed.

Lemma llama_run_gets {A : Type} (f : State -> A) (w : World) :
  run up (gets f) w = (Ok (f (w_state w)), w).
Proof. reflexivity. Qed.

Lemma llama_run_dateNow (w : World) : run up dateNow w = (Ok (w_clock w), w).
Proof. reflexivity. Qed.

Lemma llama_run_ret {A : Type} (a : A) (w : World) : run up (ret a) w = (Ok a, w).
Proof. reflexivity. Qed.

Lemma llama_run_throw {A : Type} (e : Error) (w : World) :
  run up (throw e : M A) w = (Thrown e, w).
Proof. reflexivity. Qed.

(** A synchronous [map] whose callback only reads the clock. *)
Lemma llama_run_map_sync {A B : Type} (f : A -> M B) (xs : list A) (w : World) :
  (forall x, exists y, run up (f x) w = (Ok y, w)) ->
  exists ys, run up (map_sync f xs) w = (Ok ys, w) /\
             Forall2 (fun x y => run up (f x) w = (Ok y, w)) xs ys.
Proof.
  intros Hf. induction xs as [| x xs' IH]; cbn [map_sync].
  - exists []. split; [reflexivity | constructor].
  - destruct (Hf x) as [y Hy]. destruct IH as [ys [Hrun Hall]].
    exists (y :: ys). rewrite llama_run_bind, Hy, llama_run_bind, Hrun.
    split; [reflexivity | now constructor].
Qed.

(** The pools of the next answer, as [response.data.data.filter] finds
    them. *)
Lemma llama_run_pools {B : Type} (k : list Pool -> M B) (w : World) :
  run up (bind (axios_get Pools) (fun body => bind (LendingService.pools_of body) k)) w =
  match llama_answer up w Pools with
  | Thrown e => (Thrown e, llama_after up w Pools)
  | Ok body =>
      match field_array "data" body with
      | Some all => run up (k all) (llama_after up w Pools)
      | None => (Thrown (LendingService.no_property "filter"), llama_after up w Pools)
      end
  end.
Proof.
  rewrite llama_run_bind, llama_run_get.
  destruct (llama_answer up w Pools) as [body | e]; [| reflexivity].
  rewrite llama_run_bind. unfold LendingService.pools_of. cbn [Item] in *.
  destruct body as [items | k' items |]; cbn; try reflexivity.
  destruct (String.eqb k' "data"); reflexivity.
Qed.

(** A continuation that only reads the clock settles at once, leaves the
    world as it is, and gives a result that depends on the time alone. *)
Lemma clock_only_pbind {A B : Type} (p : Prog A) (f : A -> Prog B) :
  clock_only p -> (forall a, clock_only (f a)) -> clock_only (pbind p f).
Proof.
  intros Hp Hf. induction Hp as [a | k _ IH]; cbn [pbind]; [apply Hf |].
  constructor. exact IH.
Qed.

Lemma clock_only_bind {A B : Type} (m : M A) (f : A -> M B) :
  clock_only m -> (forall a, clock_only (f a)) -> clock_only (bind m f).
Proof.
  intros Hm Hf. apply clock_only_pbind; [exact Hm |].
  intros [a | e]; [apply Hf | constructor].
Qed.

Lemma clock_only_try_catch {A : Type} (m : M A) (h : Error -> M A) :
  clock_only m -> (forall e, clock_only (h e)) -> clock_only (try_catch m h).
Proof.
  intros Hm Hh. apply clock_only_pbind; [exact Hm |].
  intros [a | e]; [constructor | apply Hh].
Qed.

Lemma clock_only_map_sync {A B : Type} (f : A -> M B) (xs : list A) :
  (forall x, clock_only (f x)) -> clock_only (map_sync f xs).
Proof.
  intros Hf. induction xs as [| x xs' IH]; cbn [map_sync]; [constructor |].
  apply clock_only_bind; [apply Hf |]. intros y.
  apply clock_only_bind; [exact IH |]. intros ys. constructor.
Qed.

Lemma clock_only_run_sync {A : Type} (p : Prog A) (w : World) :
  clock_only p -> run_sync up p w = (Settled (w_clock w) (fst (run up p w)), w).
Proof.
  intros Hp. induction Hp as [a | k _ IH]; [reflexivity |]. cbn. apply IH.
Qed.

Lemma clock_only_result {A : Type} (p : Prog A) (w w' : World) :
  clock_only p -> w_clock w' = w_clock w -> fst (run up p w') = fst (run up p w).
Proof.
  intros Hp E. induction Hp as [a | k _ IH]; [reflexivity |]. cbn. rewrite E. apply IH.
Qed.

Lemma await_both_settled {A B : Type} (fuel : nat) (s u : Z) (a : A) (b : B) (w : World) :
  await_both up fuel (Settled s a) (Settled u b) w = (Some ((s, a), (u, b)), w).
Proof. destruct fuel; reflexivity. Qed.

Lemma run_single_await {A : Type} (e : Endpoint)
    (k : Result (Document (Item e)) -> Prog A) (w : World) :
  run up (Vis (Get e) k) w = run up (k (llama_answer up w e)) (llama_after up w e).
Proof.
  unfold llama_answer, llama_after. cbn.
  destruct (up (length (w_calls w)) e) as [latency answer]. reflexivity.
Qed.

(** Two calls in flight that each make one request, the first then only
    reading the clock and the second not even that: both requests are
    issued at the start, each call goes on when its own answer has
    arrived, and each gives what it gives when it is awaited alone. *)
Lemma promise_all2_single_await {A B : Type} (p : M A) (q : M B) (e1 e2 : Endpoint)
    (k1 : Result (Document (Item e1)) -> M A) (k2 : Result (Document (Item e2)) -> M B)
    (fuel : nat) (w : World) :
  p = Vis (Get e1) k1 ->
  q = Vis (Get e2) k2 ->
  (2 <= fuel)%nat ->
  (forall x, clock_only (k1 x)) ->
  (forall x, clock_only (k2 x)) ->
  (forall x wa wb, fst (run up (k2 x) wa) = fst (run up (k2 x) wb)) ->
  let w1 := llama_after up w e1 in
  let t2 := w_clock w + Z.max 0 (fst (up (length (w_calls w1)) e2)) in
  promise_all2 up fuel p q w =
  (Some (all_settled (w_clock w1, fst (run up p w)) (t2, fst (run up q w1))),
   {| w_state := w_state w;
      w_clock := Z.max (w_clock w1) t2;
      w_calls := w_calls w ++ [(w_clock w, e1); (w_clock w, e2)] |}).
Proof.
  intros -> -> Hfuel H1 H2 Hfree w1 t2.
  rewrite !run_single_await. subst w1 t2.
  unfold promise_all2, llama_after, llama_answer.
  cbn [run_sync run step suspends w_calls w_clock w_state at_time].
  rewrite length_app. cbn [length].
  destruct (up (length (w_calls w)) e1) as [l1 a1].
  cbn [run_sync run step suspends w_calls w_clock w_state at_time fst snd].
  rewrite ?length_app. cbn [length].
  replace (length (w_calls w) + 1)%nat with (S (length (w_calls w))) by lia.
  destruct (up (S (length (w_calls w))) e2) as [l2 a2].
  cbn [run_sync run step suspends w_calls w_clock w_state at_time fst snd].
  destruct fuel as [| [| f]]; [lia | lia |].
  set (t1 := w_clock w + Z.max 0 l1). set (t2 := w_clock w + Z.max 0 l2).
  assert (w_clock w <= t1) by (subst t1; lia).
  assert (w_clock w <= t2) by (subst t2; lia).
  cbn [await_both]. unfold resume.
  destruct (t1 <=? t2) eqn:E.
  - apply Z.leb_le in E.
    rewrite (clock_only_run_sync (k1 a1)) by apply H1.
    cbn [await_both]. unfold resume.
    rewrite (clock_only_run_sync (k2 a2)) by apply H2.
    rewrite await_both_settled.
    cbn [option_map fst snd w_clock at_time w_state w_calls].
    rewrite <- app_assoc. cbn [app].
    replace (Z.max t2 (Z.max t1 (w_clock w))) with (Z.max t1 t2) by lia.
    replace (Z.max t1 (w_clock w)) with t1 by lia.
    replace (Z.max t1 t2) with t2 by lia.
    f_equal. f_equal. f_equal; f_equal.
    + apply clock_only_result; [apply H1 | reflexivity].
    + apply Hfree.
  - apply Z.leb_gt in E.
    rewrite (clock_only_run_sync (k2 a2)) by apply H2.
    cbn [await_both]. unfold resume.
    rewrite (clock_only_run_sync (k1 a1)) by apply H1.
    rewrite await_both_settled.
    cbn [option_map fst snd w_clock at_time w_state w_calls].
    rewrite <- app_assoc. cbn [app].
    replace (Z.max t1 (Z.max t2 (w_clock w))) with (Z.max t1 t2) by lia.
    replace (Z.max t2 (w_clock w)) with t2 by lia.
    replace (Z.max t1 t2) with t1 by lia.
    f_equal. f_equal. f_equal; f_equal.
    + apply clock_only_result; [apply H1 | reflexivity].
    + apply Hfree.
Qed.

End Llama_running.

(* ===================================================================== *)
(** * LendingService                                                      *)
(* ===================================================================== *)

Section Lending_rates.

Import Llama.

Variable up : Upstream.
Variable Number_toString : JS.number -> string.
Variable toISOString : Z -> string.

Let getLendingRates := LendingService.getLendingRates Number_toString toISOString.
Let lending_info := LendingService.lending_info Number_toString toISOString.

Lemma lending_info_returns (p : Pool) (w : World) :
  exists r, run up (lending_info p) w = (Ok r, w).
Proof. eexists. reflexivity. Qed.

Lemma getLendingRates_returns (token : string) (w : World) :
  let w' := llama_after up w Pools in
  exists result,
    run up (getLendingRates token) w = (Ok result, w') /\
    match pools_answer up w with
    | None => result = []
    | Some all =>
        Forall2 (fun p r => run up (lending_info p) w' = (Ok r, w'))
          (Array_sort LendingService.by_tvlUsd_desc
             (filter (fun p => LendingService.lending_match token p = true) all))
          result
    end.
Proof.
  intros w'. subst getLendingRates. unfold LendingService.getLendingRates.
  rewrite llama_run_try_catch, llama_run_pools.
  unfold pools_answer.
  destruct (llama_answer up w Pools) as [body | e].
  - destruct (field_array "data" body) as [all |].
    + destruct (llama_run_map_sync up lending_info
                  (Array_sort LendingService.by_tvlUsd_desc
                     (filter (fun p => LendingService.lending_match token p = true) all))
                  w' (fun p => lending_info_returns p w')) as [ys [Hrun Hall]].
      exists ys. subst lending_info w'. cbv zeta. cbn [Item] in *. rewrite Hrun. split; [reflexivity | exact Hall].
    + exists []. split; reflexivity.
  - exists []. split; reflexivity.
Qed.

Lemma lending_match_not_NaN (token : string) (p : Pool) :
  LendingService.lending_match token p = true -> JS.isNaN (tvlUsd p) = false.
Proof.
  unfold LendingService.lending_match. intros H.
  apply andb_true_iff in H as [_ H].
  destruct (tvlUsd p); [discriminate | reflexivity ..].
Qed.

(** X19. [getLendingRates] never rejects and makes exactly one request,
    which leaves the caches alone.  When the request fails or its body has
    no [data] array the result is empty.  Otherwise the entries describe,
    in this order, the pools of a list that holds exactly the pools of the
    answer on the Aptos chain (in any letter case) whose symbol contains
    the token (in any letter case) and whose TVL is at least 1000, in
    descending order of TVL. *)
Theorem getLendingRates_selection (token : string) (w : World) :
  let w' := llama_after up w Pools in
  exists result,
    run up (LendingService.getLendingRates Number_toString toISOString token) w
      = (Ok result, w') /\
    match pools_answer up w with
    | None => result = []
    | Some all =>
        exists ranked,
          Permutation ranked
            (filter (fun p => String.eqb (toLowerCase (chain p)) "aptos" = true /\
                              includes (toUpperCase (symbol p)) (toUpperCase token) = true /\
                              JS.leb (JS.Fin 1000) (tvlUsd p) = true) all) /\
          descending tvlUsd ranked /\
          Forall2 (fun p r =>
                     run up (LendingService.lending_info Number_toString toISOString p) w'
                       = (Ok r, w'))
                  ranked result
    end.
Proof.
  intros w'. destruct (getLendingRates_returns token w) as [result [Hrun Hres]].
  exists result. split; [exact Hrun |].
  destruct (pools_answer up w) as [all |]; [| exact Hres].
  set (matching := filter (fun p => LendingService.lending_match token p = true) all) in *.
  exists (Array_sort LendingService.by_tvlUsd_desc matching).
  split; [| split; [| exact Hres]].
  - rewrite Array_sort_permutation. subst matching.
    clear. induction all as [| p ps IH]; [reflexivity |].
    rewrite !filter_cons.
    assert (E : LendingService.lending_match token p = true <->
                (String.eqb (toLowerCase (chain p)) "aptos" = true /\
                 includes (toUpperCase (symbol p)) (toUpperCase token) = true /\
                 JS.leb (JS.Fin 1000) (tvlUsd p) = true)).
    { unfold LendingService.lending_match, LendingService.MIN_TVL.
      rewrite !andb_true_iff. tauto. }
    repeat case_decide; try tauto; now rewrite IH.
  - apply (Array_sort_descending tvlUsd).
    subst matching. apply Forall_forall. intros p Hp.
    apply list_elem_of_filter in Hp as [Hp _].
    now apply lending_match_not_NaN with token.
Qed.

Lemma getLiquidityPools_run (token : option string) (w : World) :
  snd (run up (LendingService.getLiquidityPools token) w) = llama_after up w Pools /\
  match llama_answer up w Pools with
  | Thrown e => fst (run up (LendingService.getLiquidityPools token) w) = Thrown e
  | Ok body =>
      match field_array "data" body with
      | None => exists e, fst (run up (LendingService.getLiquidityPools token) w) = Thrown e
      | Some all =>
          exists listed, fst (run up (LendingService.getLiquidityPools token) w) = Ok listed
      end
  end.
Proof.
  unfold LendingService.getLiquidityPools.
  rewrite llama_run_try_catch, llama_run_pools.
  destruct (llama_answer up w Pools) as [body | e]; [| split; reflexivity].
  destruct (field_array "data" body) as [all |];
    (split; [reflexivity | eexists; reflexivity]).
Qed.

(** X20. [getLiquidityPools] makes one request and rejects exactly when it
    fails, with the error of the request, or when its body has no [data]
    array.  Otherwise it lists the Aptos pools whose symbol contains the
    token exactly as written, every Aptos pool when the token is missing
    or empty; the list is in descending order of TVL when no TVL of the
    answer is NaN. *)
Theorem getLiquidityPools_outcome (token : option string) (w : World) :
  let outcome := run up (LendingService.getLiquidityPools token) w in
  snd outcome = llama_after up w Pools /\
  match llama_answer up w Pools with
  | Thrown e => fst outcome = Thrown e
  | Ok body =>
      match field_array "data" body with
      | None => exists e, fst outcome = Thrown e
      | Some all =>
          exists listed,
            fst outcome = Ok listed /\
            Permutation listed
              (map LendingService.liquidity_info
                 (filter (fun p => String.eqb (toLowerCase (chain p)) "aptos" = true /\
                                   match token with
                                   | Some (String c t) => includes (symbol p) (String c t)
                                   | _ => true
                                   end = true) all)) /\
            (Forall (fun p => JS.isNaN (tvlUsd p) = false) all ->
             descending tvl_total listed)
      end
  end.
Proof.
  intros outcome. subst outcome. unfold LendingService.getLiquidityPools.
  rewrite llama_run_try_catch, llama_run_pools.
  destruct (llama_answer up w Pools) as [body | e]; [| split; reflexivity].
  destruct (field_array "data" body) as [all |].
  2: { split; [reflexivity | eexists; reflexivity]. }
  split; [reflexivity |]. eexists. split; [reflexivity |]. split.
  - rewrite Array_sort_permutation. apply Permutation_map.
    clear. induction all as [| p ps IH]; [reflexivity |].
    rewrite !filter_cons.
    assert (E : LendingService.liquidity_match token p = true <->
                (String.eqb (toLowerCase (chain p)) "aptos" = true /\
                 match token with
                 | Some (String c t) => includes (symbol p) (String c t)
                 | _ => true
                 end = true)).
    { unfold LendingService.liquidity_match. rewrite andb_true_iff.
      destruct token as [[| c t] |]; cbn; intuition. }
    repeat case_decide; try tauto; now rewrite IH.
  - intros Hall.
    apply (Array_sort_descending tvl_total).
    apply Forall_map. eapply Forall_impl.
    + apply Forall_forall. intros p Hp.
      apply list_elem_of_filter in Hp as [_ Hp].
      exact (proj1 (Forall_forall _ _) Hall p Hp).
    + intros p Hp. exact Hp.
Qed.

Lemma lending_continuation_clock_only (token : string)
    (x : Result (Document (Item Pools))) :
  clock_only
    (pbind
       (pbind (Ret x)
          (fun r =>
             match r with
             | Ok body =>
                 bind (LendingService.pools_of body)
                   (fun all =>
                      map_sync lending_info
                        (Array_sort LendingService.by_tvlUsd_desc
                           (filter (fun p => LendingService.lending_match token p = true)
                              all)))
             | Thrown e => Ret (Thrown e)
             end))
       (fun r => match r with Ok a => Ret (Ok a) | Thrown e => ret [] end)).
Proof.
  apply clock_only_pbind.
  - cbn [pbind]. destruct x as [body | e]; [| constructor].
    apply clock_only_bind.
    + unfold LendingService.pools_of.
      destruct body as [items | key items |]; cbn; try constructor.
      destruct (String.eqb key "data"); constructor.
    + intros all. apply clock_only_map_sync. intros p.
      subst lending_info. unfold LendingService.lending_info.
      constructor. intros t. constructor.
  - intros [a | e]; constructor.
Qed.

Lemma liquidity_continuation_clock_only (token : option string)
    (x : Result (Document (Item Pools))) :
  clock_only
    (pbind
       (pbind (Ret x)
          (fun r =>
             match r with
             | Ok body =>
                 bind (LendingService.pools_of body)
                   (fun all =>
                      ret (Array_sort LendingService.by_total_desc
                             (map LendingService.liquidity_info
                                (filter (fun p => LendingService.liquidity_match token p = true)
                                   all))))
             | Thrown e => Ret (Thrown e)
             end))
       (fun r => match r with Ok a => Ret (Ok a) | Thrown e => throw e end)).
Proof.
  apply clock_only_pbind.
  - cbn [pbind]. destruct x as [body | e]; [| constructor].
    apply clock_only_bind.
    + unfold LendingService.pools_of.
      destruct body as [items | key items |]; cbn; try constructor.
      destruct (String.eqb key "data"); constructor.
    + intros all. constructor.
  - intros [a | e]; constructor.
Qed.

Lemma liquidity_continuation_result (token : option string)
    (x : Result (Document (Item Pools))) (wa wb : World) :
  fst (run up
         (pbind
            (pbind (Ret x)
               (fun r =>
                  match r with
                  | Ok body =>
                      bind (LendingService.pools_of body)
                        (fun all =>
                           ret (Array_sort LendingService.by_total_desc
                                  (map LendingService.liquidity_info
                                     (filter
                                        (fun p => LendingService.liquidity_match token p = true)
                                        all))))
                  | Thrown e => Ret (Thrown e)
                  end))
            (fun r => match r with Ok a => Ret (Ok a) | Thrown e => throw e end)) wa)
  = fst (run up
         (pbind
            (pbind (Ret x)
               (fun r =>
                  match r with
                  | Ok body =>
                      bind (LendingService.pools_of body)
                        (fun all =>
                           ret (Array_sort LendingService.by_total_desc
                                  (map LendingService.liquidity_info
                                     (filter
                                        (fun p => LendingService.liquidity_match token p = true)
                                        all))))
                  | Thrown e => Ret (Thrown e)
                  end))
            (fun r => match r with Ok a => Ret (Ok a) | Thrown e => throw e end)) wb).
Proof.
  destruct x as [body | e]; [| reflexivity].
  destruct body as [items | key items |]; try reflexivity.
  cbn [pbind bind]. unfold LendingService.pools_of. cbn [field_array].
  destruct (String.eqb key "data"); reflexivity.
Qed.

(** X21. [getYieldOpportunities] issues its two requests at the start,
    before either answer is there, and changes no cache.  Given fuel for
    the two resumptions it settles: it rejects exactly when the second
    request, for the liquidity pools, fails or is unusable, whatever the
    first one brought; otherwise it returns the lending rates of the first
    answer, the liquidity pools of the second answer, and no staking
    entry. *)
Theorem getYieldOpportunities_needs_liquidity (token : string) (fuel : nat) (w : World) :
  (2 <= fuel)%nat ->
  let w1 := llama_after up w Pools in
  let outcome :=
    LendingService.getYieldOpportunities Number_toString toISOString up fuel token w in
  w_calls (snd outcome) = w_calls w ++ [(w_clock w, Pools); (w_clock w, Pools)] /\
  w_state (snd outcome) = w_state w /\
  match pools_answer up w1 with
  | None => exists e, fst outcome = Some (Thrown e)
  | Some _ =>
      exists y,
        fst outcome = Some (Ok y) /\
        staking y = [] /\
        fst (run up (LendingService.getLendingRates Number_toString toISOString token) w)
          = Ok (lending y) /\
        fst (run up (LendingService.getLiquidityPools (Some token)) w1) = Ok (liquidity y)
  end.
Proof.
  intros Hfuel w1 outcome. subst outcome.
  unfold LendingService.getYieldOpportunities.
  rewrite (promise_all2_single_await up
             (LendingService.getLendingRates Number_toString toISOString token)
             (LendingService.getLiquidityPools (Some token))
             Pools Pools _ _ fuel w eq_refl eq_refl Hfuel
             (lending_continuation_clock_only token)
             (liquidity_continuation_clock_only (Some token))
             (liquidity_continuation_result (Some token))).
  fold w1.
  cbn [fst snd w_calls w_state option_map].
  split; [reflexivity |]. split; [reflexivity |].
  destruct (getLendingRates_returns token w) as [rates [Hrun _]].
  destruct (getLiquidityPools_run (Some token) w1) as [_ Hout].
  subst getLendingRates. rewrite Hrun. cbn [fst].
  unfold pools_answer.
  destruct (llama_answer up w1 Pools) as [body | e].
  - destruct (field_array "data" body) as [all |].
    + destruct Hout as [listed Hout]. rewrite Hout.
      eexists. split; [reflexivity |]. cbn. repeat split.
    + destruct Hout as [e Hout]. rewrite Hout. now exists e.
  - rewrite Hout. now exists e.
Qed.

End Lending_rates.

Section Lending_rates_evaluation.

Import Llama.

Lemma getLiquidityPools_outcome_witness :
  Forall (fun p => JS.isNaN (tvlUsd p) = false) sample_pools /\
  exists listed,
    fst (run llama_online (LendingService.getLiquidityPools (Some "USDC")) llama_cold)
      = Ok listed /\
    map liquidity_protocol listed = ["Aries Markets"; "Thala"] /\
    descending tvl_total listed.
Proof.
  assert (Hall : Forall (fun p => JS.isNaN (tvlUsd p) = false) sample_pools)
    by (repeat constructor).
  split; [exact Hall |].
  destruct (getLiquidityPools_outcome llama_online (Some "USDC") llama_cold) as [_ H].
  change (llama_answer llama_online llama_cold Pools)
    with (Ok (Keyed "data" sample_pools) : Result (Document (Item Pools))) in H.
  change (field_array "data" (Keyed "data" sample_pools)) with (Some sample_pools) in H.
  cbv beta iota in H. destruct H as [listed [H1 [_ H3]]].
  exists listed. split; [exact H1 |]. split; [| exact (H3 Hall)].
  vm_compute in H1. injection H1 as <-. reflexivity.
Defined.

Lemma getYieldOpportunities_needs_liquidity_witness :
  (2 <= 2)%nat /\
  let outcome :=
    LendingService.getYieldOpportunities (fun _ => "1") (fun _ => "now")
      llama_slow_start 2 "USDC" llama_cold in
  w_calls (snd outcome) = [(t0, Pools); (t0, Pools)] /\
  w_clock (snd outcome) = t0 + 900 /\
  exists y,
    fst outcome = Some (Ok y) /\
    map lending_protocol (lending y) = ["Aries Markets"; "Thala"] /\
    map liquidity_protocol (liquidity y) = ["Aries Markets"; "Thala"] /\
    staking y = [].
Proof.
  split; [lia |].
  pose proof (getYieldOpportunities_needs_liquidity llama_slow_start
                (fun _ => "1") (fun _ => "now") "USDC" 2 llama_cold
                (le_n 2)) as H.
  cbv zeta in H. destruct H as (Hcalls & _ & H).
  cbv zeta. split; [exact Hcalls |]. split; [vm_compute; reflexivity |].
  change (pools_answer llama_slow_start (llama_after llama_slow_start llama_cold Pools))
    with (Some sample_pools) in H.
  destruct H as (y & Hy & Hs & _).
  exists y. split; [exact Hy |].
  vm_compute in Hy. injection Hy as <-. repeat split.
Defined.

End Lending_rates_evaluation.

Section Expected_output.

Import JS.

Lemma toFixed_same (x y : number) (d : nat) : same x y -> toFixed x d = toFixed y d.
Proof.
  destruct x as [| | | a], y as [| | | b]; cbn [same]; try tauto.
  intros E. unfold toFixed, sgn, scaled_round.
  assert (Es : (a ?= 0)%Q = (b ?= 0)%Q) by now rewrite E.
  assert (E1 : Qfloor (a * inject_Z (pow10 d) + (1 # 2))
               = Qfloor (b * inject_Z (pow10 d) + (1 # 2))) by now rewrite E.
  assert (E2 : Qfloor (- a * inject_Z (pow10 d) + (1 # 2))
               = Qfloor (- b * inject_Z (pow10 d) + (1 # 2))) by now rewrite E.
  rewrite Es, E1, E2. reflexivity.
Qed.

Lemma num_or_unpriced (priceData : gmap string number) (token : string) :
  unpriced priceData token -> num_or (priceData !! ("aptos:" +:+ token)) (Fin 1) = Fin 1.
Proof.
  unfold unpriced, num_or, or_else.
  destruct (priceData !! ("aptos:" +:+ token)) as [p |]; [| reflexivity].
  now intros ->.
Qed.

(** X22. [calculateExpectedOutput] values a token at 1 when the price data
    has no entry for it, or an entry whose price is zero or NaN: when this
    holds for both tokens the expected output is the input amount itself,
    printed with six decimals. *)
Theorem calculateExpectedOutput_unpriced (amount : string) (priceData : gmap string number)
    (tokenIn tokenOut : string) :
  unpriced priceData tokenIn -> unpriced priceData tokenOut ->
  LendingService.calculateExpectedOutput amount priceData tokenIn tokenOut
    = toFixed (parseFloat amount) 6.
Proof.
  intros Hin Hout. unfold LendingService.calculateExpectedOutput.
  rewrite (num_or_unpriced _ _ Hin), (num_or_unpriced _ _ Hout).
  apply toFixed_same.
  destruct (parseFloat amount) as [| | | a]; try exact I.
  change (a * 1 / 1 == a)%Q. field.
Qed.

Lemma calculateExpectedOutput_unpriced_witness :
  unpriced {[ "aptos:APT" := Fin 6.75 ]} "MOJO" /\
  unpriced {[ "aptos:APT" := Fin 6.75 ]} "DOGE" /\
  LendingService.calculateExpectedOutput "12.5" {[ "aptos:APT" := Fin 6.75 ]} "MOJO" "DOGE"
    = "12.500000".
Proof.
  assert (H1 : unpriced {[ "aptos:APT" := Fin 6.75 ]} "MOJO") by (vm_compute; exact I).
  assert (H2 : unpriced {[ "aptos:APT" := Fin 6.75 ]} "DOGE") by (vm_compute; exact I).
  split; [exact H1 | split; [exact H2 |]].
  rewrite (calculateExpectedOutput_unpriced "12.5" _ "MOJO" "DOGE" H1 H2).
  vm_compute. reflexivity.
Defined.

End Expected_output.

(* ===================================================================== *)
(** * DeFiLlamaService: the TVL cache                                     *)
(* ===================================================================== *)

Section Llama_tvl.

Import Llama.

Lemma valid_inv {A : Type} (cache : option (Cached A)) (now : Z) :
  DeFiLlamaService.valid cache now = true ->
  exists c, cache = Some c /\ now - timestamp c < DeFiLlamaService.CACHE_DURATION.
Proof.
  destruct cache as [c |]; cbn; [| discriminate].
  intros H. exists c. split; [reflexivity | lia].
Qed.

Lemma valid_intro {A : Type} (c : Cached A) (now : Z) :
  now - timestamp c < DeFiLlamaService.CACHE_DURATION ->
  DeFiLlamaService.valid (Some c) now = true.
Proof. cbn. lia. Qed.

Lemma getAptosTVL_hit (up : Upstream) (w : World) (c : Cached JS.number) :
  tvlCache (w_state w) = Some c ->
  w_clock w - timestamp c < DeFiLlamaService.CACHE_DURATION ->
  run up DeFiLlamaService.getAptosTVL w = (Ok (data c), w).
Proof.
  intros Hc Hfresh. unfold DeFiLlamaService.getAptosTVL.
  rewrite llama_run_bind, llama_run_dateNow, llama_run_bind, llama_run_gets, Hc.
  rewrite (valid_intro c _ Hfresh). reflexivity.
Qed.

Variable up : Upstream.

Lemma getAptosTVL_miss (w : World) :
  DeFiLlamaService.valid (tvlCache (w_state w)) (w_clock w) = false ->
  run up DeFiLlamaService.getAptosTVL w =
  match aptos_tvl_answer up w with
  | Some v =>
      (Ok v,
       llama_with_state
         (DeFiLlamaService.set_tvlCache {| data := v; timestamp := w_clock w |})
         (llama_after up w Chains))
  | None =>
      (Ok match tvlCache (w_state w) with
          | Some c => data c
          | None => JS.Fin 117000000
          end,
       llama_after up w Chains)
  end.
Proof.
  intros Hv. unfold DeFiLlamaService.getAptosTVL.
  rewrite llama_run_bind, llama_run_dateNow, llama_run_bind, llama_run_gets.
  cbv beta.
  destruct (tvlCache (w_state w)) as [c |] eqn:Hc; [rewrite Hv |];
    rewrite llama_run_try_catch, llama_run_bind, llama_run_get;
    unfold aptos_tvl_answer;
    (destruct (llama_answer up w Chains) as [body | e];
       [| cbn; rewrite ?Hc; reflexivity]);
    (destruct (as_array body) as [chains |]; [| cbn; rewrite ?Hc; reflexivity]);
    cbn [Item] in *;
    (destruct (find DeFiLlamaService.is_aptos chains) as [aptosData |];
       [| cbn; rewrite ?Hc; reflexivity]);
    (destruct (chain_tvl aptosData) as [v |]; [| cbn; rewrite ?Hc; reflexivity]);
    reflexivity.
Qed.

(** X23. [getAptosTVL] never rejects.  When it has to refresh and the
    request fails, or the answer is not an array that lists Aptos with a
    TVL, it returns the cached value however old that is, and 117000000
    when nothing was ever cached; the cache is left as it was, so the next
    call tries again. *)
Theorem getAptosTVL_failed_refresh (w : World) :
  exists v,
    fst (run up DeFiLlamaService.getAptosTVL w) = Ok v /\
    (DeFiLlamaService.valid (tvlCache (w_state w)) (w_clock w) = false ->
     aptos_tvl_answer up w = None ->
     v = match tvlCache (w_state w) with
         | Some c => data c
         | None => JS.Fin 117000000
         end /\
     snd (run up DeFiLlamaService.getAptosTVL w) = llama_after up w Chains).
Proof.
  destruct (DeFiLlamaService.valid (tvlCache (w_state w)) (w_clock w)) eqn:Hv.
  - destruct (valid_inv _ _ Hv) as [c [Hc Hfresh]].
    rewrite (getAptosTVL_hit up w c Hc Hfresh).
    exists (data c). split; [reflexivity | discriminate].
  - rewrite (getAptosTVL_miss w Hv).
    destruct (aptos_tvl_answer up w) as [v |].
    + exists v. split; [reflexivity | discriminate].
    + eexists. split; [reflexivity |]. intros _ _. split; reflexivity.
Qed.

(** X24. A refresh of the TVL is remembered: when [getAptosTVL] has to
    refresh and the answer lists Aptos with TVL [v], it returns [v], and
    every later call that starts less than ten minutes after the
    refreshing call started (not after its answer arrived) returns [v]
    again without a request and without touching the caches. *)
Theorem getAptosTVL_cache_round_trip (w : World) (v : JS.number) :
  DeFiLlamaService.valid (tvlCache (w_state w)) (w_clock w) = false ->
  aptos_tvl_answer up w = Some v ->
  let w1 := snd (run up DeFiLlamaService.getAptosTVL w) in
  fst (run up DeFiLlamaService.getAptosTVL w) = Ok v /\
  w_calls w1 = w_calls w ++ [(w_clock w, Chains)] /\
  forall (up2 : Upstream) (w2 : World),
    w_state w2 = w_state w1 ->
    w_clock w2 - w_clock w < DeFiLlamaService.CACHE_DURATION ->
    run up2 DeFiLlamaService.getAptosTVL w2 = (Ok v, w2).
Proof.
  intros Hv Ha w1. subst w1. rewrite (getAptosTVL_miss w Hv), Ha. cbn [fst snd].
  split; [reflexivity |]. split; [reflexivity |].
  intros up2 w2 Hs Ht.
  apply (getAptosTVL_hit up2 w2 {| data := v; timestamp := w_clock w |}).
  - rewrite Hs. reflexivity.
  - exact Ht.
Qed.

End Llama_tvl.

Section Llama_tvl_evaluation.

Import Llama.

Lemma getAptosTVL_failed_refresh_witness :
  DeFiLlamaService.valid (tvlCache (w_state llama_stale)) (w_clock llama_stale) = false /\
  aptos_tvl_answer llama_offline llama_stale = None /\
  run llama_offline DeFiLlamaService.getAptosTVL llama_stale
    = (Ok (JS.Fin 120000000), llama_after llama_offline llama_stale Chains).
Proof.
  assert (H1 : DeFiLlamaService.valid (tvlCache (w_state llama_stale)) (w_clock llama_stale)
               = false) by reflexivity.
  assert (H2 : aptos_tvl_answer llama_offline llama_stale = None) by reflexivity.
  split; [exact H1 | split; [exact H2 |]].
  destruct (getAptosTVL_failed_refresh llama_offline llama_stale) as [v [Hv H]].
  destruct (H H1 H2) as [Hval Hw].
  rewrite (surjective_pairing (run llama_offline DeFiLlamaService.getAptosTVL llama_stale)).
  rewrite Hv, Hw, Hval. reflexivity.
Defined.

Lemma getAptosTVL_cache_round_trip_witness :
  DeFiLlamaService.valid (tvlCache (w_state llama_stale)) (w_clock llama_stale) = false /\
  aptos_tvl_answer llama_online llama_stale = Some (JS.Fin 123000000) /\
  fst (run llama_online DeFiLlamaService.getAptosTVL llama_stale) = Ok (JS.Fin 123000000).
Proof.
  assert (H1 : DeFiLlamaService.valid (tvlCache (w_state llama_stale)) (w_clock llama_stale)
               = false) by reflexivity.
  assert (H2 : aptos_tvl_answer llama_online llama_stale = Some (JS.Fin 123000000))
    by reflexivity.
  split; [exact H1 | split; [exact H2 |]].
  exact (proj1 (getAptosTVL_cache_round_trip llama_online llama_stale _ H1 H2)).
Defined.

End Llama_tvl_evaluation.

(* ===================================================================== *)
(** * DeFiLlamaService: protocols                                         *)
(* ===================================================================== *)

Section Slices.

Context {A : Type}.

Lemma slice0_length (l : list A) (limit : Z) : (length (slice0 l limit) <= length l)%nat.
Proof.
  unfold slice0. destruct (limit <? 0); rewrite length_firstn; lia.
Qed.

Lemma slice0_length_limit (l : list A) (limit : Z) :
  0 <= limit -> Z.of_nat (length (slice0 l limit)) <= limit.
Proof.
  intros H. unfold slice0. destruct (limit <? 0) eqn:E; [lia |].
  rewrite length_firstn. lia.
Qed.

Lemma slice0_Forall (P : A -> Prop) (l : list A) (limit : Z) :
  Forall P l -> Forall P (slice0 l limit).
Proof.
  intros H. unfold slice0. destruct (limit <? 0); now apply Forall_take.
Qed.

End Slices.

Section Llama_protocols.

Import Llama.

Lemma getTopAptosProtocols_hit (up : Upstream) (limit : option Z) (w : World)
    (c : Cached (list ProtocolData)) :
  protocolsCache (w_state w) = Some c ->
  w_clock w - timestamp c < DeFiLlamaService.CACHE_DURATION ->
  run up (DeFiLlamaService.getTopAptosProtocols limit) w
    = (Ok (slice0 (data c) (default 5 limit)), w).
Proof.
  intros Hc Hfresh. unfold DeFiLlamaService.getTopAptosProtocols.
  rewrite llama_run_bind, llama_run_dateNow, llama_run_bind, llama_run_gets, Hc.
  rewrite (valid_intro c _ Hfresh). reflexivity.
Qed.

Variable up : Upstream.

Lemma getTopAptosProtocols_miss (limit : option Z) (w : World) :
  DeFiLlamaService.valid (protocolsCache (w_state w)) (w_clock w) = false ->
  run up (DeFiLlamaService.getTopAptosProtocols limit) w =
  match tracked_answer up w with
  | Some [] =>
      (Ok (DeFiLlamaService.getFallbackProtocolData (default 5 limit)),
       llama_after up w Protocols)
  | Some (p :: ps) =>
      let mapped :=
        map DeFiLlamaService.protocol_data
          (slice0 (Array_sort DeFiLlamaService.by_tvl_desc (p :: ps)) (default 5 limit)) in
      (Ok mapped,
       llama_with_state
         (DeFiLlamaService.set_protocolsCache {| data := mapped; timestamp := w_clock w |})
         (llama_after up w Protocols))
  | None =>
      (Ok match protocolsCache (w_state w) with
          | Some c => slice0 (data c) (default 5 limit)
          | None => DeFiLlamaService.getFallbackProtocolData (default 5 limit)
          end,
       llama_after up w Protocols)
  end.
Proof.
  intros Hv. unfold DeFiLlamaService.getTopAptosProtocols.
  rewrite llama_run_bind, llama_run_dateNow, llama_run_bind, llama_run_gets.
  cbv beta zeta.
  destruct (protocolsCache (w_state w)) as [c |] eqn:Hc; [rewrite Hv |];
    rewrite llama_run_try_catch, llama_run_bind, llama_run_get;
    unfold tracked_answer;
    (destruct (llama_answer up w Protocols) as [body | e];
       [| cbn; rewrite ?Hc; reflexivity]);
    (destruct (as_array body) as [protocols |]; [| cbn; rewrite ?Hc; reflexivity]);
    cbn [Item] in *;
    (destruct (filter (fun p => DeFiLlamaService.tracked p = true) protocols)
       as [| p ps]; reflexivity).
Qed.

Lemma getTopAptosProtocols_returns (limit : option Z) (w : World) :
  exists l w', run up (DeFiLlamaService.getTopAptosProtocols limit) w = (Ok l, w').
Proof.
  destruct (DeFiLlamaService.valid (protocolsCache (w_state w)) (w_clock w)) eqn:Hv.
  - destruct (valid_inv _ _ Hv) as [c [Hc Hfresh]].
    rewrite (getTopAptosProtocols_hit up limit w c Hc Hfresh). eauto.
  - rewrite (getTopAptosProtocols_miss limit w Hv).
    destruct (tracked_answer up w) as [[| p ps] |]; eauto.
Qed.

(** X25. The protocol cache remembers the list as it was cut for the call
    that refreshed it.  When [getTopAptosProtocols(n)] has to refresh and
    the answer has tracked protocols, it returns at most [n] of them, and
    every call that starts less than ten minutes after that call started
    returns, without a request, the first entries of that same list:
    never more than the refreshing call returned, whatever limit it passes
    and however many tracked protocols the answer had. *)
Theorem getTopAptosProtocols_limit_sticks (n : Z) (w : World) (found : list Protocol) :
  DeFiLlamaService.valid (protocolsCache (w_state w)) (w_clock w) = false ->
  tracked_answer up w = Some found ->
  found <> [] ->
  let w1 := snd (run up (DeFiLlamaService.getTopAptosProtocols (Some n)) w) in
  exists first,
    fst (run up (DeFiLlamaService.getTopAptosProtocols (Some n)) w) = Ok first /\
    first = map DeFiLlamaService.protocol_data
              (slice0 (Array_sort DeFiLlamaService.by_tvl_desc found) n) /\
    (0 <= n -> Z.of_nat (length first) <= n) /\
    forall (up2 : Upstream) (w2 : World) (m : option Z),
      w_state w2 = w_state w1 ->
      w_clock w2 - w_clock w < DeFiLlamaService.CACHE_DURATION ->
      exists later,
        run up2 (DeFiLlamaService.getTopAptosProtocols m) w2 = (Ok later, w2) /\
        later = slice0 first (default 5 m) /\
        (length later <= length first)%nat.
Proof.
  intros Hv Ha Hne w1. subst w1.
  rewrite (getTopAptosProtocols_miss (Some n) w Hv), Ha.
  destruct found as [| p ps]; [congruence |]. cbn [fst snd default].
  eexists. split; [reflexivity |]. split; [reflexivity |]. split.
  - intros Hn. rewrite length_map. now apply slice0_length_limit.
  - intros up2 w2 m Hs Ht. eexists. split; [| split; [reflexivity |]].
    + apply (getTopAptosProtocols_hit up2 m w2
               {| data := map DeFiLlamaService.protocol_data
                            (slice0 (Array_sort DeFiLlamaService.by_tvl_desc (p :: ps)) n);
                  timestamp := w_clock w |}).
      * rewrite Hs. reflexivity.
      * exact Ht.
    + apply slice0_length.
Qed.

(** X26. [getTopAptosProtocols] never rejects.  When it has to refresh and
    the answer is an array without a tracked protocol, it returns the
    hard-coded list even when older data is cached; when the request fails
    or the answer is not an array, it returns the cached data however old,
    and the hard-coded list only when nothing is cached.  In both cases
    the caches are left as they were: the hard-coded list is never
    cached. *)
Theorem getTopAptosProtocols_without_data (limit : option Z) (w : World) :
  exists l,
    fst (run up (DeFiLlamaService.getTopAptosProtocols limit) w) = Ok l /\
    (DeFiLlamaService.valid (protocolsCache (w_state w)) (w_clock w) = false ->
     tracked_answer up w = Some [] ->
     l = DeFiLlamaService.getFallbackProtocolData (default 5 limit) /\
     snd (run up (DeFiLlamaService.getTopAptosProtocols limit) w)
       = llama_after up w Protocols) /\
    (DeFiLlamaService.valid (protocolsCache (w_state w)) (w_clock w) = false ->
     tracked_answer up w = None ->
     l = match protocolsCache (w_state w) with
         | Some c => slice0 (data c) (default 5 limit)
         | None => DeFiLlamaService.getFallbackProtocolData (default 5 limit)
         end /\
     snd (run up (DeFiLlamaService.getTopAptosProtocols limit) w)
       = llama_after up w Protocols).
Proof.
  destruct (DeFiLlamaService.valid (protocolsCache (w_state w)) (w_clock w)) eqn:Hv.
  - destruct (getTopAptosProtocols_returns limit w) as [l [w' Hrun]].
    rewrite Hrun. exists l. split; [reflexivity |]. split; discriminate.
  - rewrite (getTopAptosProtocols_miss limit w Hv).
    destruct (tracked_answer up w) as [[| p ps] |]; cbn [fst snd].
    + eexists. split; [reflexivity |]. split; [| discriminate].
      intros _ _. split; reflexivity.
    + eexists. split; [reflexivity |]. split; discriminate.
    + eexists. split; [reflexivity |]. split; [discriminate |].
      intros _ _. split; reflexivity.
Qed.

Lemma getProtocolDetails_run (protocolName : string) (w : World) :
  run up (DeFiLlamaService.getProtocolDetails protocolName) w =
  (Ok match llama_answer up w Protocols with
      | Ok body =>
          match field_array "protocols" body with
          | Some protocols =>
              option_map DeFiLlamaService.details_of
                (find (fun p => String.eqb (toLowerCase (name p)) (toLowerCase protocolName))
                      protocols)
          | None => None
          end
      | Thrown _ => None
      end,
   llama_after up w Protocols).
Proof.
  unfold DeFiLlamaService.getProtocolDetails.
  rewrite llama_run_try_catch, llama_run_bind, llama_run_get.
  destruct (llama_answer up w Protocols) as [body | e]; [| reflexivity].
  destruct (field_array "protocols" body) as [protocols |]; [| reflexivity].
  cbn [Item] in *.
  destruct (find _ protocols); reflexivity.
Qed.

(** X27. [getProtocolDetails] never rejects, and it reads the answer of
    [/protocols] in another shape than [getTopAptosProtocols] does: on one
    and the same answer at least one of the two comes back empty-handed.
    Either [getProtocolDetails] returns [null], or a refreshing
    [getTopAptosProtocols] takes the answer for invalid, returns cached or
    hard-coded data and caches nothing. *)
Theorem getProtocolDetails_shape_conflict (protocolName : string) (limit : option Z)
    (w : World) :
  exists details,
    run up (DeFiLlamaService.getProtocolDetails protocolName) w
      = (Ok details, llama_after up w Protocols) /\
    (DeFiLlamaService.valid (protocolsCache (w_state w)) (w_clock w) = false ->
     details = None \/
     run up (DeFiLlamaService.getTopAptosProtocols limit) w
       = (Ok match protocolsCache (w_state w) with
             | Some c => slice0 (data c) (default 5 limit)
             | None => DeFiLlamaService.getFallbackProtocolData (default 5 limit)
             end,
          llama_after up w Protocols)).
Proof.
  rewrite getProtocolDetails_run. eexists. split; [reflexivity |].
  intros Hv. rewrite (getTopAptosProtocols_miss limit w Hv). unfold tracked_answer.
  destruct (llama_answer up w Protocols) as [body | e]; [| now left].
  destruct body as [items | k items |]; cbn [field_array as_array]; [now left | | now left].
  right. reflexivity.
Qed.

End Llama_protocols.

Section Llama_protocols_evaluation.

Import Llama.

Lemma getTopAptosProtocols_limit_sticks_witness :
  DeFiLlamaService.valid (protocolsCache (w_state llama_cold)) (w_clock llama_cold) = false /\
  (exists found, tracked_answer llama_online llama_cold = Some found /\ length found = 3%nat) /\
  exists first,
    fst (run llama_online (DeFiLlamaService.getTopAptosProtocols (Some 1)) llama_cold)
      = Ok first /\
    map protocol_name first = ["PancakeSwap AMM"].
Proof.
  assert (H1 : DeFiLlamaService.valid (protocolsCache (w_state llama_cold))
                 (w_clock llama_cold) = false) by reflexivity.
  split; [exact H1 |].
  destruct (tracked_answer llama_online llama_cold) as [found |] eqn:H2;
    [| vm_compute in H2; discriminate].
  assert (H3 : found <> []).
  { vm_compute in H2. injection H2 as <-. discriminate. }
  split.
  - exists found. split; [reflexivity |].
    vm_compute in H2. injection H2 as <-. reflexivity.
  - destruct (getTopAptosProtocols_limit_sticks llama_online 1 llama_cold found H1 H2 H3)
      as [first [Hrun [Hfirst _]]].
    exists first. split; [exact Hrun |].
    rewrite Hfirst. vm_compute in H2. injection H2 as <-. vm_compute. reflexivity.
Defined.

Lemma getTopAptosProtocols_without_data_witness :
  DeFiLlamaService.valid (protocolsCache (w_state llama_cold)) (w_clock llama_cold) = false /\
  tracked_answer llama_offline llama_cold = None /\
  fst (run llama_offline (DeFiLlamaService.getTopAptosProtocols (Some 2)) llama_cold)
    = Ok (DeFiLlamaService.getFallbackProtocolData 2).
Proof.
  assert (H1 : DeFiLlamaService.valid (protocolsCache (w_state llama_cold))
                 (w_clock llama_cold) = false) by reflexivity.
  assert (H2 : tracked_answer llama_offline llama_cold = None) by reflexivity.
  split; [exact H1 | split; [exact H2 |]].
  destruct (getTopAptosProtocols_without_data llama_offline (Some 2) llama_cold)
    as [l [Hrun [_ H]]].
  destruct (H H1 H2) as [Hl _]. rewrite Hrun, Hl. reflexivity.
Defined.

Lemma getProtocolDetails_shape_conflict_witness :
  DeFiLlamaService.valid (protocolsCache (w_state llama_cold)) (w_clock llama_cold) = false /\
  (exists d, fst (run llama_keyed (DeFiLlamaService.getProtocolDetails "thala lsd") llama_cold)
               = Ok (Some d) /\ details_name d = "Thala LSD") /\
  fst (run llama_keyed (DeFiLlamaService.getTopAptosProtocols None) llama_cold)
    = Ok (DeFiLlamaService.getFallbackProtocolData 5).
Proof.
  assert (H1 : DeFiLlamaService.valid (protocolsCache (w_state llama_cold))
                 (w_clock llama_cold) = false) by reflexivity.
  split; [exact H1 |].
  destruct (getProtocolDetails_shape_conflict llama_keyed "thala lsd" None llama_cold)
    as [details [Hrun H]].
  assert (Hd : exists d, details = Some d /\ details_name d = "Thala LSD").
  { vm_compute in Hrun. injection Hrun as <-. eexists. split; reflexivity. }
  destruct Hd as [d [-> Hname]].
  split.
  - exists d. rewrite Hrun. split; [reflexivity | exact Hname].
  - destruct (H H1) as [Hnone | Htop]; [discriminate |].
    rewrite Htop. reflexivity.
Defined.

End Llama_protocols_evaluation.

(* ===================================================================== *)
(** * DeFiLlamaService: pools and yields                                  *)
(* ===================================================================== *)

Section Llama_pools.

Import Llama.

Lemma getAptosPools_hit (up : Upstream) (w : World) (c : Cached (list Pool)) :
  poolsCache (w_state w) = Some c ->
  w_clock w - timestamp c < DeFiLlamaService.CACHE_DURATION ->
  run up DeFiLlamaService.getAptosPools w = (Ok (data c), w).
Proof.
  intros Hc Hfresh. unfold DeFiLlamaService.getAptosPools.
  rewrite llama_run_bind, llama_run_dateNow, llama_run_bind, llama_run_gets, Hc.
  rewrite (valid_intro c _ Hfresh). reflexivity.
Qed.

Variable up : Upstream.

Lemma getAptosPools_miss (w : World) :
  DeFiLlamaService.valid (poolsCache (w_state w)) (w_clock w) = false ->
  run up DeFiLlamaService.getAptosPools w =
  match pools_answer up w with
  | Some all =>
      let aptosPools :=
        filter (fun p => String.eqb (toLowerCase (chain p)) "aptos" = true) all in
      (Ok aptosPools,
       llama_with_state
         (DeFiLlamaService.set_poolsCache {| data := aptosPools; timestamp := w_clock w |})
         (llama_after up w Pools))
  | None =>
      (Ok match poolsCache (w_state w) with
          | Some c => data c
          | None => []
          end,
       llama_after up w Pools)
  end.
Proof.
  intros Hv. unfold DeFiLlamaService.getAptosPools.
  rewrite llama_run_bind, llama_run_dateNow, llama_run_bind, llama_run_gets.
  cbv beta zeta.
  destruct (poolsCache (w_state w)) as [c |] eqn:Hc; [rewrite Hv |];
    rewrite llama_run_try_catch, llama_run_pools;
    unfold pools_answer;
    (destruct (llama_answer up w Pools) as [body | e];
       [| cbn; rewrite ?Hc; reflexivity]);
    (destruct (field_array "data" body) as [all |]; [| cbn; rewrite ?Hc; reflexivity]);
    reflexivity.
Qed.

Lemma getAptosPools_returns (w : World) :
  exists pools w', run up DeFiLlamaService.getAptosPools w = (Ok pools, w').
Proof.
  destruct (DeFiLlamaService.valid (poolsCache (w_state w)) (w_clock w)) eqn:Hv.
  - destruct (valid_inv _ _ Hv) as [c [Hc Hfresh]].
    rewrite (getAptosPools_hit up w c Hc Hfresh). eauto.
  - rewrite (getAptosPools_miss w Hv).
    destruct (pools_answer up w) as [all |]; eauto.
Qed.

(** X28. [getBestYieldOpportunities] never rejects and changes the caches
    only as [getAptosPools] does.  Its entries describe the first [limit]
    pools (five when no limit is passed) of a ranking that holds exactly
    the pools returned by [getAptosPools] whose symbol contains the token
    in any letter case; the ranking is in descending order of APY when no
    APY among those pools is NaN. *)
Theorem getBestYieldOpportunities_ranking (token : string) (limit : option Z) (w : World) :
  exists pools w',
    run up DeFiLlamaService.getAptosPools w = (Ok pools, w') /\
    exists ranked,
      Permutation ranked
        (filter (fun p => includes (toUpperCase (symbol p)) (toUpperCase token) = true)
                pools) /\
      (Forall (fun p => JS.isNaN (apy p) = false) pools -> descending apy ranked) /\
      run up (DeFiLlamaService.getBestYieldOpportunities token limit) w
        = (Ok (map DeFiLlamaService.yield_opportunity (slice0 ranked (default 5 limit))), w').
Proof.
  destruct (getAptosPools_returns w) as [pools [w' Hrun]].
  exists pools, w'. split; [exact Hrun |].
  exists (Array_sort DeFiLlamaService.by_apy_desc
            (filter (fun p => includes (toUpperCase (symbol p)) (toUpperCase token) = true)
                    pools)).
  split; [apply Array_sort_permutation |]. split.
  - intros Hall. apply (Array_sort_descending apy).
    apply Forall_forall. intros p Hp.
    apply list_elem_of_filter in Hp as [_ Hp].
    exact (proj1 (Forall_forall _ _) Hall p Hp).
  - unfold DeFiLlamaService.getBestYieldOpportunities.
    rewrite llama_run_try_catch, llama_run_bind, Hrun. reflexivity.
Qed.

Lemma eqb_aptos_Forall (all : list Pool) :
  Forall (fun p => toLowerCase (chain p) = "aptos")
         (filter (fun p => String.eqb (toLowerCase (chain p)) "aptos" = true) all).
Proof.
  apply Forall_forall. intros p Hp.
  apply list_elem_of_filter in Hp as [Hp _]. now apply String.eqb_eq.
Qed.

Lemma tracked_entry (p : Protocol) :
  DeFiLlamaService.tracked p = true ->
  In "Aptos" (protocol_chains (DeFiLlamaService.protocol_data p)) /\
  (exists n, In n DeFiLlamaService.APTOS_PROTOCOLS /\
             includes (protocol_name (DeFiLlamaService.protocol_data p)) n = true) /\
  JS.isNaN (protocol_tvl (DeFiLlamaService.protocol_data p)) = false.
Proof.
  unfold DeFiLlamaService.tracked. intros H.
  destruct (chains p) as [cs |] eqn:Ec; [| discriminate].
  apply andb_true_iff in H as [H1 H2].
  apply existsb_exists in H1 as [c [Hin Hc]]. apply String.eqb_eq in Hc. subst c.
  apply existsb_exists in H2 as [n [Hn Hinc]].
  split; [| split].
  - cbn. rewrite Ec. exact Hin.
  - exists n. split; [exact Hn | exact Hinc].
  - cbn. unfold JS.or_else.
    match goal with |- JS.isNaN (if JS.truthy ?x then _ else _) = false =>
      destruct x as [| | | q]; cbn; try reflexivity;
      destruct (JS.sgn q); reflexivity
    end.
Qed.

(** X29. The caches of [DeFiLlamaService] keep their shape under every
    function of the service: when the pool cache holds Aptos pools only
    and the protocol cache holds only tracked protocols on Aptos with a
    TVL that is not NaN, the same is true after [getAptosTVL],
    [getTopAptosProtocols], [getAptosPools], [getBestYieldOpportunities]
    and [getProtocolDetails], whatever DeFiLlama answers; and
    [getAptosPools] then returns Aptos pools only. *)
Theorem llama_caches_invariant (token protocolName : string) (limit : option Z) (w : World) :
  llama_caches_ok (w_state w) ->
  llama_caches_ok (w_state (snd (run up DeFiLlamaService.getAptosTVL w))) /\
  llama_caches_ok (w_state (snd (run up (DeFiLlamaService.getTopAptosProtocols limit) w))) /\
  llama_caches_ok (w_state (snd (run up DeFiLlamaService.getAptosPools w))) /\
  llama_caches_ok
    (w_state (snd (run up (DeFiLlamaService.getBestYieldOpportunities token limit) w))) /\
  llama_caches_ok
    (w_state (snd (run up (DeFiLlamaService.getProtocolDetails protocolName) w))) /\
  exists pools,
    fst (run up DeFiLlamaService.getAptosPools w) = Ok pools /\
    Forall (fun p => toLowerCase (chain p) = "aptos") pools.
Proof.
  intros Hok.
  assert (Hpools : llama_caches_ok (w_state (snd (run up DeFiLlamaService.getAptosPools w))) /\
                   exists pools,
                     fst (run up DeFiLlamaService.getAptosPools w) = Ok pools /\
                     Forall (fun p => toLowerCase (chain p) = "aptos") pools).
  { destruct (DeFiLlamaService.valid (poolsCache (w_state w)) (w_clock w)) eqn:Hv.
    - destruct (valid_inv _ _ Hv) as [c [Hc Hfresh]].
      rewrite (getAptosPools_hit up w c Hc Hfresh). cbn [fst snd].
      split; [exact Hok |]. exists (data c). split; [reflexivity |].
      destruct Hok as [Hp _]. rewrite Hc in Hp. exact Hp.
    - rewrite (getAptosPools_miss w Hv).
      destruct (pools_answer up w) as [all |]; cbn [fst snd].
      + split.
        * destruct Hok as [_ Hq]. split; [apply eqb_aptos_Forall | exact Hq].
        * eexists. split; [reflexivity | apply eqb_aptos_Forall].
      + split; [exact Hok |]. eexists. split; [reflexivity |].
        destruct Hok as [Hp _].
        destruct (poolsCache (w_state w)); [exact Hp | constructor]. }
  split; [| split; [| split; [exact (proj1 Hpools) | split; [| split; [| exact (proj2 Hpools)]]]]].
  - destruct (DeFiLlamaService.valid (tvlCache (w_state w)) (w_clock w)) eqn:Hv.
    + destruct (valid_inv _ _ Hv) as [c [Hc Hfresh]].
      rewrite (getAptosTVL_hit up w c Hc Hfresh). exact Hok.
    + rewrite (getAptosTVL_miss up w Hv).
      destruct (aptos_tvl_answer up w); exact Hok.
  - destruct (DeFiLlamaService.valid (protocolsCache (w_state w)) (w_clock w)) eqn:Hv.
    + destruct (valid_inv _ _ Hv) as [c [Hc Hfresh]].
      rewrite (getTopAptosProtocols_hit up limit w c Hc Hfresh). exact Hok.
    + rewrite (getTopAptosProtocols_miss up limit w Hv).
      destruct (tracked_answer up w) as [[| p ps] |] eqn:Ha; try exact Hok.
      cbn [fst snd]. destruct Hok as [Hp _]. split; [exact Hp |].
      cbn [w_state llama_with_state llama_after protocolsCache
           DeFiLlamaService.set_protocolsCache data].
      apply Forall_map. apply slice0_Forall.
      eapply Permutation_Forall; [symmetry; apply Array_sort_permutation |].
      unfold tracked_answer in Ha.
      destruct (llama_answer up w Protocols) as [body | e]; [| discriminate].
      destruct (as_array body) as [protocols |]; [| discriminate].
      injection Ha as Ha. rewrite <- Ha.
      apply Forall_forall. intros q Hq.
      apply list_elem_of_filter in Hq as [Hq _]. now apply tracked_entry.
  - destruct (getAptosPools_returns w) as [pools [w' Hrun]].
    unfold DeFiLlamaService.getBestYieldOpportunities.
    rewrite llama_run_try_catch, llama_run_bind, Hrun. cbn [fst snd run ret].
    rewrite Hrun in Hpools. exact (proj1 Hpools).
  - rewrite getProtocolDetails_run. exact Hok.
Qed.

End Llama_pools.

Section Llama_pools_evaluation.

Import Llama.

Lemma getBestYieldOpportunities_ranking_witness :
  exists pools,
    fst (run llama_online DeFiLlamaService.getAptosPools llama_cold) = Ok pools /\
    Forall (fun p => JS.isNaN (apy p) = false) pools /\
    exists ranked,
      descending apy ranked /\
      length ranked = 3%nat /\
      fst (run llama_online
             (DeFiLlamaService.getBestYieldOpportunities "usdc" (Some 2)) llama_cold)
        = Ok (map DeFiLlamaService.yield_opportunity (slice0 ranked 2)).
Proof.
  destruct (getBestYieldOpportunities_ranking llama_online "usdc" (Some 2) llama_cold)
    as [pools [w' [Hrun [ranked [Hperm [Hdesc Hbest]]]]]].
  exists pools. rewrite Hrun. split; [reflexivity |].
  vm_compute in Hrun. injection Hrun as <- <-.
  assert (Hall : Forall (fun p => JS.isNaN (apy p) = false)
                   (filter (fun p => String.eqb (toLowerCase (chain p)) "aptos" = true)
                           sample_pools)) by (vm_compute; repeat constructor).
  split; [exact Hall |].
  exists ranked. split; [exact (Hdesc Hall) |]. split; [| rewrite Hbest; reflexivity].
  apply Permutation_length in Hperm. rewrite Hperm. reflexivity.
Defined.

Lemma llama_caches_invariant_witness :
  llama_caches_ok (w_state llama_cold) /\
  llama_caches_ok
    (w_state (snd (run llama_online (DeFiLlamaService.getTopAptosProtocols None) llama_cold))).
Proof.
  assert (H : llama_caches_ok (w_state llama_cold)) by (split; exact I).
  split; [exact H |].
  exact (proj1 (proj2 (llama_caches_invariant llama_online "APT" "thala" None llama_cold H))).
Defined.

End Llama_pools_evaluation.

(* ===================================================================== *)
(** * C1: the route selector under well-formed answers                    *)
(* ===================================================================== *)

Section Binary64_sign.
Import JS.

Lemma two_to_pos (e : Z) : (0 < two_to e)%Q.
Proof.
  unfold two_to. destruct (0 <=? e) eqn:E.
  - change 0%Q with (inject_Z 0). rewrite <- Zlt_Qlt.
    apply Z.pow_pos_nonneg; lia.
  - apply Qlt_shift_div_l.
    + change 0%Q with (inject_Z 0). rewrite <- Zlt_Qlt.
      apply Z.pow_pos_nonneg; lia.
    + rewrite Qmult_0_l. reflexivity.
Qed.

Lemma round_half_even_nonneg (q : Q) : (0 <= q)%Q -> 0 <= round_half_even q.
Proof.
  intros Hq. unfold round_half_even.
  assert (0 <= Qfloor q) as Hf.
  { change 0 with (Qfloor 0). now apply Qfloor_resp_le. }
  destruct (q - inject_Z (Qfloor q) ?= 1 # 2)%Q; [| lia | lia].
  destruct (Z.even (Qfloor q)); lia.
Qed.

(** The nearest binary64 of a positive rational is never negative. *)
Lemma nearest64_not_negative (q : Q) :
  (0 < q)%Q -> leb (Fin 0) (nearest64 q) = true.
Proof.
  intros Hq. unfold nearest64.
  set (ulp := two_to (Z.max (floor_log2 q) (-1022) - 52)).
  pose proof (two_to_pos (Z.max (floor_log2 q) (-1022) - 52)) as Hulp. fold ulp in Hulp.
  destruct (Qle_bool _ _); [reflexivity |].
  unfold leb.
  assert (0 <= Qred (inject_Z (round_half_even (q / ulp)) * ulp))%Q as H.
  { rewrite Qred_correct.
    assert (0 <= inject_Z (round_half_even (q / ulp)))%Q.
    { change 0%Q with (inject_Z 0). rewrite <- Zle_Qle.
      apply round_half_even_nonneg. apply Qle_shift_div_l; [exact Hulp |].
      rewrite Qmult_0_l. lra. }
    nra. }
  destruct (0 ?= _)%Q eqn:E; try reflexivity.
  apply Qgt_alt in E. lra.
Qed.

(** A string whose binary64 value is positive has a positive value. *)
Lemma to_binary64_positive (x : number) : positive (to_binary64 x) -> positive x.
Proof.
  destruct x as [| | | q]; cbn [to_binary64]; try tauto.
  destruct (sgn q) eqn:E.
  - cbn. lra.
  - apply (proj1 (sgn_Lt q)) in E.
    assert (0 < - q)%Q as Hq by lra.
    pose proof (nearest64_not_negative (- q) Hq) as Hn.
    destruct (nearest64 (- q)) as [| | | r]; cbn; try tauto.
    unfold leb in Hn. destruct (0 ?= r)%Q eqn:C; try discriminate.
    + apply Qeq_alt in C. lra.
    + apply Qlt_alt in C. lra.
  - intros _. cbn. now apply (proj1 (sgn_Gt q)).
Qed.

End Binary64_sign.

Section Upstream_ok.
Import JS.
Context (Math_log10 : number -> number) (up : Upstream).
Hypothesis Hlog : log10_ok Math_log10.
Hypothesis Hup : upstream_ok up.

Lemma caches_ok_same (s s' : State) :
  priceCache (priceService s') = priceCache (priceService s) ->
  poolCache (dexService s') = poolCache (dexService s) ->
  caches_ok s -> caches_ok s'.
Proof.
  intros E1 E2 [Hp Hq]. split.
  - intros k e. rewrite E1. apply Hp.
  - intros k p. rewrite E2. apply Hq.
Qed.

Lemma caches_ok_after_rate_limit (w : World) :
  caches_ok (w_state w) -> caches_ok (w_state (after_rate_limit w)).
Proof.
  destruct (after_rate_limit_caches w) as (E1 & E2 & _).
  apply caches_ok_same; [exact E1 | now rewrite E2].
Qed.

(** A lookup returns a positive price and keeps the caches in order. *)
Lemma lookup_ok (token : TokenType) (w : World) :
  caches_ok (w_state w) ->
  exists p w', run up (PriceService.getTokenPriceWithCache token) w = (Ok p, w') /\
               positive p /\ caches_ok (w_state w').
Proof.
  intros Hok. pose proof Hok as [Hprices Hpools].
  assert (forall e,
            priceCache (priceService (w_state w)) !! toLowerCase (symbol token) = None \/
            (priceCache (priceService (w_state w)) !! toLowerCase (symbol token) = Some e /\
             PriceService.CACHE_DURATION <= w_clock w - timestamp e) ->
            exists p w', run up (PriceService.getTokenPriceWithCache token) w = (Ok p, w') /\
                         positive p /\ caches_ok (w_state w')) as Hmiss.
  { intros e Hstale.
    assert (priceCache (priceService (w_state w)) !! toLowerCase (symbol token) = None \/
            exists e, priceCache (priceService (w_state w)) !! toLowerCase (symbol token)
                      = Some e /\
                      PriceService.CACHE_DURATION <= w_clock w - timestamp e) as Hs.
    { destruct Hstale as [H | H]; [now left | right; now exists e]. }
    rewrite (lookup_miss up token w Hs).
    destruct (COINGECKO_IDS_total token) as [geckoId Hid].
    rewrite (run_fetchTokenPrice up token geckoId w Hid). cbn zeta.
    pose proof (caches_ok_after_rate_limit w Hok) as Hok1.
    set (w1 := after_rate_limit w) in *.
    set (w2 := tick (fst (reply up (length (w_calls w1)) (ReqPrice geckoId)))
                 (log_call (ReqPrice geckoId) w1)).
    assert (caches_ok (w_state w2)) as Hok2 by exact Hok1.
    assert (exists p, match priceCache (priceService (w_state w)) !! toLowerCase (symbol token) with
                      | Some c => Ok (price c)
                      | None =>
                          match PriceService.fallback_price token with
                          | Some p => Ok p
                          | None => Thrown "No price data available"
                          end
                      end = Ok p /\ positive p) as (pf & Hpf & Hpfpos).
    { destruct (priceCache (priceService (w_state w)) !! toLowerCase (symbol token))
        as [c |] eqn:Ec.
      - exists (price c). split; [reflexivity | now apply (Hprices _ c Ec)].
      - destruct (fallback_price_positive token) as (p & -> & Hp). now exists p. }
    destruct (snd (reply up (length (w_calls w1)) (ReqPrice geckoId)))
      as [[p |] |] eqn:Er.
    - destruct (truthy p) eqn:Tp.
      + assert (positive p) as Hp.
        { destruct Hup as (Hup1 & _). eapply Hup1; eassumption. }
        eexists. eexists. split; [reflexivity |]. split; [exact Hp |].
        destruct Hok2 as [Hp2 Hq2]. split.
        * intros k e0. cbn. intros Hk.
          apply lookup_insert_Some in Hk as [[_ <-] | [_ Hk]]; [exact Hp |].
          now apply (Hp2 k e0).
        * exact Hq2.
      + rewrite Hpf. exists pf, w2. auto.
    - rewrite Hpf. exists pf, w2. auto.
    - rewrite Hpf. exists pf, w2. auto. }
  destruct (priceCache (priceService (w_state w)) !! toLowerCase (symbol token))
    as [e |] eqn:E.
  - destruct (Z_lt_ge_dec (w_clock w - timestamp e) PriceService.CACHE_DURATION)
      as [Hfresh | Hstale].
    + exists (price e), w. split; [now apply lookup_fresh |].
      split; [now apply (Hprices _ e E) | exact Hok].
    + apply (Hmiss e). right. split; [reflexivity | lia].
  - apply (Hmiss {| price := Fin 0; timestamp := 0 |}). now left.
Qed.

Lemma quote_prices_ok (tokenIn tokenOut : TokenType) (w : World) :
  caches_ok (w_state w) ->
  exists pin pout w',
    run up (DexService.quote_prices tokenIn tokenOut) w = (Ok (pin, pout), w') /\
    positive pin /\ positive pout /\ caches_ok (w_state w').
Proof.
  intros Hok. unfold DexService.quote_prices. rewrite run_pbind.
  destruct (lookup_ok tokenIn w Hok) as (pin & w1 & -> & Hpin & Hok1).
  rewrite run_pbind.
  destruct (lookup_ok tokenOut w1 Hok1) as (pout & w2 & -> & Hpout & Hok2).
  rewrite run_ret. exists pin, pout, w2. auto.
Qed.

Lemma getDexQuote_ok (k : DexKey) (tokenIn tokenOut : TokenType)
    (amount : number) (w : World) :
  positive amount -> caches_ok (w_state w) ->
  exists oq w',
    run up (DexService.getDexQuote Math_log10 k tokenIn tokenOut amount) w = (Ok oq, w') /\
    caches_ok (w_state w') /\ output_ok oq.
Proof.
  intros Ha Hok. unfold DexService.getDexQuote.
  rewrite run_try_catch, run_bind.
  destruct (quote_prices_ok tokenIn tokenOut w Hok)
    as (pin & pout & w1 & -> & Hpin & Hpout & Hok1).
  cbn [fst snd].
  rewrite (truthy_positive pin Hpin), (truthy_positive pout Hpout).
  cbn [negb orb]. rewrite run_bind, run_gets.
  destruct (poolCache (dexService (w_state w1)) !! name (APTOS_DEXES k)) as [pd |] eqn:Ep;
    rewrite run_ret; eexists; eexists; (split; [reflexivity |]);
    (split; [exact Hok1 |]); intros q Hq; inversion Hq; subst.
  destruct Hok1 as [_ Hpools].
  now apply makeQuote_nonneg; [| | | | apply (Hpools _ pd Ep)].
Qed.

Lemma quotes_ok (tokenIn tokenOut : TokenType) (amount : number) (ks : list DexKey) :
  positive amount ->
  forall w, caches_ok (w_state w) ->
  exists qs w',
    run up (promise_all (fun k => DexService.getDexQuote Math_log10 k tokenIn tokenOut amount) ks) w
    = (Ok qs, w') /\
    caches_ok (w_state w') /\ Forall output_ok qs.
Proof.
  intros Ha. induction ks as [| k ks IH]; intros w Hok.
  - exists [], w. split; [reflexivity |]. split; [exact Hok | constructor].
  - cbn [promise_all]. rewrite run_bind.
    destruct (getDexQuote_ok k tokenIn tokenOut amount w Ha Hok) as (oq & w1 & -> & Hok1 & Hoq).
    rewrite run_bind.
    destruct (IH w1 Hok1) as (qs & w2 & -> & Hok2 & Hqs).
    rewrite run_ret. exists (oq :: qs), w2. split; [reflexivity |].
    split; [exact Hok2 | now constructor].
Qed.

Lemma pool_results_ok (ks : list DexKey) :
  forall n k p, In (k, Some p) (pool_results up n ks) -> pool_ok p.
Proof.
  induction ks as [| dk ks IH]; intros n k p; cbn [pool_results In]; [tauto |].
  intros [H | H]; [| now apply (IH (S n) k p)].
  destruct (snd (reply up n (ReqPool (liquiditySource (APTOS_DEXES dk))))) as [data |] eqn:Er;
    [| discriminate].
  inversion H as [[Hk Hp]]. rewrite Hp in Er.
  destruct Hup as (_ & Hup2 & _). eapply Hup2. exact Er.
Qed.

Lemma store_pools_ok (results : list (string * option PoolData)) :
  forall cache,
    (forall k p, cache !! k = Some p -> pool_ok p) ->
    (forall k p, In (k, Some p) results -> pool_ok p) ->
    forall k p, DexService.store_pools results cache !! k = Some p -> pool_ok p.
Proof.
  induction results as [| [d [data |]] rest IH]; intros cache Hc Hr k p;
    cbn [DexService.store_pools].
  - apply Hc.
  - apply IH.
    + intros k' p' Hk'. apply lookup_insert_Some in Hk' as [[_ <-] | [_ Hk']].
      * apply (Hr d data). now left.
      * now apply (Hc k' p').
    + intros k' p' Hin. apply (Hr k' p'). now right.
  - apply IH; [exact Hc |]. intros k' p' Hin. apply (Hr k' p'). now right.
Qed.

Lemma fetchPoolData_ok (w : World) :
  caches_ok (w_state w) ->
  exists r w', run up DexService.fetchPoolData w = (r, w') /\ caches_ok (w_state w').
Proof.
  intros Hok. unfold DexService.fetchPoolData.
  rewrite run_bind, run_dateNow, run_bind, run_gets.
  destruct (_ && _).
  - rewrite run_ret. exists (Ok tt), w. split; [reflexivity | exact Hok].
  - rewrite run_try_catch, run_bind.
    destruct (run_fetch_pools up dex_entries w) as (w1 & -> & E1 & _).
    rewrite run_modify. eexists. eexists. split; [reflexivity |].
    destruct Hok as [Hp Hq]. split.
    + cbn [w_state with_state set_dexService priceService]. rewrite E1. exact Hp.
    + cbn [w_state with_state set_dexService dexService poolCache].
      apply store_pools_ok.
      * intros k p. rewrite lookup_empty. discriminate.
      * apply pool_results_ok.
Qed.

Lemma getAllDexQuotes_ok (tokenIn tokenOut : TokenType) (amount : number) (w : World) :
  positive amount -> caches_ok (w_state w) ->
  exists r w',
    run up (DexService.getAllDexQuotes Math_log10 tokenIn tokenOut amount) w = (r, w') /\
    caches_ok (w_state w') /\
    match r with
    | Ok qs => Forall output_ok qs
    | Thrown _ => True
    end.
Proof.
  intros Ha Hok. unfold DexService.getAllDexQuotes. rewrite run_bind.
  destruct (fetchPoolData_ok w Hok) as ([[] | e] & w1 & -> & Hok1).
  - destruct (quotes_ok tokenIn tokenOut amount dex_entries Ha w1 Hok1)
      as (qs & w2 & -> & Hok2 & Hqs).
    exists (Ok qs), w2. auto.
  - exists (Thrown e), w1. auto.
Qed.

Lemma generate_ok (tokenIn tokenOut : TokenType) (amount : string) (w : World) :
  nonneg (parseFloat amount) -> caches_ok (w_state w) ->
  exists r w',
    run up (SwapService.generateFallbackSwapRoute tokenIn tokenOut amount) w = (Ok r, w') /\
    parses_nonneg (expectedOutput r).
Proof.
  intros Ha Hok. rewrite run_generateFallbackSwapRoute.
  unfold SwapService.fallback_prices. rewrite run_try_catch, run_bind.
  destruct (lookup_ok tokenIn w Hok) as (pin & w1 & -> & Hpin & Hok1).
  rewrite run_bind.
  destruct (lookup_ok tokenOut w1 Hok1) as (pout & w2 & -> & Hpout & Hok2).
  rewrite run_ret. eexists. eexists. split; [reflexivity |].
  cbn [fst snd]. rewrite (or_else_positive pin), (or_else_positive pout) by assumption.
  unfold SwapService.fallback_route. cbn [expectedOutput].
  apply toFixed_parses_nonneg.
  destruct (parseFloat amount) as [| | |a]; try contradiction.
  destruct pin as [| | |p]; try contradiction.
  destruct pout as [| | |o]; try contradiction.
  simpl in Ha, Hpin, Hpout. cbn [mul]. rewrite div_Fin_pos by exact Hpout.
  simpl. apply Qle_shift_div_l; [exact Hpout | nra].
Qed.

Lemma getFallbackSwapRoute_ok (tokenIn tokenOut : TokenType) (amount : string)
    (w : World) :
  positive (parseFloat amount) -> caches_ok (w_state w) ->
  exists r w',
    run up (SwapService.getFallbackSwapRoute Math_log10 tokenIn tokenOut amount) w
    = (Ok r, w') /\
    parses_nonneg (expectedOutput r).
Proof.
  intros Ha Hok. rewrite run_getFallbackSwapRoute.
  destruct (getAllDexQuotes_ok tokenIn tokenOut (parseFloat amount) w Ha Hok)
    as (res & w1 & -> & Hok1 & Hres).
  destruct res as [qs | e];
    [| now apply generate_ok; [apply positive_nonneg |]].
  destruct (SwapService.route_of_quotes tokenIn tokenOut amount qs) as [r |] eqn:Er;
    [| now apply generate_ok; [apply positive_nonneg |]].
  exists r, w1. split; [reflexivity |].
  destruct (route_of_quotes_output _ _ _ _ _ Er) as (q & Hin & ->).
  rewrite Forall_forall in Hres.
  apply (Hres (Some q)); [now apply list_elem_of_In | reflexivity].
Qed.

Lemma getBestSwapRoute_ok (tokenIn tokenOut : TokenType) (amount : string) (w : World) :
  positive (parseFloat amount) -> caches_ok (w_state w) ->
  exists r w',
    run up (SwapService.getBestSwapRoute Math_log10 tokenIn tokenOut amount) w
    = (Ok r, w') /\
    parses_not_negative (expectedOutput r).
Proof.
  intros Ha Hok. rewrite run_getBestSwapRoute, run_try_panora.
  assert (caches_ok (w_state (after_panora up w tokenIn tokenOut amount))) as Hok1.
  { unfold after_panora. destruct (panoraClient (swapService (w_state w))); exact Hok. }
  unfold panora_routes.
  destruct (panoraClient (swapService (w_state w))) as [c |] eqn:Ec.
  2: { destruct (getFallbackSwapRoute_ok tokenIn tokenOut amount _ Ha Hok1)
         as (r & w' & Hrun & Hnn).
       exists r, w'. split; [exact Hrun | now apply parses_nonneg_not_negative]. }
  destruct (panora_answer up w tokenIn tokenOut amount) as [[[data |] |] |] eqn:Ea.
  2-4: destruct (getFallbackSwapRoute_ok tokenIn tokenOut amount _ Ha Hok1)
         as (r & w' & Hrun & Hnn);
       exists r, w'; (split; [exact Hrun | now apply parses_nonneg_not_negative]).
  destruct (pd_routes data) as [[| best rest] |] eqn:Erts.
  1,3: destruct (getFallbackSwapRoute_ok tokenIn tokenOut amount _ Ha Hok1)
         as (r & w' & Hrun & Hnn);
       exists r, w'; (split; [exact Hrun | now apply parses_nonneg_not_negative]).
  cbn zeta. unfold SwapService.route_of_panora. rewrite Erts. cbn [default].
  eexists. eexists. split; [reflexivity |]. cbn [expectedOutput].
  destruct Hup as (_ & _ & Hup3). eapply Hup3. exact Ea.
Qed.

End Upstream_ok.


Section Selector_total_witness.
Import JS.

Lemma prices_only_ok : upstream_ok prices_only.
Proof.
  split; [| split].
  - intros n geckoId p H _. cbn in H. inversion H; subst. vm_compute. reflexivity.
  - intros n source pd H. cbn in H. discriminate.
  - intros n params data H. cbn in H. discriminate.
Qed.

Lemma cold_caches_ok (t : Z) : caches_ok (w_state (cold_world t)).
Proof.
  split; intros k e H; cbn in H; rewrite lookup_empty in H; discriminate.
Qed.



End Selector_total_witness.
